(** * Project Manager: a shallow embedding of the request guards and handlers

    The development follows the layout of the repository:
    - [Js]: the string and regular-expression primitives the handlers rely on;
    - [Libraries]: the third-party functions that are called but not
      implemented in the repository (validator.js, bcrypt, the engine's
      [Date] parser, the collation of the SQL store);
    - [Store]: the two tables of [database/createTables.js] and the SQL
      statements the handlers issue, with the store's constraints;
    - [Http]: requests, sessions, responses, and the handler monad (state
      passing over the session and the connection pool, with exceptions);
    - [Validator]: the express-validator chains as data, and their
      interpreter;
    - one module per source file for the guards and the routes;
    - [RateLimit]: the attempts table of [authRateLimit], with the entry
      objects kept in a heap since closures alias them;
    - [Bootstrap]: the schema bootstrap of [database/].

    Strings are sequences of 8-bit character codes; requests whose fields
    contain characters outside that range are not covered. *)

From Stdlib Require Import ZArith Lia Bool List String Ascii DecimalString.
From stdpp Require Import base option list strings gmap.
Import ListNotations.

Local Open Scope string_scope.
Local Open Scope list_scope.

(** ** JavaScript string primitives *)

Module Js.

Definition code (c : ascii) : nat := nat_of_ascii c.

Definition in_range (lo hi : nat) (c : ascii) : bool :=
  Nat.leb lo (code c) && Nat.leb (code c) hi.

(** White space and line terminators, as [\s] and [String.prototype.trim]
    have them, among the 8-bit codes: TAB, LF, VT, FF, CR, SPACE and
    NO-BREAK SPACE. *)
Definition is_space (c : ascii) : bool :=
  in_range 9 13 c || Nat.eqb (code c) 32 || Nat.eqb (code c) 160.

(** Line terminators, which [.] does not match. *)
Definition is_line_terminator (c : ascii) : bool :=
  Nat.eqb (code c) 10 || Nat.eqb (code c) 13.

Definition is_lower (c : ascii) : bool := in_range 97 122 c.
Definition is_upper (c : ascii) : bool := in_range 65 90 c.
Definition is_digit (c : ascii) : bool := in_range 48 57 c.

(** The class [[a-zA-Z0-9_]]. *)
Definition is_word (c : ascii) : bool :=
  is_lower c || is_upper c || is_digit c || Nat.eqb (code c) 95.

Fixpoint all_chars (p : ascii -> bool) (s : string) : bool :=
  match s with
  | EmptyString => true
  | String c r => p c && all_chars p r
  end.

Fixpoint some_char (p : ascii -> bool) (s : string) : bool :=
  match s with
  | EmptyString => false
  | String c r => p c || some_char p r
  end.

Definition is_empty (s : string) : bool :=
  match s with EmptyString => true | _ => false end.

Fixpoint trim_start (s : string) : string :=
  match s with
  | EmptyString => EmptyString
  | String c r => if is_space c then trim_start r else s
  end.

Fixpoint trim_end (s : string) : string :=
  match s with
  | EmptyString => EmptyString
  | String c r =>
      let r' := trim_end r in
      if is_empty r' && is_space c then EmptyString else String c r'
  end.

(** [String.prototype.trim], and validator's [trim] without a character
    list. *)
Definition trim (s : string) : string := trim_end (trim_start s).

(** [hay.indexOf(needle) > -1]. *)
Fixpoint includes (needle hay : string) : bool :=
  if String.prefix needle hay then true
  else match hay with
       | EmptyString => false
       | String _ r => includes needle r
       end.

(** The prefix of [s] that [.*] can run over from position 0. *)
Fixpoint first_line (s : string) : string :=
  match s with
  | EmptyString => EmptyString
  | String c r => if is_line_terminator c then EmptyString else String c (first_line r)
  end.

(** [value.replace(/[<>]/g, '')]. *)
Fixpoint strip_angle (s : string) : string :=
  match s with
  | EmptyString => EmptyString
  | String c r =>
      if Nat.eqb (code c) 60 || Nat.eqb (code c) 62 then strip_angle r
      else String c (strip_angle r)
  end.

(** [/^[a-zA-Z0-9_]+$/] *)
Definition re_username (s : string) : bool :=
  negb (is_empty s) && all_chars is_word s.

(** [/^(?=.*[a-z])(?=.*[A-Z])(?=.*\d)/] *)
Definition re_password_mixed (s : string) : bool :=
  let l := first_line s in
  some_char is_lower l && some_char is_upper l && some_char is_digit l.

(** The class [[A-Za-z\d@$!%*#?&]]. *)
Definition is_password_char (c : ascii) : bool :=
  is_lower c || is_upper c || is_digit c
  || existsb (Nat.eqb (code c)) [64; 36; 33; 37; 42; 35; 63; 38]%nat.

(** [/^(?=.*[A-Za-z])(?=.*\d)[A-Za-z\d@$!%*#?&]{6,}$/] *)
Definition re_strong_password (s : string) : bool :=
  let l := first_line s in
  some_char (fun c => is_lower c || is_upper c) l && some_char is_digit l
  && Nat.leb 6 (String.length s) && all_chars is_password_char s.

(** The class [[a-zA-Z0-9\s\-_.()]]. *)
Definition is_title_char (c : ascii) : bool :=
  is_lower c || is_upper c || is_digit c || is_space c
  || existsb (Nat.eqb (code c)) [45; 95; 46; 40; 41]%nat.

(** [/^[a-zA-Z0-9\s\-_.()]+$/] *)
Definition re_title (s : string) : bool :=
  negb (is_empty s) && all_chars is_title_char s.

End Js.

(** ** Third-party functions

    None of these is implemented in the repository; the handlers call them
    and the development is parametric in them. *)

Class Libraries := {
  (** validator.js *)
  isEmail : string -> bool;
  normalizeEmail : string -> string;
  isISO8601 : string -> bool;
  (** bcrypt; the salt drawn by [hash] is fixed by the instance.  A hash
      is a text of 60 characters, whatever the password and the cost. *)
  bcrypt_hash : string -> nat -> string;
  bcrypt_hash_length : forall pw cost, String.length (bcrypt_hash pw cost) = 60;
  bcrypt_compare : string -> string -> bool;
  (** [Date.parse] on a non-empty string: the time value in milliseconds,
      or [None] for NaN. *)
  Date_parse : string -> option Z;
  (** [isNaN] applied to a text (the route parameter). *)
  js_isNaN : string -> bool;
  (** Equality of two texts under the collation of the store's columns. *)
  collate_eq : string -> string -> bool;
  (** The integer key a text bound to [pid = ?] compares equal to, if any. *)
  sql_key : string -> option nat;
  (** The date a [DATE] column takes for a text bound to it, as the store
      shows it, or [None] when the store refuses the text. *)
  sql_date : string -> option string;
  (** [ORDER BY start_date DESC] as the store performs it; [A] is the row
      type and the first argument reads the column. *)
  order_by_desc : forall A : Type, (A -> string) -> list A -> list A
}.

(** ** Exceptions and state

    A computation over a mutable state [S] that may throw: it returns its
    result or the message of the error, and the state as it left it. *)

Module Exn.

Inductive outcome (A : Type) :=
| Done (a : A)
| Failed (msg : string).
Arguments Done {A} _.
Arguments Failed {A} _.

(** Total computations. *)
Definition action (S A : Type) : Type := S -> A * S.

(** Computations that may throw. *)
Definition M (S A : Type) : Type := action S (outcome A).

Definition ret {S A} (a : A) : M S A := fun w => (Done a, w).

Definition bind {S A B} (m : M S A) (k : A -> M S B) : M S B :=
  fun w =>
    match m w with
    | (Done a, w') => k a w'
    | (Failed e, w') => (Failed e, w')
    end.

Definition throw {S A} (e : string) : M S A := fun w => (Failed e, w).

(** [try { body } catch (error) { handler }] *)
Definition try_catch {S A} (body : M S A) (handler : action S A) : action S A :=
  fun w =>
    match body w with
    | (Done a, w') => (a, w')
    | (Failed _, w') => handler w'
    end.

End Exn.

Declare Scope handler_scope.
Delimit Scope handler_scope with handler.
Notation "'let*' x ':=' m 'in' k" := (Exn.bind m (fun x => k))
  (at level 10, x name, m at level 100, k at level 200) : handler_scope.

(** ** The relational store *)

Module Store.
Import Exn.

Inductive phase := design | development | testing | deployment | complete.

Definition phase_name (p : phase) : string :=
  match p with
  | design => "design"
  | development => "development"
  | testing => "testing"
  | deployment => "deployment"
  | complete => "complete"
  end.

Definition all_phases : list phase :=
  [design; development; testing; deployment; complete].

(** The value an [ENUM] column takes for a text, if it is a member. *)
Definition phase_of_string (s : string) : option phase :=
  List.find (fun p => String.eqb (phase_name p) s) all_phases.

(** [users] *)
Record user_row := {
  u_uid : nat;
  u_username : string;
  u_password : string;
  u_email : string;
  u_created_at : Z
}.

(** [projects] *)
Record project_row := {
  p_pid : nat;
  p_title : string;
  p_start_date : string;
  p_end_date : option string;
  p_short_description : string;
  p_phase : phase;
  p_uid : nat;
  p_created_at : Z;
  p_updated_at : Z
}.

(** A table: its rows in insertion order and its [AUTO_INCREMENT] counter. *)
Record table (A : Type) := { rows : list A; auto_increment : nat }.
Arguments rows {A} _.
Arguments auto_increment {A} _.

Record database := {
  users : table user_row;
  projects : table project_row
}.

Definition with_users (d : database) (t : table user_row) : database :=
  {| users := t; projects := projects d |}.

Definition with_projects (d : database) (t : table project_row) : database :=
  {| users := users d; projects := t |}.

(** The columns take their values as the server does in strict SQL
    mode, its default: a value that does not fit its column makes the
    statement fail. *)

(** [VARCHAR(n)]: a text of at most [n] characters is stored as it is;
    of a longer one the spaces beyond the [n]-th character are cut off,
    and any other character there is refused. *)
Definition varchar (n : nat) (s : string) : option string :=
  if Nat.leb (String.length s) n then Some s
  else if Js.all_chars (fun c => Nat.eqb (Js.code c) 32)
            (substring n (String.length s - n) s)
       then Some (substring 0 n s)
       else None.

(** [TEXT]: up to 65535 characters of 8 bits. *)
Definition text_column (s : string) : option string :=
  if N.leb (N.of_nat (String.length s)) 65535 then Some s else None.

Section Statements.
Context `{Libraries}.

(** A [DATE] column that may be [NULL]. *)
Definition date_or_null (v : option string) : option (option string) :=
  match v with
  | None => Some None
  | Some s =>
      match sql_date s with
      | Some day => Some (Some day)
      | None => None
      end
  end.

(** The values of the columns [username], [password], [email] of a
    row of [users]. *)
Definition user_values (username password email : string)
    : outcome (string * string * string) :=
  match varchar 50 username, varchar 255 password, varchar 100 email with
  | Some name, Some hash, Some mail => Done (name, hash, mail)
  | _, _, _ => Failed "ER_DATA_TOO_LONG"
  end.

(** The values of the columns [title], [start_date], [end_date],
    [short_description], [phase] of a row of [projects]. *)
Definition project_values (title short_description start_date : string)
    (end_date : option string) (phase_text : string)
    : outcome (string * string * option string * string * phase) :=
  match varchar 100 title, text_column short_description with
  | Some t, Some text =>
      match sql_date start_date, date_or_null end_date with
      | Some first, Some last =>
          match phase_of_string phase_text with
          | Some ph => Done (t, first, last, text, ph)
          | None => Failed "WARN_DATA_TRUNCATED"
          end
      | _, _ => Failed "ER_TRUNCATED_WRONG_VALUE"
      end
  | _, _ => Failed "ER_DATA_TOO_LONG"
  end.

(** [SELECT uid FROM users WHERE username = ? OR email = ?] *)
Definition select_users_by_username_or_email
    (username email : string) (d : database) : list user_row :=
  List.filter
    (fun u => collate_eq (u_username u) username || collate_eq (u_email u) email)
    (rows (users d)).

(** [SELECT * FROM users WHERE username = ?] *)
Definition select_users_by_username (username : string) (d : database)
    : list user_row :=
  List.filter (fun u => collate_eq (u_username u) username) (rows (users d)).

(** [SELECT uid FROM users WHERE email = ?] *)
Definition select_users_by_email (email : string) (d : database)
    : list user_row :=
  List.filter (fun u => collate_eq (u_email u) email) (rows (users d)).

Definition key_matches (key : option nat) (n : nat) : bool :=
  match key with Some k => Nat.eqb k n | None => false end.

(** [SELECT uid FROM projects WHERE pid = ?] *)
Definition select_project_owner (id : string) (d : database) : list nat :=
  List.map p_uid
    (List.filter (fun p => key_matches (sql_key id) (p_pid p)) (rows (projects d))).

(** [SELECT * FROM projects WHERE pid = ? AND uid = ?] *)
Definition select_project_of (id : string) (uid : nat) (d : database)
    : list project_row :=
  List.filter
    (fun p => key_matches (sql_key id) (p_pid p) && Nat.eqb (p_uid p) uid)
    (rows (projects d)).

(** [SELECT p.*, u.username, u.email FROM projects p JOIN users u
    ON p.uid = u.uid WHERE p.pid = ?] *)
Definition select_project_with_owner (id : string) (d : database)
    : list (project_row * user_row) :=
  List.flat_map
    (fun p =>
       List.map (fun u => (p, u))
         (List.filter (fun u => Nat.eqb (p_uid p) (u_uid u)) (rows (users d))))
    (List.filter (fun p => key_matches (sql_key id) (p_pid p)) (rows (projects d))).

(** [SELECT pid, title, phase, start_date FROM projects
    WHERE uid = ? AND pid != ? ORDER BY start_date DESC LIMIT 3] *)
Definition select_related (uid : nat) (id : string) (d : database)
    : list project_row :=
  List.firstn 3
    (order_by_desc project_row p_start_date
       (List.filter
          (fun p => Nat.eqb (p_uid p) uid && negb (key_matches (sql_key id) (p_pid p)))
          (rows (projects d)))).

(** [SELECT COUNT( * ) as count FROM projects WHERE uid = ?] *)
Definition count_projects_of (uid : nat) (d : database) : nat :=
  List.length (List.filter (fun p => Nat.eqb (p_uid p) uid) (rows (projects d))).

(** [SELECT COUNT( * ) as total FROM users] *)
Definition count_users (d : database) : nat := List.length (rows (users d)).

(** [INSERT INTO users (username, email, password) VALUES (?, ?, ?)],
    with the lengths of the columns and the two [UNIQUE] constraints;
    the result is [insertId]. *)
Definition insert_user (username email password : string) (clock : Z)
    (d : database) : outcome nat * database :=
  match user_values username password email with
  | Failed e => (Failed e, d)
  | Done (name, hash, mail) =>
      if List.existsb
           (fun u => collate_eq (u_username u) name || collate_eq (u_email u) mail)
           (rows (users d))
      then (Failed "ER_DUP_ENTRY", d)
      else
        let uid := auto_increment (users d) in
        let row := {| u_uid := uid; u_username := name; u_password := hash;
                      u_email := mail; u_created_at := clock |} in
        (Done uid,
         with_users d {| rows := rows (users d) ++ [row];
                         auto_increment := S uid |})
  end.

(** [INSERT INTO projects (title, short_description, start_date,
    end_date, phase, uid) VALUES (?, ?, ?, ?, ?, ?)], with the types
    of the columns and the foreign key; the result is [insertId]. *)
Definition insert_project (title short_description start_date : string)
    (end_date : option string) (phase_text : string) (uid : nat) (clock : Z)
    (d : database) : outcome nat * database :=
  match project_values title short_description start_date end_date phase_text with
  | Failed e => (Failed e, d)
  | Done (t, first, last, text, ph) =>
      if List.existsb (fun u => Nat.eqb (u_uid u) uid) (rows (users d)) then
        let pid := auto_increment (projects d) in
        let row := {| p_pid := pid; p_title := t; p_start_date := first;
                      p_end_date := last;
                      p_short_description := text;
                      p_phase := ph; p_uid := uid;
                      p_created_at := clock; p_updated_at := clock |} in
        (Done pid,
         with_projects d {| rows := rows (projects d) ++ [row];
                            auto_increment := S pid |})
      else (Failed "ER_NO_REFERENCED_ROW", d)
  end.

Definition same_text (a b : string) : bool := String.eqb a b.

Definition same_opt_text (a b : option string) : bool :=
  match a, b with
  | Some x, Some y => String.eqb x y
  | None, None => true
  | _, _ => false
  end.

Definition same_phase (a b : phase) : bool :=
  String.eqb (phase_name a) (phase_name b).

(** One row under [UPDATE projects SET title = ?, short_description = ?,
    start_date = ?, end_date = ?, phase = ?]; [updated_at] moves only
    when a column changes ([ON UPDATE CURRENT_TIMESTAMP]). *)
Definition set_project (title short_description start_date : string)
    (end_date : option string) (ph : phase) (clock : Z) (p : project_row)
    : project_row :=
  let unchanged :=
    same_text (p_title p) title
    && same_text (p_short_description p) short_description
    && same_text (p_start_date p) start_date
    && same_opt_text (p_end_date p) end_date
    && same_phase (p_phase p) ph in
  {| p_pid := p_pid p; p_title := title; p_start_date := start_date;
     p_end_date := end_date; p_short_description := short_description;
     p_phase := ph; p_uid := p_uid p; p_created_at := p_created_at p;
     p_updated_at := if unchanged then p_updated_at p else clock |}.

(** [UPDATE projects SET ... WHERE pid = ? AND uid = ?]; the result is
    the number of matched rows.  A value that does not fit its column
    fails the statement when a row is matched. *)
Definition update_project (title short_description start_date : string)
    (end_date : option string) (phase_text : string) (id : string) (uid : nat)
    (clock : Z) (d : database) : outcome nat * database :=
  let hit p := key_matches (sql_key id) (p_pid p) && Nat.eqb (p_uid p) uid in
  match project_values title short_description start_date end_date phase_text with
  | Failed e =>
      if List.existsb hit (rows (projects d))
      then (Failed e, d)
      else (Done 0, d)
  | Done (t, first, last, text, ph) =>
      (Done (List.length (List.filter hit (rows (projects d)))),
       with_projects d
         {| rows :=
              List.map
                (fun p => if hit p
                          then set_project t text first last ph clock p
                          else p)
                (rows (projects d));
            auto_increment := auto_increment (projects d) |})
  end.

(** [DELETE FROM projects WHERE pid = ? AND uid = ?]; the result is
    [affectedRows]. *)
Definition delete_project (id : string) (uid : nat) (d : database)
    : outcome nat * database :=
  let hit p := key_matches (sql_key id) (p_pid p) && Nat.eqb (p_uid p) uid in
  (Done (List.length (List.filter hit (rows (projects d)))),
   with_projects d
     {| rows := List.filter (fun p => negb (hit p)) (rows (projects d));
        auto_increment := auto_increment (projects d) |}).

End Statements.

End Store.

(** ** Requests, sessions, responses and the handler monad *)

Module Http.
Import Exn Store.

(** [req.session.user] *)
Record session_user := {
  su_uid : nat;
  su_username : string;
  su_email : string
}.

(** The fields of [req.session] that the guards and handlers touch. *)
Record session := {
  user : option session_user;
  csrfToken : option string;
  returnTo : option string;
  successMessage : option string;
  errorMessage : option string
}.

Definition empty_session : session :=
  {| user := None; csrfToken := None; returnTo := None;
     successMessage := None; errorMessage := None |}.

(** What the guards and handlers read of [req].  [body] gives every field
    of the parsed body as the text the validators see; where a handler
    tells a string from another value ([bcrypt.compare], the [typeof]
    test of [sanitizeRequest]) the value comes as a [posted] below. *)
Record request := {
  method : string;
  originalUrl : string;
  params_id : string;
  body : gmap string string;
  xhr : bool;
  accept : option string;
  x_csrf_token : option string;
  ip : string
}.

Definition with_body (req : request) (b : gmap string string) : request :=
  {| method := method req; originalUrl := originalUrl req;
     params_id := params_id req; body := b; xhr := xhr req;
     accept := accept req; x_csrf_token := x_csrf_token req; ip := ip req |}.

(** A value of the body as the parsers of app.js deliver it
    ([express.urlencoded({ extended: true })] and [express.json()]): a
    string, or a value that is not one (a number or a boolean of a JSON
    body, an array such as [password[]=x] gives, an object) together with
    the text that express-validator's [toString] shows the validators.
    [body] holds the texts. *)
Inductive posted :=
| IsString (s : string)
| NotString (shown : string).

Definition shown (v : posted) : string :=
  match v with
  | IsString s => s
  | NotString s => s
  end.

(** [req.xhr || req.headers.accept?.indexOf('json') > -1] *)
Definition wants_json (req : request) : bool :=
  xhr req
  || match accept req with
     | Some a => Js.includes "json" a
     | None => false
     end.

(** One entry of [errors.array()], or an error object a handler builds. *)
Record verror := { param : option string; msg : string }.

(** Values handed to a view or serialised as JSON. *)
Inductive value :=
| VUndefined
| VNull
| VStr (s : string)
| VNum (n : Z)
| VBool (b : bool)
| VErrors (l : list verror)
| VForm (b : gmap string string)
| VUser (u : session_user)
| VProject (p : project_row)
| VProjectOwner (p : project_row) (username email : string)
| VProjects (l : list project_row)
| VFields (fields : list (string * option string)).

Definition of_field (o : option string) : value :=
  match o with Some s => VStr s | None => VUndefined end.

(** [x || null] for a session field. *)
Definition or_null {A} (f : A -> value) (o : option A) : value :=
  match o with Some a => f a | None => VNull end.

Inductive payload :=
| Render (view : string) (locals : list (string * value))
| Redirect (url : string)
| Json (fields : list (string * value))
| JsonValue (v : value)
| Send (text : string).

Record response := { status : nat; sent : payload }.

Definition render (view : string) (locals : list (string * value)) : response :=
  {| status := 200; sent := Render view locals |}.
Definition redirect (url : string) : response :=
  {| status := 302; sent := Redirect url |}.
Definition json (fields : list (string * value)) : response :=
  {| status := 200; sent := Json fields |}.
Definition json_value (v : value) : response :=
  {| status := 200; sent := JsonValue v |}.
(** [res.status(n)....] *)
Definition with_status (n : nat) (r : response) : response :=
  {| status := n; sent := sent r |}.

(** [req.db]: the data, the store's clock, and what the driver will do
    with the statements to come ([Some msg]: that statement throws
    [msg] without touching the data; past the end of the list every
    statement is carried out). *)
Record pool := {
  data : database;
  clock : Z;
  faults : list (option string)
}.

Record world := { w_session : session; w_pool : pool }.

Definition with_session (w : world) (s : session) : world :=
  {| w_session := s; w_pool := w_pool w |}.

(** Handlers and guards run over the session and the pool. *)
Definition action (A : Type) : Type := Exn.action world A.
Definition M (A : Type) : Type := Exn.M world A.

(** [await req.db.execute(...)] *)
Definition execute {A} (stmt : Z -> database -> outcome A * database) : M A :=
  fun w =>
    let p := w_pool w in
    let run rest :=
      let '(r, d) := stmt (clock p) (data p) in
      (r, {| w_session := w_session w;
             w_pool := {| data := d; clock := clock p; faults := rest |} |}) in
    match faults p with
    | Some e :: rest =>
        (Failed e, {| w_session := w_session w;
                      w_pool := {| data := data p; clock := clock p;
                                   faults := rest |} |})
    | None :: rest => run rest
    | [] => run []
    end.

(** A statement that only reads. *)
Definition query {A} (q : database -> A) : M A :=
  execute (fun _ d => (Done (q d), d)).

(** A member access or call on a form field, which throws on
    [undefined]. *)
Definition defined (v : option string) : M string :=
  match v with
  | Some s => ret s
  | None => throw "TypeError"
  end.

(** Assignments to session fields. *)
Definition modify_session (f : session -> session) : M unit :=
  fun w => (Done tt, with_session w (f (w_session w))).

Definition get_session : M session := fun w => (Done (w_session w), w).

Definition set_user (u : session_user) (s : session) : session :=
  {| user := Some u; csrfToken := csrfToken s; returnTo := returnTo s;
     successMessage := successMessage s; errorMessage := errorMessage s |}.
Definition set_returnTo (o : option string) (s : session) : session :=
  {| user := user s; csrfToken := csrfToken s; returnTo := o;
     successMessage := successMessage s; errorMessage := errorMessage s |}.
Definition set_successMessage (m : string) (s : session) : session :=
  {| user := user s; csrfToken := csrfToken s; returnTo := returnTo s;
     successMessage := Some m; errorMessage := errorMessage s |}.
Definition set_errorMessage (m : string) (s : session) : session :=
  {| user := user s; csrfToken := csrfToken s; returnTo := returnTo s;
     successMessage := successMessage s; errorMessage := Some m |}.
Definition set_csrfToken (t : string) (s : session) : session :=
  {| user := user s; csrfToken := Some t; returnTo := returnTo s;
     successMessage := successMessage s; errorMessage := errorMessage s |}.

(** A middleware either answers or calls [next()]. *)
Inductive verdict :=
| Answer (r : response)
| Next.

(** [router.METHOD(path, guard, handler)] *)
Definition guarded (g : action verdict) (h : action response) : action response :=
  fun w =>
    match g w with
    | (Answer r, w') => (r, w')
    | (Next, w') => h w'
    end.

End Http.


(** ** express-validator chains

    A chain is kept as the list of calls made on [body(field)], in source
    order, and interpreted the way the library runs it: sanitizers rewrite
    the field, every validator runs even after an earlier one failed,
    [withMessage] names the message of the validator added last before it,
    and [Optional], which stands for
    [optional({ nullable: true, checkFalsy: true })], skips the items while
    the field is falsy. *)

Module Validator.
Import Exn Http.

Section Chains.
Context `{Libraries}.

Definition fields := gmap string string.

(** The library's [toString] on a form field. *)
Definition to_str (v : option string) : string :=
  match v with Some s => s | None => "" end.

(** [!value] *)
Definition falsy (v : option string) : bool :=
  match v with Some s => Js.is_empty s | None => true end.

(** A validator proper: it throws the message of the failure. *)
Definition test := option string -> fields -> M unit.

Definition standard (p : string -> bool) : test :=
  fun v _ => if p (to_str v) then ret tt else throw "Invalid value".

Inductive step :=
| Trim
| NormalizeEmail
| CustomSanitizer (f : option string -> option string)
| IsLength (min : nat) (max : option nat)
| Matches (re : string -> bool)
| IsEmail
| IsISO8601
| NotEmpty
| IsIn (allowed : list string)
| Custom (t : test)
| WithMessage (m : string)
| Optional.

Record chain := { field : string; steps : list step }.
Definition body_ (f : string) (l : list step) : chain :=
  {| field := f; steps := l |}.

Definition is_length (min : nat) (max : option nat) (s : string) : bool :=
  Nat.leb min (String.length s)
  && match max with Some m => Nat.leb (String.length s) m | None => true end.

Definition is_in (allowed : list string) (s : string) : bool :=
  List.existsb (String.eqb s) allowed.

(** What the chain runs, once messages are attached. *)
Inductive item :=
| Sanitize (f : option string -> option string)
| Check (t : test) (message : option string).

(** Right to left: a message waits for the validator before it and
    passes over sanitizers; of two messages in a row the later wins. *)
Fixpoint attach (l : list step) : list item * option string :=
  match l with
  | [] => ([], None)
  | s :: rest =>
      let '(items, pending) := attach rest in
      let check t := (Check t pending :: items, None) in
      let sanitize f := (Sanitize f :: items, pending) in
      match s with
      | WithMessage m =>
          (items, match pending with Some _ => pending | None => Some m end)
      | Optional => (items, pending)
      | Trim => sanitize (fun v => Some (Js.trim (to_str v)))
      | NormalizeEmail => sanitize (fun v => Some (normalizeEmail (to_str v)))
      | CustomSanitizer f => sanitize f
      | IsLength min max => check (standard (is_length min max))
      | Matches re => check (standard re)
      | IsEmail => check (standard isEmail)
      | IsISO8601 => check (standard isISO8601)
      | NotEmpty => check (standard (fun s => negb (Js.is_empty s)))
      | IsIn allowed => check (standard (is_in allowed))
      | Custom t => check t
      end
  end.

Definition is_optional (l : list step) : bool :=
  List.existsb (fun s => match s with Optional => true | _ => false end) l.

(** The items of one chain over the current value of its field. *)
Fixpoint run_items (name : string) (optional : bool) (b : fields)
    (l : list item) (v : option string) : action (option string * list verror) :=
  fun w =>
    match l with
    | [] => ((v, []), w)
    | i :: rest =>
        if optional && falsy v then run_items name optional b rest v w
        else
          match i with
          | Sanitize f => run_items name optional b rest (f v) w
          | Check t message =>
              match t v b w with
              | (Exn.Done _, w') => run_items name optional b rest v w'
              | (Exn.Failed thrown, w') =>
                  let e := {| param := Some name;
                              msg := match message with
                                     | Some m => m
                                     | None => thrown
                                     end |} in
                  let '((v', errs), w'') := run_items name optional b rest v w' in
                  ((v', e :: errs), w'')
              end
          end
    end.

(** One chain as a middleware: the errors it adds, and the body with
    the sanitized value written back when it differs. *)
Definition run_chain (c : chain) (b : fields) : action (fields * list verror) :=
  fun w =>
    let v := b !! field c in
    let '((v', errs), w') :=
      run_items (field c) (is_optional (steps c)) b (fst (attach (steps c))) v w in
    let b' :=
      match v' with
      | Some s => if decide (v = Some s) then b else <[field c := s]> b
      | None => b
      end in
    ((b', errs), w').

(** The chains of a route, in order; [validationResult(req).array()]. *)
Fixpoint run_chains (l : list chain) (b : fields) : action (fields * list verror) :=
  fun w =>
    match l with
    | [] => ((b, []), w)
    | c :: rest =>
        let '((b1, e1), w1) := run_chain c b w in
        let '((b2, e2), w2) := run_chains rest b1 w1 in
        ((b2, e1 ++ e2), w2)
    end.

End Chains.

End Validator.

(** ** routes/auth.js *)

Module AuthRoutes.
Import Exn Store Http Validator.
Local Open Scope handler_scope.

Section Routes.
Context `{Libraries}.

Definition registerValidation : list chain := [
  body_ "username"
    [ Trim;
      IsLength 3 (Some 50);
      WithMessage "Username must be between 3 and 50 characters";
      Matches Js.re_username;
      WithMessage "Username can only contain letters, numbers, and underscores" ];
  body_ "email"
    [ Trim;
      IsEmail;
      NormalizeEmail;
      WithMessage "Please provide a valid email address" ];
  body_ "password"
    [ IsLength 6 None;
      WithMessage "Password must be at least 6 characters long";
      Matches Js.re_password_mixed;
      WithMessage "Password must contain at least one lowercase letter, one uppercase letter, and one number" ];
  body_ "confirmPassword"
    [ Custom (fun value b =>
                if decide (value = b !! "password") then ret tt
                else throw "Passwords do not match") ]
].

Definition loginValidation : list chain := [
  body_ "username" [ Trim; NotEmpty; WithMessage "Username is required" ];
  body_ "password" [ NotEmpty; WithMessage "Password is required" ]
].

Definition logged_in (s : session) : bool :=
  match user s with Some _ => true | None => false end.

(** [res.status(401).redirect('/login')]: [redirect] sets the status
    itself, so the answer goes out with 302, not with 401. *)
Definition requireAuth : action verdict :=
  fun w =>
    if logged_in (w_session w)
    then (Next, w)
    else (Answer (redirect "/login"), w).

Definition requireGuest : action verdict :=
  fun w =>
    if logged_in (w_session w)
    then (Answer (redirect "/dashboard"), w)
    else (Next, w).

Definition is_nil {A} (l : list A) : bool :=
  match l with [] => true | _ => false end.

Definition register_view (errors : list verror) (formData : value) : response :=
  render "register"
    [ ("title", VStr "Register"); ("currentPage", VStr "register");
      ("errors", VErrors errors); ("formData", formData) ].

(** The handler of [POST /register], after the validation chains. *)
Definition register_handler (req : request) (errors : list verror)
    : action response :=
  let username := body req !! "username" in
  let email := body req !! "email" in
  let password := body req !! "password" in
  let formData := VFields [("username", username); ("email", email)] in
  try_catch
    (if negb (is_nil errors) then ret (register_view errors formData)
     else
       let* name := defined username in
       let* mail := defined email in
       let* existingUsers :=
         query (select_users_by_username_or_email (Js.trim name) (Js.trim mail)) in
       if negb (is_nil existingUsers) then
         ret (register_view
                [{| param := None; msg := "Username or email already exists" |}]
                formData)
       else
         let* pw := defined password in
         let hashedPassword := bcrypt_hash pw 12 in
         let* insertId :=
           execute (insert_user (Js.trim name) (Js.trim mail) hashedPassword) in
         let* _ :=
           modify_session
             (set_user {| su_uid := insertId; su_username := Js.trim name;
                          su_email := Js.trim mail |}) in
         let* _ :=
           modify_session
             (set_successMessage
                "Account created successfully! Welcome to Project Manager.") in
         ret (redirect "/dashboard"))
    (fun w =>
       (register_view
          [{| param := None; msg := "Registration failed. Please try again." |}]
          (VForm (body req)), w)).

(** A route whose chains run between the guard and the handler. *)
Definition validated (chains : list chain) (req : request)
    (h : request -> list verror -> action response) : action response :=
  fun w =>
    let '((b, errors), w') := run_chains chains (body req) w in
    h (with_body req b) errors w'.

(** [router.post('/register', requireGuest, registerValidation, ...)] *)
Definition post_register (req : request) : action response :=
  guarded requireGuest (validated registerValidation req register_handler).

Definition login_view (error : value) : response :=
  render "login"
    [ ("title", VStr "Login"); ("currentPage", VStr "login"); ("error", error) ].

(** The handler of [POST /login], after the validation chains. *)
Definition login_handler (req : request) (errors : list verror)
    : action response :=
  let username := body req !! "username" in
  let password := body req !! "password" in
  try_catch
    (if negb (is_nil errors) then
       ret (login_view (VStr "Please provide valid username and password"))
     else
       let* name := defined username in
       let* users := query (select_users_by_username (Js.trim name)) in
       match users with
       | [] => ret (login_view (VStr "Invalid username or password"))
       | u :: _ =>
           let* pw := defined password in
           if negb (bcrypt_compare pw (u_password u)) then
             ret (login_view (VStr "Invalid username or password"))
           else
             let* _ :=
               modify_session
                 (set_user {| su_uid := u_uid u; su_username := u_username u;
                              su_email := u_email u |}) in
             let* s := get_session in
             let redirectTo :=
               if Validator.falsy (returnTo s) then "/dashboard"
               else Validator.to_str (returnTo s) in
             let* _ := modify_session (set_returnTo None) in
             let* _ :=
               modify_session
                 (set_successMessage ("Welcome back, " ++ u_username u ++ "!")) in
             ret (redirect redirectTo)
       end)
    (fun w => (login_view (VStr "Login failed. Please try again."), w)).

(** [router.post('/login', requireGuest, loginValidation, ...)] *)
Definition post_login (req : request) : action response :=
  guarded requireGuest (validated loginValidation req login_handler).

(** [bcrypt.compare(password, hash)] of bcryptjs, which rejects with
    "Illegal arguments" unless both are strings. *)
Definition compare (password : posted) (hash : string) : M bool :=
  match password with
  | IsString pw => ret (bcrypt_compare pw hash)
  | NotString _ => throw "Illegal arguments"
  end.

(** The handler of [POST /login] for a body whose [password] is the
    value [password]; [body req] holds the text of it.  On a string it
    is [login_handler]. *)
Definition login_handler_posted (password : posted) (req : request)
    (errors : list verror) : action response :=
  let username := body req !! "username" in
  try_catch
    (if negb (is_nil errors) then
       ret (login_view (VStr "Please provide valid username and password"))
     else
       let* name := defined username in
       let* users := query (select_users_by_username (Js.trim name)) in
       match users with
       | [] => ret (login_view (VStr "Invalid username or password"))
       | u :: _ =>
           let* isValidPassword := compare password (u_password u) in
           if negb isValidPassword then
             ret (login_view (VStr "Invalid username or password"))
           else
             let* _ :=
               modify_session
                 (set_user {| su_uid := u_uid u; su_username := u_username u;
                              su_email := u_email u |}) in
             let* s := get_session in
             let redirectTo :=
               if Validator.falsy (returnTo s) then "/dashboard"
               else Validator.to_str (returnTo s) in
             let* _ := modify_session (set_returnTo None) in
             let* _ :=
               modify_session
                 (set_successMessage ("Welcome back, " ++ u_username u ++ "!")) in
             ret (redirect redirectTo)
       end)
    (fun w => (login_view (VStr "Login failed. Please try again."), w)).

(** [POST /login] with the value [password] in the field [password] of
    the body. *)
Definition post_login_posted (password : posted) (req : request)
    : action response :=
  guarded requireGuest
    (validated loginValidation
       (with_body req (<["password" := shown password]> (body req)))
       (login_handler_posted password)).

(** [router.post('/logout', requireAuth, ...)]; the session store
    carries out [destroy], after which the client holds a fresh
    session. *)
Definition post_logout (req : request) : action response :=
  guarded requireAuth
    (fun w =>
       let username :=
         match user (w_session w) with
         | Some u => su_username u
         | None => ""
         end in
       let w' := with_session w empty_session in
       if xhr req then
         (json [ ("success", VBool true);
                 ("message", VStr ("Goodbye, " ++ username ++ "!")) ], w')
       else (redirect "/?message=logged-out", w')).

End Routes.

End AuthRoutes.

(** ** [Date] values *)

Module JsDate.
Section Dates.
Context `{Libraries}.

(** [new Date(text)]: its time value, [None] for an invalid date. *)
Definition new_Date (text : string) : option Z :=
  if Js.is_empty text then None else Date_parse text.

(** [a <= b] and [a > b] on two dates; a comparison with NaN is false. *)
Definition le (a b : option Z) : bool :=
  match a, b with
  | Some x, Some y => Z.leb x y
  | _, _ => false
  end.

Definition gt (a b : option Z) : bool :=
  match a, b with
  | Some x, Some y => Z.ltb y x
  | _, _ => false
  end.

(** [new Date(d.getTime() + ms)] *)
Definition plus (a : option Z) (ms : Z) : option Z :=
  match a with Some x => Some (x + ms)%Z | None => None end.
End Dates.
End JsDate.

(** ** routes/project.js *)

Module ProjectRoutes.
Import Exn Store Http Validator.
Local Open Scope handler_scope.

Section Routes.
Context `{Libraries}.

Definition phases : list string :=
  ["design"; "development"; "testing"; "deployment"; "complete"].

(** The custom validator of [end_date]. *)
Definition end_after_start : test :=
  fun value b =>
    if negb (falsy value) && negb (falsy (b !! "start_date"))
       && JsDate.le (JsDate.new_Date (to_str value))
                    (JsDate.new_Date (to_str (b !! "start_date")))
    then throw "End date must be after start date"
    else ret tt.

Definition projectValidation : list chain := [
  body_ "title"
    [ Trim;
      IsLength 3 (Some 100);
      WithMessage "Project title must be between 3 and 100 characters" ];
  body_ "short_description"
    [ Trim;
      IsLength 10 (Some 500);
      WithMessage "Short description must be between 10 and 500 characters" ];
  body_ "start_date"
    [ IsISO8601; WithMessage "Please provide a valid start date" ];
  body_ "end_date"
    [ Optional;
      IsISO8601;
      WithMessage "Please provide a valid end date";
      Custom end_after_start ];
  body_ "phase"
    [ IsIn phases; WithMessage "Please select a valid phase" ]
].

(** [req.session.user], which the handlers read after [requireAuth]. *)
Definition session_user_of : M session_user :=
  fun w =>
    match user (w_session w) with
    | Some u => (Done u, w)
    | None => (Failed "TypeError", w)
    end.

(** [x || null] on a form field. *)
Definition or_none (v : option string) : option string :=
  if falsy v then None else v.

(** A form field inside a template literal. *)
Definition template (v : option string) : string :=
  match v with Some s => s | None => "undefined" end.

Definition form_data (b : fields) : list (string * option string) :=
  [ ("title", b !! "title"); ("short_description", b !! "short_description");
    ("start_date", b !! "start_date"); ("end_date", b !! "end_date");
    ("phase", b !! "phase") ].

(** [router.get('/project/:id', ...)] *)
Definition get_project (req : request) : action response :=
  fun w0 =>
    let viewer := or_null VUser (user (w_session w0)) in
    try_catch
      (let* projects := query (select_project_with_owner (params_id req)) in
       match projects with
       | [] =>
           ret (with_status 404
                  (render "error"
                     [ ("title", VStr "Project Not Found");
                       ("message",
                        VStr "The project you are looking for does not exist.");
                       ("user", viewer) ]))
       | (project, owner) :: _ =>
           let isOwner :=
             match user (w_session w0) with
             | Some u => VBool (Nat.eqb (su_uid u) (p_uid project))
             | None => VUndefined
             end in
           ret (render "project-details"
                  [ ("title", VStr (p_title project ++ " - Project Details"));
                    ("user", viewer);
                    ("project",
                     VProjectOwner project (u_username owner) (u_email owner));
                    ("isOwner", isOwner) ])
       end)
      (fun w =>
         (with_status 500
            (render "error"
               [ ("title", VStr "Error Loading Project");
                 ("message",
                  VStr "Unable to load project details. Please try again later.");
                 ("user", viewer) ]), w))
      w0.

Definition add_project_view (u : value) (errors : list verror) (formData : value)
    : response :=
  render "add-project"
    [ ("title", VStr "Add New Project"); ("currentPage", VStr "add-project");
      ("user", u); ("errors", VErrors errors); ("formData", formData) ].

(** The handler of [POST /add-project], after the validation chains. *)
Definition add_project_handler (req : request) (errors : list verror)
    : action response :=
  fun w0 =>
    let b := body req in
    let viewer := or_null VUser (user (w_session w0)) in
    try_catch
      (if negb (AuthRoutes.is_nil errors) then
         ret (add_project_view viewer errors (VFields (form_data b)))
       else
         let* title := defined (b !! "title") in
         let* short_description := defined (b !! "short_description") in
         let* u := session_user_of in
         let* start_date := defined (b !! "start_date") in
         let* phase := defined (b !! "phase") in
         let* _ :=
           execute (insert_project (Js.trim title) (Js.trim short_description)
                      start_date (or_none (b !! "end_date")) phase (su_uid u)) in
         let* _ :=
           modify_session (set_successMessage "Project added successfully!") in
         ret (redirect "/dashboard"))
      (fun w =>
         (add_project_view viewer
            [{| param := None; msg := "Failed to add project. Please try again." |}]
            (VForm b), w))
      w0.

(** [router.post('/add-project', requireAuth, projectValidation, ...)] *)
Definition post_add_project (req : request) : action response :=
  guarded AuthRoutes.requireAuth
    (AuthRoutes.validated projectValidation req add_project_handler).

(** The handler of [POST /edit-project/:id], after the validation
    chains. *)
Definition edit_project_handler (req : request) (errors : list verror)
    : action response :=
  let b := body req in
  let projectId := params_id req in
  try_catch
    (let* u := session_user_of in
     let* existingProjects := query (select_project_of projectId (su_uid u)) in
     if AuthRoutes.is_nil existingProjects then
       let* _ :=
         modify_session
           (set_errorMessage
              "Project not found or you do not have permission to edit it.") in
       ret (redirect "/dashboard")
     else if negb (AuthRoutes.is_nil errors) then
       ret (render "edit-project"
              [ ("title", VStr ("Edit Project: " ++ template (b !! "title")));
                ("currentPage", VStr "dashboard");
                ("project", VFields (("pid", Some projectId) :: form_data b));
                ("errors", VErrors errors);
                ("formData", VFields (form_data b)) ])
     else
       let* title := defined (b !! "title") in
       let* short_description := defined (b !! "short_description") in
       let* start_date := defined (b !! "start_date") in
       let* phase := defined (b !! "phase") in
       let* _ :=
         execute (update_project (Js.trim title) (Js.trim short_description)
                    start_date (or_none (b !! "end_date")) phase projectId
                    (su_uid u)) in
       let* _ :=
         modify_session (set_successMessage "Project updated successfully!") in
       ret (redirect "/dashboard"))
    (fun w =>
       (render "edit-project"
          [ ("title", VStr "Edit Project");
            ("currentPage", VStr "dashboard");
            ("project", VForm (b ∪ {["pid" := projectId]}));
            ("errors",
             VErrors [{| param := None;
                         msg := "Failed to update project. Please try again." |}]);
            ("formData", VForm b) ], w)).

(** [router.post('/edit-project/:id', requireAuth, projectValidation, ...)] *)
Definition post_edit_project (req : request) : action response :=
  guarded AuthRoutes.requireAuth
    (AuthRoutes.validated projectValidation req edit_project_handler).

(** [router.post('/delete-project/:id', requireAuth, ...)] *)
Definition post_delete_project (req : request) : action response :=
  guarded AuthRoutes.requireAuth
    (try_catch
       (let* u := session_user_of in
        let* affectedRows :=
          execute (fun _ => delete_project (params_id req) (su_uid u)) in
        let* _ :=
          modify_session
            (if Nat.eqb affectedRows 0 then
               set_errorMessage
                 "Project not found or you do not have permission to delete it."
             else set_successMessage "Project deleted successfully!") in
        ret (redirect "/dashboard"))
       (fun w =>
          (redirect "/dashboard",
           with_session w
             (set_errorMessage "Failed to delete project. Please try again."
                (w_session w))))).

(** [router.get('/api/projects/:id', requireAuth, ...)] *)
Definition get_api_project (req : request) : action response :=
  guarded AuthRoutes.requireAuth
    (try_catch
       (let* u := session_user_of in
        let* projects := query (select_project_of (params_id req) (su_uid u)) in
        match projects with
        | [] => ret (with_status 404 (json [("error", VStr "Project not found")]))
        | project :: _ => ret (json_value (VProject project))
        end)
       (fun w =>
          (with_status 500 (json [("error", VStr "Failed to fetch project")]), w))).

End Routes.

End ProjectRoutes.

(** ** routes/public.js *)

Module PublicRoutes.
Import Exn Store Http.
Local Open Scope handler_scope.

Section Routes.
Context `{Libraries}.

(** [router.get('/project/:id', ...)] *)
Definition get_project (req : request) : action response :=
  fun w0 =>
    let projectId := params_id req in
    let viewer := or_null VUser (user (w_session w0)) in
    try_catch
      (if Js.is_empty projectId || js_isNaN projectId then
         ret (with_status 404
                (render "error"
                   [ ("title", VStr "Invalid Project");
                     ("message", VStr "Invalid project ID provided.") ]))
       else
         let* projects := query (select_project_with_owner projectId) in
         match projects with
         | [] =>
             ret (with_status 404
                    (render "error"
                       [ ("title", VStr "Project Not Found");
                         ("message",
                          VStr "The requested project could not be found.") ]))
         | (project, owner) :: _ =>
             let* relatedProjects :=
               query (select_related (p_uid project) projectId) in
             let canEdit :=
               match user (w_session w0) with
               | Some u => VBool (Nat.eqb (su_uid u) (p_uid project))
               | None => VUndefined
               end in
             ret (render "project-details"
                    [ ("title", VStr (p_title project));
                      ("currentPage", VStr "projects");
                      ("user", viewer);
                      ("project",
                       VProjectOwner project (u_username owner) (u_email owner));
                      ("relatedProjects", VProjects relatedProjects);
                      ("canEdit", canEdit) ])
         end)
      (fun w =>
         (with_status 500
            (render "error"
               [ ("title", VStr "Error");
                 ("currentPage", VStr "projects");
                 ("user", viewer);
                 ("message",
                  VStr "Unable to load project details. Please try again later.") ]),
          w))
      w0.

End Routes.

End PublicRoutes.

(** ** middleware/auth.js *)

Module AuthMiddleware.
Import Exn Store Http.
Local Open Scope handler_scope.

Section Guards.
Context `{Libraries}.

Definition requireAuth (req : request) : action verdict :=
  fun w =>
    match user (w_session w) with
    | None =>
        let w' :=
          with_session w (set_returnTo (Some (originalUrl req)) (w_session w)) in
        if wants_json req then
          (Answer (with_status 401
                     (json [ ("error", VStr "Authentication required");
                             ("redirectTo", VStr "/login") ])), w')
        else (Answer (redirect "/login"), w')
    | Some _ => (Next, w)
    end.

Definition requireGuest : action verdict :=
  fun w =>
    match user (w_session w) with
    | Some _ => (Answer (redirect "/dashboard"), w)
    | None => (Next, w)
    end.

(** An answer for browsers that leaves a flash message and goes back
    to the dashboard, or the JSON answer for API clients. *)
Definition deny (req : request) (code : nat) (error flash : string) : M verdict :=
  if wants_json req then
    ret (Answer (with_status code (json [("error", VStr error)])))
  else
    let* _ := modify_session (set_errorMessage flash) in
    ret (Answer (redirect "/dashboard")).

Definition requireProjectOwnership (req : request) : action verdict :=
  try_catch
    (let projectId := params_id req in
     let* u := ProjectRoutes.session_user_of in
     let userId := su_uid u in
     if Js.is_empty projectId || Nat.eqb userId 0 then
       ret (Answer
              (with_status 400
                 (json [("error",
                         VStr "Missing project ID or user authentication")])))
     else
       let* projects := query (select_project_owner projectId) in
       match projects with
       | [] => deny req 404 "Project not found" "Project not found."
       | owner :: _ =>
           if negb (Nat.eqb owner userId) then
             deny req 403 "Access denied"
               "You do not have permission to access this project."
           else ret Next
       end)
    (fun w =>
       if wants_json req then
         (Answer (with_status 500 (json [("error", VStr "Server error")])), w)
       else
         (Answer (redirect "/dashboard"),
          with_session w
            (set_errorMessage "Unable to verify project ownership."
               (w_session w)))).

(** [fresh] is the value of [crypto.randomBytes(32).toString('hex')]. *)
Definition generateCSRFToken (fresh : string) : action verdict :=
  fun w =>
    if Validator.falsy (csrfToken (w_session w))
    then (Next, with_session w (set_csrfToken fresh (w_session w)))
    else (Next, w).

(** [a || b] on two optional texts. *)
Definition or_else (a b : option string) : option string :=
  if Validator.falsy a then b else a.

Definition validateCSRFToken (req : request) : action verdict :=
  fun w =>
    if String.eqb (method req) "GET" then (Next, w)
    else
      let sessionToken := csrfToken (w_session w) in
      let requestToken := or_else (body req !! "_csrf") (x_csrf_token req) in
      if Validator.falsy sessionToken || Validator.falsy requestToken
         || negb (bool_decide (sessionToken = requestToken))
      then
        if wants_json req then
          (Answer (with_status 403 (json [("error", VStr "Invalid CSRF token")])), w)
        else
          (Answer
             (with_status 403
                (render "error"
                   [ ("title", VStr "Security Error");
                     ("message",
                      VStr "Invalid security token. Please try again.") ])), w)
      else (Next, w).

End Guards.

End AuthMiddleware.

(** ** middleware/security.js *)

Module SecurityMiddleware.
Import Http.

(** [fresh] is the value of [crypto.randomBytes(32).toString('hex')]. *)
Definition csrfProtection (fresh : string) (req : request) : action verdict :=
  fun w =>
    if String.eqb (method req) "GET" then
      if Validator.falsy (csrfToken (w_session w))
      then (Next, with_session w (set_csrfToken fresh (w_session w)))
      else (Next, w)
    else
      let token :=
        AuthMiddleware.or_else (body req !! "csrfToken") (x_csrf_token req) in
      if Validator.falsy token
         || negb (bool_decide (token = csrfToken (w_session w)))
      then
        (Answer
           (with_status 403
              (render "error"
                 [ ("title", VStr "Security Error");
                   ("message",
                    VStr "Invalid security token. Please refresh the page and try again.");
                   ("user", or_null VUser (user (w_session w))) ])), w)
      else (Next, w).

End SecurityMiddleware.

(** ** middleware/validation.js *)

Module ValidationMiddleware.
Import Exn Store Http Validator.
Local Open Scope handler_scope.

Section Rules.
Context `{Libraries}.

Definition isValidPhase (value : option string) : bool :=
  match value with
  | Some s => is_in ProjectRoutes.phases s
  | None => false
  end.

(** [regex.test(value)] reads [undefined] as the text "undefined". *)
Definition isStrongPassword (value : option string) : bool :=
  Js.re_strong_password (ProjectRoutes.template value).

Definition sanitizeInput (value : option string) : option string :=
  match value with
  | Some s => Some (Js.strip_angle (Js.trim s))
  | None => None
  end.

Definition passwords_match : test :=
  fun value b =>
    if decide (value = b !! "password") then ret tt
    else throw "Passwords do not match".

Definition registerValidation : list chain := [
  body_ "username"
    [ CustomSanitizer sanitizeInput;
      IsLength 3 (Some 30);
      WithMessage "Username must be between 3 and 30 characters";
      Matches Js.re_username;
      WithMessage "Username can only contain letters, numbers, and underscores";
      Custom (fun value _ =>
                let* v := defined value in
                let* users := query (select_users_by_username v) in
                if negb (AuthRoutes.is_nil users)
                then throw "Username is already taken"
                else ret tt) ];
  body_ "email"
    [ CustomSanitizer sanitizeInput;
      IsEmail;
      NormalizeEmail;
      WithMessage "Please provide a valid email address";
      IsLength 0 (Some 100);
      WithMessage "Email is too long";
      Custom (fun value _ =>
                let* v := defined value in
                let* users := query (select_users_by_email v) in
                if negb (AuthRoutes.is_nil users)
                then throw "Email is already registered"
                else ret tt) ];
  body_ "password"
    [ IsLength 6 (Some 128);
      WithMessage "Password must be between 6 and 128 characters";
      Custom (fun value _ =>
                if negb (isStrongPassword value)
                then throw "Password must contain at least one letter and one number"
                else ret tt) ];
  body_ "confirmPassword" [ Custom passwords_match ]
].

Definition year_ms : Z := (365 * 24 * 60 * 60 * 1000)%Z.

(** The custom validator of [start_date]; [now] is [new Date()]. *)
Definition start_within_a_year (now : Z) : test :=
  fun value _ =>
    if JsDate.gt (JsDate.new_Date (to_str value)) (Some (now + year_ms)%Z)
    then throw "Start date cannot be more than 1 year in the future"
    else ret tt.

(** The custom validator of [end_date]. *)
Definition end_after_start : test :=
  fun value b =>
    if negb (falsy value) && negb (falsy (b !! "start_date")) then
      let startDate := JsDate.new_Date (to_str (b !! "start_date")) in
      let endDate := JsDate.new_Date (to_str value) in
      if JsDate.le endDate startDate then
        throw "End date must be after start date"
      else if JsDate.gt endDate (JsDate.plus startDate (10 * year_ms)%Z) then
        throw "End date cannot be more than 10 years after start date"
      else ret tt
    else ret tt.

Definition projectValidation (now : Z) : list chain := [
  body_ "title"
    [ CustomSanitizer sanitizeInput;
      IsLength 3 (Some 100);
      WithMessage "Project title must be between 3 and 100 characters";
      Matches Js.re_title;
      WithMessage "Project title contains invalid characters" ];
  body_ "short_description"
    [ CustomSanitizer sanitizeInput;
      IsLength 10 (Some 500);
      WithMessage "Short description must be between 10 and 500 characters" ];
  body_ "start_date"
    [ IsISO8601;
      WithMessage "Please provide a valid start date (YYYY-MM-DD)";
      Custom (start_within_a_year now) ];
  body_ "end_date"
    [ Optional;
      IsISO8601;
      WithMessage "Please provide a valid end date (YYYY-MM-DD)";
      Custom end_after_start ];
  body_ "phase"
    [ Custom (fun value _ =>
                if negb (isValidPhase value)
                then throw "Please select a valid phase"
                else ret tt) ]
].



End Rules.

End ValidationMiddleware.

(** ** The attempts table of [authRateLimit] (middleware/auth.js)

    [attempts] is a [Map] from addresses to entry objects.  The two
    closures a request receives keep the object found when the request
    came in, so the objects live in a heap and the table holds
    references. *)

Module RateLimit.
Import Http.

Record entry := { count : nat; firstAttempt : Z }.

Definition loc := nat.

Record limiter := {
  attempts : gmap string loc;
  heap : gmap loc entry;
  next_loc : loc
}.

(** [new Map()] *)
Definition fresh_limiter : limiter :=
  {| attempts := ∅; heap := ∅; next_loc := 0 |}.

(** What [recordFailedAttempt] and [clearFailedAttempts] close over. *)
Record handle := {
  h_ip : string;
  h_now : Z;
  h_userAttempts : option loc
}.

Inductive decision :=
| Blocked (r : response)
| Pass (h : handle).

(** A decimal numeral inside a template literal. *)
Definition show (z : Z) : string := NilZero.string_of_int (Z.to_int z).

Section Limiter.
Variables (maxAttempts : nat) (windowMs : Z).

Definition stale (h : gmap loc entry) (now : Z) (l : loc) : bool :=
  match h !! l with
  | Some e => Z.ltb windowMs (now - firstAttempt e)
  | None => false
  end.

(** The clean-up loop over [attempts.entries()]. *)
Definition evict (now : Z) (st : limiter) : limiter :=
  {| attempts :=
       filter (fun kv => stale (heap st) now (snd kv) = false) (attempts st);
     heap := heap st;
     next_loc := next_loc st |}.

(** [Math.ceil((windowMs - (now - firstAttempt)) / 1000 / 60)]; for
    the magnitudes of a time window the two floating-point divisions
    cannot move the quotient across an integer, so the ceiling is
    that of the exact quotient. *)
Definition timeLeft (now first : Z) : Z :=
  (- ((- (windowMs - (now - first))) / 60000))%Z.

Definition too_many (req : request) (left : Z) : response :=
  if wants_json req then
    with_status 429
      (json [ ("error", VStr "Too many login attempts");
              ("timeLeft", VNum left) ])
  else
    render "login"
      [ ("title", VStr "Login");
        ("error",
         VStr ("Too many login attempts. Please try again in "
               ++ show left ++ " minutes.")) ].

(** The middleware up to [next()]. *)
Definition authRateLimit (req : request) (now : Z) (st : limiter)
    : decision * limiter :=
  let st1 := evict now st in
  let userAttempts := attempts st1 !! ip req in
  let pass :=
    Pass {| h_ip := ip req; h_now := now; h_userAttempts := userAttempts |} in
  match userAttempts with
  | Some l =>
      match heap st1 !! l with
      | Some e =>
          if Nat.leb maxAttempts (count e)
          then (Blocked (too_many req (timeLeft now (firstAttempt e))), st1)
          else (pass, st1)
      | None => (pass, st1)
      end
  | None => (pass, st1)
  end.

(** [req.recordFailedAttempt()] *)
Definition recordFailedAttempt (h : handle) (st : limiter) : limiter :=
  match h_userAttempts h with
  | None =>
      let l := next_loc st in
      {| attempts := <[h_ip h := l]> (attempts st);
         heap := <[l := {| count := 1; firstAttempt := h_now h |}]> (heap st);
         next_loc := S l |}
  | Some l =>
      {| attempts := attempts st;
         heap :=
           alter (fun e => {| count := S (count e);
                              firstAttempt := firstAttempt e |}) l (heap st);
         next_loc := next_loc st |}
  end.

(** [req.clearFailedAttempts()] *)
Definition clearFailedAttempts (h : handle) (st : limiter) : limiter :=
  {| attempts := delete (h_ip h) (attempts st);
     heap := heap st;
     next_loc := next_loc st |}.

(** What the handler behind the limiter does with the two closures. *)
Inductive call := RecordFailed | ClearFailed.

Definition perform (h : handle) (st : limiter) (c : call) : limiter :=
  match c with
  | RecordFailed => recordFailedAttempt h st
  | ClearFailed => clearFailedAttempts h st
  end.

(** One request served to completion: the limiter, then the calls
    its handler makes. *)
Record arrival := { a_req : request; a_now : Z; a_calls : list call }.

Definition serve (a : arrival) (st : limiter) : option response * limiter :=
  match authRateLimit (a_req a) (a_now a) st with
  | (Blocked r, st1) => (Some r, st1)
  | (Pass h, st1) => (None, List.fold_left (perform h) (a_calls a) st1)
  end.

(** Requests served one after the other; [None] marks a request that
    reached its handler. *)
Fixpoint run (l : list arrival) (st : limiter) : list (option response) * limiter :=
  match l with
  | [] => ([], st)
  | a :: rest =>
      let '(r, st1) := serve a st in
      let '(rs, st2) := run rest st1 in
      (r :: rs, st2)
  end.

End Limiter.

End RateLimit.

(** ** database/: the schema bootstrap *)

Module Bootstrap.
Import Exn Store.
Local Open Scope handler_scope.

(** One database of the server: each table exists or not. *)
Record schema := {
  s_users : option (table user_row);
  s_projects : option (table project_row)
}.

Definition empty_schema : schema := {| s_users := None; s_projects := None |}.

Definition empty_table {A} : table A := {| rows := []; auto_increment := 1 |}.

(** The server behind the setup connection: its databases by name, its
    clock, what the driver does with the statements to come (as for
    [Http.pool]), and whether it accepts connections. *)
Record mysql := {
  databases : gmap string schema;
  now : Z;
  upcoming : list (option string);
  accepting : bool
}.

Definition with_databases (m : mysql) (dbs : gmap string schema) : mysql :=
  {| databases := dbs; now := now m; upcoming := upcoming m;
     accepting := accepting m |}.

Definition with_upcoming (m : mysql) (l : list (option string)) : mysql :=
  {| databases := databases m; now := now m; upcoming := l;
     accepting := accepting m |}.

(** [await db.execute(...)] and [await db.query(...)] *)
Definition execute {A}
    (stmt : Z -> gmap string schema -> outcome A * gmap string schema)
    : M mysql A :=
  fun m =>
    let run rest :=
      let '(r, dbs) := stmt (now m) (databases m) in
      (r, with_upcoming (with_databases m dbs) rest) in
    match upcoming m with
    | Some e :: rest => (Failed e, with_upcoming m rest)
    | None :: rest => run rest
    | [] => run []
    end.

(** [CREATE DATABASE IF NOT EXISTS `name`] *)
Definition create_database (name : string) (_ : Z) (dbs : gmap string schema)
    : outcome unit * gmap string schema :=
  match dbs !! name with
  | Some _ => (Done tt, dbs)
  | None => (Done tt, <[name := empty_schema]> dbs)
  end.

(** [CREATE TABLE IF NOT EXISTS name.users (...)] *)
Definition create_users (name : string) (_ : Z) (dbs : gmap string schema)
    : outcome unit * gmap string schema :=
  match dbs !! name with
  | None => (Failed "ER_BAD_DB_ERROR", dbs)
  | Some sc =>
      match s_users sc with
      | Some _ => (Done tt, dbs)
      | None =>
          (Done tt,
           <[name := {| s_users := Some empty_table;
                        s_projects := s_projects sc |}]> dbs)
      end
  end.

(** [CREATE TABLE IF NOT EXISTS name.projects (... FOREIGN KEY (uid)
    REFERENCES name.users(uid))] *)
Definition create_projects (name : string) (_ : Z) (dbs : gmap string schema)
    : outcome unit * gmap string schema :=
  match dbs !! name with
  | None => (Failed "ER_BAD_DB_ERROR", dbs)
  | Some sc =>
      match s_projects sc with
      | Some _ => (Done tt, dbs)
      | None =>
          match s_users sc with
          | None => (Failed "ER_FK_CANNOT_OPEN_PARENT", dbs)
          | Some _ =>
              (Done tt,
               <[name := {| s_users := s_users sc;
                            s_projects := Some empty_table |}]> dbs)
          end
      end
  end.

(** A statement on the tables of database [name]. *)
Definition in_database {A} (name : string) (need_projects : bool)
    (stmt : Z -> database -> outcome A * database)
    (clock : Z) (dbs : gmap string schema) : outcome A * gmap string schema :=
  match dbs !! name with
  | None => (Failed "ER_NO_SUCH_TABLE", dbs)
  | Some sc =>
      match s_users sc, s_projects sc with
      | Some u, Some p =>
          let '(r, d) := stmt clock {| users := u; projects := p |} in
          (r, <[name := {| s_users := Some (users d);
                           s_projects := Some (projects d) |}]> dbs)
      | Some u, None =>
          if need_projects then (Failed "ER_NO_SUCH_TABLE", dbs)
          else
            let '(r, d) := stmt clock {| users := u; projects := empty_table |} in
            (r, <[name := {| s_users := Some (users d);
                             s_projects := None |}]> dbs)
      | None, _ => (Failed "ER_NO_SUCH_TABLE", dbs)
      end
  end.

Section Scripts.
Context `{Libraries}.

(** [createDatabase(db)]; [targetDb] is [process.env.DB_NAME]. *)
Definition createDatabase (targetDb : string) : M mysql string :=
  let* _ := execute (create_database targetDb) in
  ret targetDb.

(** [createTables(db, targetDb)] *)
Definition createTables (targetDb : string) : M mysql unit :=
  let* _ := execute (create_users targetDb) in
  let* _ := execute (create_projects targetDb) in
  ret tt.

(** The rows of [projects] in [addSampleData]:
    title, start_date, short_description, phase. *)
Definition sample_projects : list (string * string * string * string) := [
  ("E-commerce Site", "2024-02-01",
   "Online shopping platform with payment integration", "development");
  ("Task Manager App", "2024-01-15",
   "Mobile app for personal task management", "testing");
  ("Legacy Migration", "2023-12-10",
   "Moving old system to modern database", "complete")
].

Fixpoint insert_samples (dbName : string) (uid : nat)
    (l : list (string * string * string * string)) : M mysql unit :=
  match l with
  | [] => ret tt
  | (title, start_date, short_description, phase) :: rest =>
      let* _ :=
        execute (in_database dbName true
                   (insert_project title short_description start_date None
                      phase uid)) in
      insert_samples dbName uid rest
  end.

(** [addSampleData(db, dbName)]; [plainPassword] is the value of
    [generatePassword()]. *)
Definition addSampleData (dbName plainPassword : string) : action mysql unit :=
  try_catch
    (let* total :=
       execute (in_database dbName false (fun _ d => (Done (count_users d), d))) in
     if Nat.ltb 0 total then ret tt
     else
       let hashedPassword := bcrypt_hash plainPassword 10 in
       let* insertId :=
         execute (in_database dbName false
                    (insert_user "testuser" "test@example.com" hashedPassword)) in
       insert_samples dbName insertId sample_projects)
    (fun m => (tt, m)).

(** [setupDatabase()] *)
Definition setupDatabase (targetDb plainPassword : string) : action mysql unit :=
  try_catch
    (fun m =>
       if accepting m then
         (let* activeDatabase := createDatabase targetDb in
          let* _ := createTables activeDatabase in
          fun m' =>
            let '(_, m'') := addSampleData activeDatabase plainPassword m' in
            (Done tt, m'')) m
       else (Failed "ECONNREFUSED", m))
    (fun m => (tt, m)).

End Scripts.

End Bootstrap.

(** ** app.js

    The stack of [app.use] calls, as far as it decides which handler a
    request reaches: the general rate limiter (an express-rate-limit
    instance, whose verdict is an input here), then the three routers in
    mount order.  helmet, the session and body parsers and the two context
    middlewares always call [next()].  [csrfProtection] is bound to a
    constant in app.js and passed to no [app.use] and to no route. *)

Module App.
Import Exn Http.

Section Stack.
Context `{Libraries}.

Definition route : Type := string * string * (request -> action response).

(** routes/public.js *)
Definition publicRoutes : list route := [
  ("GET", "/project/:id", PublicRoutes.get_project)
].

(** routes/auth.js *)
Definition authRoutes : list route := [
  ("POST", "/register", AuthRoutes.post_register);
  ("POST", "/login", AuthRoutes.post_login);
  ("POST", "/logout", AuthRoutes.post_logout)
].

(** routes/project.js *)
Definition projectRoutes : list route := [
  ("GET", "/project/:id", ProjectRoutes.get_project);
  ("POST", "/add-project", ProjectRoutes.post_add_project);
  ("POST", "/edit-project/:id", ProjectRoutes.post_edit_project);
  ("POST", "/delete-project/:id", ProjectRoutes.post_delete_project);
  ("GET", "/api/projects/:id", ProjectRoutes.get_api_project)
].

Definition routes : list route := publicRoutes ++ authRoutes ++ projectRoutes.

Definition too_many_requests : response :=
  {| status := 429;
     sent := Send "Too many requests from this IP, please try again later." |}.

(** The answer of the application to a request whose path matches
    [pattern], for the routes modelled here; the first route that
    matches serves the request. *)
Definition app (over_limit : bool) (pattern : string) (req : request)
    : option (action response) :=
  if over_limit then Some (fun w => (too_many_requests, w))
  else
    match
      List.find
        (fun r : route =>
           String.eqb (fst (fst r)) (method req) && String.eqb (snd (fst r)) pattern)
        routes
    with
    | Some r => Some (snd r req)
    | None => None
    end.

End Stack.

End App.

(** ** A concrete instance of the third-party functions

    Simple stand-ins that agree with the libraries on the inputs used in
    the examples below: lower-case addresses, dates written [YYYY-MM-DD],
    identifiers written in decimal, a binary collation. *)

Module Sample.

Fixpoint digits_value (acc : nat) (s : string) : option nat :=
  match s with
  | EmptyString => Some acc
  | String c r =>
      if Js.is_digit c then digits_value (10 * acc + (Js.code c - 48)) r
      else None
  end.

(** A decimal numeral. *)
Definition decimal (s : string) : option nat :=
  if Js.is_empty s then None else digits_value 0 s.

(** Days from 1970-01-01 to the given civil date. *)
Definition days_from_civil (y m d : Z) : Z :=
  let y' := (if m <=? 2 then y - 1 else y)%Z in
  let era := (y' / 400)%Z in
  let yoe := (y' - era * 400)%Z in
  let mp := ((m + 9) mod 12)%Z in
  let doy := ((153 * mp + 2) / 5 + d - 1)%Z in
  let doe := (yoe * 365 + yoe / 4 - yoe / 100 + doy)%Z in
  (era * 146097 + doe - 719468)%Z.

(** [YYYY-MM-DD] with a month from 1 to 12 and a day from 1 to 31. *)
Definition civil (s : string) : option (nat * nat * nat) :=
  match decimal (substring 0 4 s), decimal (substring 5 2 s),
        decimal (substring 8 2 s) with
  | Some y, Some m, Some d =>
      if Nat.eqb (String.length s) 10
         && String.eqb (substring 4 1 s) "-" && String.eqb (substring 7 1 s) "-"
         && Nat.leb 1 m && Nat.leb m 12 && Nat.leb 1 d && Nat.leb d 31
      then Some (y, m, d)
      else None
  | _, _, _ => None
  end.

(** [Date.parse] on such a text: midnight UTC, a day past the end of its
    month counting on into the next. *)
Definition parse_date (s : string) : option Z :=
  match civil s with
  | Some (y, m, d) =>
      Some (days_from_civil (Z.of_nat y) (Z.of_nat m) (Z.of_nat d) * 86400000)%Z
  | None => None
  end.

Definition days_in_month (y m : nat) : nat :=
  match m with
  | 2 =>
      if Nat.eqb (y mod 4) 0 && (negb (Nat.eqb (y mod 100) 0) || Nat.eqb (y mod 400) 0)
      then 29 else 28
  | 4 | 6 | 9 | 11 => 30
  | _ => 31
  end.

(** A day of the calendar: what a [DATE] column takes. *)
Definition calendar (s : string) : bool :=
  match civil s with
  | Some (y, m, d) => Nat.leb 1 y && Nat.leb d (days_in_month y m)
  | None => false
  end.

Definition is_some {A} (o : option A) : bool :=
  match o with Some _ => true | None => false end.

(** [YYYYMMDD], the basic format of ISO 8601, written in the extended
    one.  validator.js and the store read a date in either format;
    [Date.parse] reads the extended one only. *)
Definition extended (s : string) : option string :=
  let e := (substring 0 4 s ++ "-" ++ substring 4 2 s ++ "-" ++ substring 6 2 s)%string in
  if Nat.eqb (String.length s) 8 && is_some (parse_date e) then Some e else None.

Fixpoint insert_desc {A} (key : A -> string) (x : A) (l : list A) : list A :=
  match l with
  | [] => [x]
  | y :: rest =>
      if String.ltb (key x) (key y) then y :: insert_desc key x rest
      else x :: l
  end.

Definition sort_desc (A : Type) (key : A -> string) (l : list A) : list A :=
  List.fold_right (insert_desc key) [] l.

(** The first [n] characters of [s], filled up with dots. *)
Fixpoint pad (n : nat) (s : string) : string :=
  match n with
  | 0 => EmptyString
  | S n' =>
      match s with
      | EmptyString => String "." (pad n' EmptyString)
      | String c r => String c (pad n' r)
      end
  end.

Fixpoint pad_length (n : nat) (s : string) : String.length (pad n s) = n :=
  match n with
  | 0 => eq_refl
  | S n' =>
      match s with
      | EmptyString => f_equal S (pad_length n' EmptyString)
      | String c r => f_equal S (pad_length n' r)
      end
  end.

(** A stand-in for a bcrypt hash: 60 characters. *)
Definition hash (pw : string) : string := ("$2b$" ++ pad 56 pw)%string.

Definition libraries : Libraries := {|
  isEmail := fun s => Js.includes "@" s;
  normalizeEmail := fun s => s;
  isISO8601 := fun s => is_some (parse_date s) || is_some (extended s);
  bcrypt_hash := fun pw _ => hash pw;
  bcrypt_hash_length := fun pw _ => f_equal (fun n => 4 + n) (pad_length 56 pw);
  bcrypt_compare := fun pw h => String.eqb h (hash pw);
  Date_parse := parse_date;
  js_isNaN := fun s => negb (is_some (decimal s));
  collate_eq := String.eqb;
  sql_key := decimal;
  sql_date := fun s =>
    if calendar s then Some s
    else match extended s with
         | Some e => if calendar e then Some e else None
         | None => None
         end;
  order_by_desc := sort_desc
|}.

Import Store Http.

Definition alice : user_row :=
  {| u_uid := 1; u_username := "alice"; u_password := hash "Secret1";
     u_email := "alice@example.com"; u_created_at := 0 |}.

Definition bob : user_row :=
  {| u_uid := 2; u_username := "bob"; u_password := hash "Hunter22";
     u_email := "bob@example.com"; u_created_at := 0 |}.

Definition site : project_row :=
  {| p_pid := 1; p_title := "E-commerce Site"; p_start_date := "2024-02-01";
     p_end_date := None;
     p_short_description := "Online shopping platform with payment integration";
     p_phase := development; p_uid := 1; p_created_at := 0; p_updated_at := 0 |}.

Definition store : database :=
  {| users := {| rows := [alice; bob]; auto_increment := 3 |};
     projects := {| rows := [site]; auto_increment := 2 |} |}.

Definition reliable (d : database) : pool :=
  {| data := d; clock := 1000; faults := [] |}.

Definition anonymous : session := empty_session.

Definition session_of (u : user_row) (token : option string) : session :=
  {| user := Some {| su_uid := u_uid u; su_username := u_username u;
                     su_email := u_email u |};
     csrfToken := token; returnTo := None;
     successMessage := None; errorMessage := None |}.

Definition form (l : list (string * string)) : gmap string string :=
  list_to_map l.

Definition post (url id : string) (l : list (string * string)) : request :=
  {| method := "POST"; originalUrl := url; params_id := id; body := form l;
     xhr := false; accept := Some "text/html"; x_csrf_token := None;
     ip := "203.0.113.7" |}.

Definition get (url id : string) : request :=
  {| method := "GET"; originalUrl := url; params_id := id; body := ∅;
     xhr := false; accept := Some "text/html"; x_csrf_token := None;
     ip := "203.0.113.7" |}.

End Sample.


(** ** Pages of routes/project.js and routes/public.js that list and count *)

Module Pages.
Import Exn Store Http.
Local Open Scope handler_scope.

(** [projectStats] *)
Record stats := {
  n_design : nat;
  n_development : nat;
  n_testing : nat;
  n_deployment : nat;
  n_complete : nat;
  n_total : nat
}.

(** One row of a listing: the columns every listing selects, and the
    ones only some do. *)
Record listed := {
  l_pid : nat;
  l_title : string;
  l_start_date : string;
  l_end_date : option (option string);
  l_short_description : option string;
  l_phase : phase;
  l_email : option string;
  l_username : string
}.

Inductive content :=
| Plain (v : value)
| Stats (s : stats)
| Listing (l : list listed).

Inductive body :=
| Reply (p : payload)
| View (view : string) (locals : list (string * content))
| Data (c : content).

Record page := { pg_status : nat; pg_body : body }.

Definition view (name : string) (locals : list (string * content)) : page :=
  {| pg_status := 200; pg_body := View name locals |}.

Definition data_ (c : content) : page := {| pg_status := 200; pg_body := Data c |}.

Definition of_response (r : response) : page :=
  {| pg_status := status r; pg_body := Reply (sent r) |}.

Definition failure (code : nat) (p : page) : page :=
  {| pg_status := code; pg_body := pg_body p |}.

(** [router.get(path, guard, handler)] *)
Definition guarded (g : Http.action verdict) (h : Http.action page) : Http.action page :=
  fun w =>
    match g w with
    | (Answer r, w') => (of_response r, w')
    | (Next, w') => h w'
    end.

(** [x || null] and [x || ''] on a text. *)
Definition text_or_null (o : option string) : value :=
  if Validator.falsy o then VNull else VStr (Validator.to_str o).

Definition text_or_empty (o : option string) : string :=
  if Validator.falsy o then "" else Validator.to_str o.

(** [delete req.session.successMessage; delete req.session.errorMessage] *)
Definition clear_flash (s : session) : session :=
  {| user := user s; csrfToken := csrfToken s; returnTo := returnTo s;
     successMessage := None; errorMessage := None |}.

Definition zero_stats (total : nat) : stats :=
  {| n_design := 0; n_development := 0; n_testing := 0; n_deployment := 0;
     n_complete := 0; n_total := total |}.

(** [projectStats[stat.phase] = stat.count] *)
Definition set_stat (ph : phase) (n : nat) (s : stats) : stats :=
  match ph with
  | design =>
      {| n_design := n; n_development := n_development s; n_testing := n_testing s;
         n_deployment := n_deployment s; n_complete := n_complete s;
         n_total := n_total s |}
  | development =>
      {| n_design := n_design s; n_development := n; n_testing := n_testing s;
         n_deployment := n_deployment s; n_complete := n_complete s;
         n_total := n_total s |}
  | testing =>
      {| n_design := n_design s; n_development := n_development s; n_testing := n;
         n_deployment := n_deployment s; n_complete := n_complete s;
         n_total := n_total s |}
  | deployment =>
      {| n_design := n_design s; n_development := n_development s;
         n_testing := n_testing s; n_deployment := n; n_complete := n_complete s;
         n_total := n_total s |}
  | complete =>
      {| n_design := n_design s; n_development := n_development s;
         n_testing := n_testing s; n_deployment := n_deployment s; n_complete := n;
         n_total := n_total s |}
  end.

(** [projectStats.total += stat.count] *)
Definition add_total (n : nat) (s : stats) : stats :=
  {| n_design := n_design s; n_development := n_development s;
     n_testing := n_testing s; n_deployment := n_deployment s;
     n_complete := n_complete s; n_total := n_total s + n |}.

(** [SELECT phase, COUNT( * ) as count FROM ... GROUP BY phase]: one row
    for each phase that occurs. *)
Definition group_by_phase (l : list project_row) : list (phase * nat) :=
  List.filter (fun g => Nat.ltb 0 (snd g))
    (List.map
       (fun ph => (ph, List.length (List.filter (fun p => same_phase (p_phase p) ph) l)))
       all_phases).

Section Handlers.
Context `{Libraries}.

(** [SELECT * FROM projects WHERE uid = ? ORDER BY start_date DESC] *)
Definition select_projects_of (uid : nat) (d : database) : list project_row :=
  order_by_desc project_row p_start_date
    (List.filter (fun p => Nat.eqb (p_uid p) uid) (rows (projects d))).

(** [SELECT phase, COUNT( * ) as count FROM projects WHERE uid = ?
    GROUP BY phase] *)
Definition select_stats_of (uid : nat) (d : database) : list (phase * nat) :=
  group_by_phase (List.filter (fun p => Nat.eqb (p_uid p) uid) (rows (projects d))).

(** [SELECT phase, COUNT( * ) as count FROM projects GROUP BY phase] *)
Definition select_stats (d : database) : list (phase * nat) :=
  group_by_phase (rows (projects d)).

(** [router.get('/dashboard', requireAuth, ...)] of routes/project.js *)
Definition get_dashboard (req : request) : Http.action page :=
  guarded AuthRoutes.requireAuth
    (try_catch
       (let* u := ProjectRoutes.session_user_of in
        let* projects := query (select_projects_of (su_uid u)) in
        let* stats := query (select_stats_of (su_uid u)) in
        let projectStats :=
          List.fold_left (fun s g => set_stat (fst g) (snd g) s) stats
            (zero_stats (List.length projects)) in
        let* s := get_session in
        let* _ := modify_session clear_flash in
        ret (view "dashboard"
               [ ("title", Plain (VStr "Dashboard"));
                 ("currentPage", Plain (VStr "dashboard"));
                 ("user", Plain (or_null VUser (user s)));
                 ("projects", Plain (VProjects projects));
                 ("stats", Stats projectStats);
                 ("successMessage", Plain (text_or_null (successMessage s)));
                 ("errorMessage", Plain (text_or_null (errorMessage s))) ]))
       (fun w =>
          (failure 500
             (view "error"
                [ ("title", Plain (VStr "Dashboard Error"));
                  ("currentPage", Plain (VStr "dashboard"));
                  ("message", Plain (VStr "Unable to load dashboard")) ]), w))).

(** What the two [/api/stats] handlers make of the groups. *)
Definition tally (groups : list (phase * nat)) : stats :=
  List.fold_left (fun s g => add_total (snd g) (set_stat (fst g) (snd g) s)) groups
    (zero_stats 0).

Definition stats_failure : page :=
  failure 500
    (of_response (json [("error", VStr "Failed to fetch statistics")])).

(** [router.get('/api/stats', requireAuth, ...)] of routes/project.js *)
Definition get_user_stats (req : request) : Http.action page :=
  guarded AuthRoutes.requireAuth
    (try_catch
       (let* u := ProjectRoutes.session_user_of in
        let* groups := query (select_stats_of (su_uid u)) in
        ret (data_ (Stats (tally groups))))
       (fun w => (stats_failure, w))).

(** [router.get('/api/stats', ...)] of routes/public.js *)
Definition get_public_stats (req : request) : Http.action page :=
  try_catch
    (let* groups := query select_stats in
     ret (data_ (Stats (tally groups))))
    (fun w => (stats_failure, w)).

End Handlers.

End Pages.

(** ** Further functions of the engine and of the store

    As for [Libraries], the development is parametric in them. *)

Class Builtins := {
  (** [parseInt] of a query parameter: the integer, or [None] for NaN. *)
  parseInt : option string -> option Z;
  (** [String.prototype.toUpperCase] *)
  toUpperCase : string -> string;
  (** [text LIKE pattern] under the collation of the column. *)
  sql_like : string -> string -> bool;
  (** [DATE(column) = ?] for a date column and a text. *)
  sql_date_eq : string -> string -> bool
}.

(** ** The listings of routes/public.js *)

Module Listings.
Import Exn Store Http Pages.
Local Open Scope handler_scope.

(** [parseInt(x) || 1] *)
Definition page_number (n : option Z) : Z :=
  match n with
  | Some z => if Z.eqb z 0 then 1%Z else z
  | None => 1%Z
  end.

Definition limit : Z := 12.

(** [Math.ceil(totalCount / limit)] *)
Definition total_pages (totalCount : nat) : Z :=
  ((Z.of_nat totalCount + limit - 1) / limit)%Z.

(** [... LIMIT ? OFFSET ?] with the two integers bound: the store
    refuses a negative one. *)
Definition paged {A} (l : list A) (lim offset : Z) : outcome (list A) :=
  if Z.ltb lim 0 || Z.ltb offset 0 then Failed "ER_WRONG_ARGUMENTS"
  else Done (List.firstn (Z.to_nat lim) (List.skipn (Z.to_nat offset) l)).


Section Handlers.
Context `{Libraries} `{Builtins}.

(** [FROM projects p JOIN users u ON p.uid = u.uid] *)
Definition joined (d : database) : list (project_row * user_row) :=
  List.flat_map
    (fun p =>
       List.map (fun u => (p, u))
         (List.filter (fun u => Nat.eqb (p_uid p) (u_uid u)) (rows (users d))))
    (rows (projects d)).

Definition by_start_date (l : list (project_row * user_row))
    : list (project_row * user_row) :=
  order_by_desc (project_row * user_row) (fun r => p_start_date (fst r)) l.


(** The same with [p.end_date]. *)
Definition long_columns (r : project_row * user_row) : listed :=
  {| l_pid := p_pid (fst r); l_title := p_title (fst r);
     l_start_date := p_start_date (fst r); l_end_date := Some (p_end_date (fst r));
     l_short_description := Some (p_short_description (fst r));
     l_phase := p_phase (fst r); l_email := Some (u_email (snd r));
     l_username := u_username (snd r) |}.

(** [WHERE p.phase = ?] *)
Definition in_phase_text (phase : string) (p : project_row) : bool :=
  collate_eq (phase_name (p_phase p)) phase.



Definition flag (b : bool) : content := Plain (VBool b).
Definition number (z : Z) : content := Plain (VNum z).
Definition text (s : string) : content := Plain (VStr s).


(** The conditions of a search, one for each parameter that is
    given. *)
Definition truthy_trimmed (v : option string) : bool :=
  negb (Validator.falsy v) && negb (Js.is_empty (Js.trim (Validator.to_str v))).

Definition text_condition (searchQuery : string) (r : project_row * user_row) : bool :=
  let pattern := ("%" ++ Js.trim searchQuery ++ "%")%string in
  sql_like pattern (p_title (fst r))
  || sql_like pattern (p_short_description (fst r)).

Definition date_condition (searchDate : string) (r : project_row * user_row) : bool :=
  sql_date_eq (p_start_date (fst r)) (Js.trim searchDate).

Definition conditions (searchQuery searchDate phase : option string)
    : list (project_row * user_row -> bool) :=
  (if truthy_trimmed searchQuery
   then [text_condition (Validator.to_str searchQuery)] else [])
  ++ (if truthy_trimmed searchDate
      then [date_condition (Validator.to_str searchDate)] else [])
  ++ (if negb (Validator.falsy phase)
      then [fun r => in_phase_text (Validator.to_str phase) (fst r)] else []).

(** [WHERE c1 OR c2 OR ...], or no [WHERE] clause without conditions. *)
Definition search_rows (conds : list (project_row * user_row -> bool))
    (d : database) : list (project_row * user_row) :=
  match conds with
  | [] => joined d
  | _ => List.filter (fun r => List.existsb (fun c => c r) conds) (joined d)
  end.

(** The title of the page; [quote] is the double quote. *)
Definition quote : string := String (ascii_of_nat 34) EmptyString.

Definition search_title (searchQuery searchDate : option string) : string :=
  if negb (Validator.falsy searchQuery) && negb (Validator.falsy searchDate) then
    ("Search Results for " ++ quote ++ Validator.to_str searchQuery ++ quote
     ++ " or date " ++ quote ++ Validator.to_str searchDate ++ quote)%string
  else if negb (Validator.falsy searchQuery) then
    ("Search Results for " ++ quote ++ Validator.to_str searchQuery ++ quote)%string
  else if negb (Validator.falsy searchDate) then
    ("Projects starting on " ++ quote ++ Validator.to_str searchDate ++ quote)%string
  else "All Projects".

(** The handler of [GET /search], after the validation chains;
    [errors] is [validationResult(req).array()]. *)
Definition search_handler (query : gmap string string) (errors : list verror)
    (req : request) : Http.action page :=
  fun w0 =>
    let viewer := Plain (or_null VUser (user (w_session w0))) in
    let searchQuery := query !! "query" in
    let searchDate := query !! "date" in
    let phase := query !! "phase" in
    try_catch
      (let page := page_number (parseInt (query !! "page")) in
       let offset := ((page - 1) * limit)%Z in
       let conds := conditions searchQuery searchDate phase in
       let* projects :=
         execute
           (fun _ d => (paged (by_start_date (search_rows conds d)) limit offset, d)) in
       let* totalCount := Http.query (fun d => List.length (search_rows conds d)) in
       let totalPages := total_pages totalCount in
       ret (view "search-results"
              [ ("title", text (search_title searchQuery searchDate));
                ("currentPage", text "search");
                ("user", viewer);
                ("projects", Listing (List.map long_columns projects));
                ("searchQuery", text (text_or_empty searchQuery));
                ("searchDate", text (text_or_empty searchDate));
                ("selectedPhase", text (text_or_empty phase));
                ("paginationPage", number page);
                ("totalPages", number totalPages);
                ("totalCount", number (Z.of_nat totalCount));
                ("hasNextPage", flag (Z.ltb page totalPages));
                ("hasPrevPage", flag (Z.ltb 1 page));
                ("errors", Plain (VErrors errors));
                ("searchPerformed",
                 flag (negb (Validator.falsy searchQuery)
                       || negb (Validator.falsy searchDate)
                       || negb (Validator.falsy phase))) ]))
      (fun w =>
         (failure 500
            (view "error"
               [ ("title", text "Search Error");
                 ("currentPage", text "search");
                 ("message", text "Search failed. Please try again later.");
                 ("user", viewer) ]), w))
      w0.

End Handlers.

End Listings.

(** ** middleware/auth.js: the inactivity limit *)

Module SessionGuards.
Import Http.

(** [req.session] with the field this guard keeps. *)
Record timed := {
  t_session : session;
  t_lastActivity : option Z
}.

(** What a client holds once its session is destroyed. *)
Definition fresh : timed :=
  {| t_session := empty_session; t_lastActivity := None |}.

Definition sessionTimeout : Z := (24 * 60 * 60 * 1000)%Z.

(** The truth value of a number: 0 is falsy. *)
Definition truthy_time (t : option Z) : bool :=
  match t with
  | Some z => negb (Z.eqb z 0)
  | None => false
  end.

(** [now] and [later] are the values of the two calls of [Date.now()]. *)
Definition checkSessionTimeout (req : request) (now later : Z) (s : timed)
    : verdict * timed :=
  let logged := AuthRoutes.logged_in (t_session s) in
  let expired :=
    match t_lastActivity s with
    | Some last => Z.ltb sessionTimeout (now - last)
    | None => false
    end in
  if logged && truthy_time (t_lastActivity s) && expired then
    if wants_json req then
      (Answer (with_status 401
                 (json [ ("error", VStr "Session expired");
                         ("redirectTo", VStr "/login") ])), fresh)
    else (Answer (redirect "/login?message=session-expired"), fresh)
  else if logged then
    (Next, {| t_session := t_session s; t_lastActivity := Some later |})
  else (Next, s).

(** The requests of one client, each with its two clock readings. *)
Fixpoint visits (req : request) (hits : list (Z * Z)) (s : timed)
    : list verdict * timed :=
  match hits with
  | [] => ([], s)
  | (now, later) :: rest =>
      let '(v, s1) := checkSessionTimeout req now later s in
      let '(vs, s2) := visits req rest s1 in
      (v :: vs, s2)
  end.

End SessionGuards.

(** ** middleware/validation.js: reporting and sanitizing *)

Module ValidationGuards.
Import Exn Store Http.

(** [req.session] with the two fields these guards write. *)
Record form_session := {
  f_session : session;
  f_validationErrors : option (list verror);
  f_formData : option (gmap string string)
}.

(** [s.split(c)[0]] *)
Fixpoint before (c : ascii) (s : string) : string :=
  match s with
  | EmptyString => EmptyString
  | String a r => if Ascii.eqb a c then EmptyString else String a (before c r)
  end.

(** The address the browser is sent back to. *)
Definition redirect_target (fallback : string) (referer : option string) : string :=
  let redirectUrl := if Validator.falsy referer then fallback
                     else Validator.to_str referer in
  let cleaned :=
    if Js.includes "?error=" redirectUrl || Js.includes "#" redirectUrl
    then before "#" (before "?" redirectUrl)
    else redirectUrl in
  (cleaned ++ "?error=validation")%string.

(** [handleValidationErrors]; [errors] is [validationResult(req).array()]
    and [referer] is [req.get('Referer')]. *)
Definition handleValidationErrors (req : request) (referer : option string)
    (errors : list verror) (s : form_session) : verdict * form_session :=
  if AuthRoutes.is_nil errors then (Next, s)
  else if wants_json req then
    (Answer (with_status 400
               (json [ ("success", VBool false); ("errors", VErrors errors) ])), s)
  else
    (Answer (redirect (redirect_target "/" referer)),
     {| f_session := f_session s;
        f_validationErrors := Some errors;
        f_formData := Some (body req) |}).

(** [sanitizeInput] on a text. *)
Definition sanitize_text (s : string) : string := Js.strip_angle (Js.trim s).

(** [sanitizeInput] on a value of the query or the body: one that is not
    a string is returned as it is. *)
Definition sanitize_value (v : posted) : posted :=
  match v with
  | IsString s => IsString (sanitize_text s)
  | NotString _ => v
  end.

(** [sanitizeRequest]: the query and the body it leaves. *)
Definition sanitizeRequest (query body : gmap string posted)
    : gmap string posted * gmap string posted :=
  (map_imap
     (fun key value =>
        Some (match value with
              | IsString _ => sanitize_value value
              | NotString _ => value
              end))
     query,
   map_imap
     (fun key value =>
        Some (match value with
              | IsString _ =>
                  if negb (String.eqb key "password")
                     && negb (String.eqb key "confirmPassword")
                  then sanitize_value value
                  else value
              | NotString _ => value
              end))
     body).

(** The error [customValidations.uniqueProjectTitle] leaves in the
    session. *)
Definition title_clash : verror :=
  {| param := Some "title"; msg := "You already have a project with this title" |}.

Section Titles.
Context `{Libraries}.

(** [SELECT pid FROM projects WHERE uid = ? AND title = ?], with
    [AND pid != ?] when the route has an [:id]. *)
Definition select_same_title (uid : nat) (title id : string) (d : database)
    : list nat :=
  List.map p_pid
    (List.filter
       (fun p =>
          Nat.eqb (p_uid p) uid
          && collate_eq (p_title p) title
          && (Js.is_empty id || negb (key_matches (sql_key id) (p_pid p))))
       (rows (projects d))).

(** [customValidations.uniqueProjectTitle]; [referer] is
    [req.get('Referer')]. *)
Definition uniqueProjectTitle (req : request) (referer : option string)
    (s : form_session) (p : pool) : verdict * form_session * pool :=
  match user (f_session s) with
  | Some u =>
      if Validator.falsy (body req !! "title") then (Next, s, p)
      else
        match query
                (select_same_title (su_uid u)
                   (Validator.to_str (body req !! "title")) (params_id req))
                {| w_session := f_session s; w_pool := p |} with
        | (Done projects, w) =>
            if AuthRoutes.is_nil projects then (Next, s, w_pool w)
            else if wants_json req then
              (Answer (with_status 400
                         (json [ ("error",
                                  VStr "You already have a project with this title") ])),
               s, w_pool w)
            else
              let redirectUrl :=
                if Validator.falsy referer then "/dashboard"
                else Validator.to_str referer in
              (Answer (redirect (redirectUrl ++ "?error=validation")%string),
               {| f_session := f_session s;
                  f_validationErrors := Some [title_clash];
                  f_formData := Some (body req) |},
               w_pool w)
        | (Failed _, w) => (Next, s, w_pool w)
        end
  | None => (Next, s, p)
  end.

End Titles.

End ValidationGuards.

(** ** middleware/security.js: the screen for SQL in the input *)

Module SecurityGuards.
Import Http.

(** A value of [req.body], [req.query] or [req.params]: a text, an
    object or array with its own enumerable keys in order, or anything
    else (a number, a boolean, [null]). *)
#[warnings="-register-all"] Inductive input :=
| Text (s : string)
| Nested (fields : list (string * input))
| Other.

(** The canonical form of a character under the flag [i]. *)
Definition fold_case (c : ascii) : ascii :=
  if Js.is_lower c then ascii_of_nat (Js.code c - 32) else c.

(** What is left of [s] after [word], matched without regard to case. *)
Fixpoint after_word (word s : string) : option string :=
  match word, s with
  | EmptyString, _ => Some s
  | String a word', String b s' =>
      if Ascii.eqb (fold_case a) (fold_case b) then after_word word' s' else None
  | String _ _, EmptyString => None
  end.

Definition starts_with_word_char (s : string) : bool :=
  match s with
  | String c _ => Js.is_word c
  | EmptyString => false
  end.

Fixpoint skip (p : ascii -> bool) (s : string) : string :=
  match s with
  | String c r => if p c then skip p r else s
  | EmptyString => EmptyString
  end.

Definition statements : list string :=
  ["SELECT"; "INSERT"; "UPDATE"; "DELETE"; "DROP"; "CREATE"; "ALTER"; "EXEC"].

(** [/(\b(SELECT|INSERT|UPDATE|DELETE|DROP|CREATE|ALTER|EXEC)\b)/i];
    [inside] tells whether the character before [s] is a word
    character. *)
Fixpoint has_statement (inside : bool) (s : string) : bool :=
  (negb inside
   && List.existsb
        (fun word =>
           match after_word word s with
           | Some rest => negb (starts_with_word_char rest)
           | None => false
           end)
        statements)
  || match s with
     | String c r => has_statement (Js.is_word c) r
     | EmptyString => false
     end.

(** [\s+\d+\s*=\s*\d+] at the head of [s]. *)
Definition comparison_follows (s : string) : bool :=
  let a := skip Js.is_space s in
  let b := skip Js.is_digit a in
  match skip Js.is_space b with
  | String c d =>
      Nat.ltb (String.length a) (String.length s)
      && Nat.ltb (String.length b) (String.length a)
      && Nat.eqb (Js.code c) 61
      && match skip Js.is_space d with
         | String e _ => Js.is_digit e
         | EmptyString => false
         end
  | EmptyString => false
  end.

(** [/(UNION|OR|AND)\s+\d+\s*=\s*\d+/i] *)
Fixpoint has_tautology (s : string) : bool :=
  List.existsb
    (fun word =>
       match after_word word s with
       | Some rest => comparison_follows rest
       | None => false
       end)
    ["UNION"; "OR"; "AND"]
  || match s with
     | String _ r => has_tautology r
     | EmptyString => false
     end.

(** The third pattern: a single quote, a double quote or a semicolon
    anywhere in the text. *)
Definition has_quote (s : string) : bool :=
  Js.some_char
    (fun c => Nat.eqb (Js.code c) 39 || Nat.eqb (Js.code c) 34
              || Nat.eqb (Js.code c) 59) s.

Definition checkForSQLInjection (value : string) : bool :=
  has_statement false value || has_tautology value || has_quote value.

Fixpoint checkValue (v : input) : bool :=
  match v with
  | Text s => checkForSQLInjection s
  | Nested fields =>
      (fix checkObject (l : list (string * input)) : bool :=
         match l with
         | [] => false
         | (_, x) :: rest => checkValue x || checkObject rest
         end) fields
  | Other => false
  end.

Definition checkObject (obj : list (string * input)) : bool :=
  checkValue (Nested obj).

(** [req.body && checkObject(req.body)] *)
Definition suspicious (part : option (list (string * input))) : bool :=
  match part with
  | Some obj => checkObject obj
  | None => false
  end.

Definition sqlInjectionProtection (body query params : option (list (string * input)))
    (s : session) : verdict :=
  if suspicious body || suspicious query || suspicious params then
    Answer (with_status 400
              (render "error"
                 [ ("title", VStr "Security Error");
                   ("message",
                    VStr "Invalid input detected. Please check your data and try again.");
                   ("user", or_null VUser (user s)) ]))
  else Next.

End SecurityGuards.

(** ** A concrete instance of the further functions

    Stand-ins that agree with the engine and the store on the inputs used
    in the examples below: page numbers written in decimal, ASCII letters,
    patterns of the form [%text%], dates written [YYYY-MM-DD]. *)

Module SampleBuiltins.

Definition parse_int (v : option string) : option Z :=
  match v with
  | Some s => Z.of_nat <$> Sample.decimal s
  | None => None
  end.

Fixpoint upper (s : string) : string :=
  match s with
  | EmptyString => EmptyString
  | String c r => String (SecurityGuards.fold_case c) (upper r)
  end.

(** [text LIKE '%part%'] under a binary collation. *)
Definition like (pattern text : string) : bool :=
  Js.includes (substring 1 (String.length pattern - 2) pattern) text.

Definition builtins : Builtins := {|
  parseInt := parse_int;
  toUpperCase := upper;
  sql_like := like;
  sql_date_eq := String.eqb
|}.

End SampleBuiltins.

(** * Vocabulary of the properties *)

Section Vocabulary.
Context `{Libraries}.
Import Exn Http Validator.

(** A validator that leaves the session and the pool alone, and whose
    verdict does not depend on them. *)
Definition quiet (t : test) : Prop :=
  forall v b w, snd (t v b w) = w /\ forall w', fst (t v b w') = fst (t v b w).

Definition quiet_item (i : item) : Prop :=
  match i with
  | Check t _ => quiet t
  | Sanitize _ => True
  end.

Definition quiet_chain (c : chain) : Prop :=
  Forall quiet_item (fst (attach (steps c))).

(** What the sanitizers of a chain make of a value. *)
Definition sanitized (l : list item) (v : option string) : option string :=
  List.fold_left
    (fun v i => match i with Sanitize f => f v | Check _ _ => v end) l v.

Definition no_sanitizer (l : list item) : Prop :=
  Forall (fun i => match i with Check _ _ => True | Sanitize _ => False end) l.

(** A field is left alone by the chains that are on another field or
    have no sanitizer. *)
Definition spares (g : string) (c : chain) : Prop :=
  field c <> g \/ no_sanitizer (fst (attach (steps c))).

(** The error the driver throws at the next statement, if it does. *)
Definition next_fault (p : pool) : option string :=
  match faults p with
  | Some e :: _ => Some e
  | _ => None
  end.

End Vocabulary.

Section StoreVocabulary.
Context `{Libraries}.
Import Store Http Validator.


End StoreVocabulary.


Section StoreIntegrity.
Import Store.

(** The constraints of the schema: the two primary keys and the foreign
    key of [projects]. *)
Definition consistent (d : database) : Prop :=
  List.NoDup (List.map p_pid (rows (projects d)))
  /\ List.NoDup (List.map u_uid (rows (users d)))
  /\ forall p, In p (rows (projects d)) ->
               exists o, In o (rows (users d)) /\ u_uid o = p_uid p.
End StoreIntegrity.

Section BootstrapVocabulary.
Import Exn Store Bootstrap.

(** A store that the bootstrap has been through: the database and its
    two tables exist and [users] has a row. *)
Definition initialized (name : string) (dbs : gmap string schema) : Prop :=
  exists tu tp,
    dbs !! name = Some {| s_users := Some tu; s_projects := Some tp |}
    /\ rows tu <> [].

(** [c], started in a state that satisfies [P], ends in a state that
    satisfies [Q] of its result, or throws in a state that satisfies
    [E]. *)
Definition triple {A} (P : mysql -> Prop) (c : M mysql A)
    (Q : A -> mysql -> Prop) (E : mysql -> Prop) : Prop :=
  forall m, P m ->
    match c m with
    | (Done a, m') => Q a m'
    | (Failed _, m') => E m'
    end.

Definition has_database (name : string) (dbs : gmap string schema) : Prop :=
  exists sc, dbs !! name = Some sc.

Definition has_tables (name : string) (dbs : gmap string schema) : Prop :=
  exists tu tp, dbs !! name = Some {| s_users := Some tu; s_projects := Some tp |}.

Definition reliably (p : gmap string schema -> Prop) (m : mysql) : Prop :=
  upcoming m = [] /\ p (databases m).

(** A table that exists still exists, and its rows are still there, as
    they were and in their order, before any new row. *)
Definition table_kept {A} (t t' : option (table A)) : Prop :=
  match t with
  | None => True
  | Some x => exists y more, t' = Some y /\ rows y = rows x ++ more
  end.

Definition schema_kept (sc sc' : schema) : Prop :=
  table_kept (s_users sc) (s_users sc')
  /\ table_kept (s_projects sc) (s_projects sc').

(** A statement that only appends rows to the two tables. *)
Definition appends {A} (stmt : Z -> database -> outcome A * database) : Prop :=
  forall clock d,
    (exists more, rows (users (snd (stmt clock d))) = rows (users d) ++ more)
    /\ (exists more,
          rows (projects (snd (stmt clock d))) = rows (projects d) ++ more).

(** No database, table or row of [dbs] is missing or altered in [dbs']. *)
Definition preserved (dbs dbs' : gmap string schema) : Prop :=
  forall n sc, dbs !! n = Some sc ->
    exists sc', dbs' !! n = Some sc' /\ schema_kept sc sc'.
End BootstrapVocabulary.

Section LimiterVocabulary.
Import Http RateLimit.

(** References of the table are allocated, and no entry object is
    shared by two addresses. *)
Definition well_formed (st : limiter) : Prop :=
  (forall a l, attempts st !! a = Some l -> l < next_loc st)
  /\ (forall a1 a2 l,
        attempts st !! a1 = Some l -> attempts st !! a2 = Some l -> a1 = a2).

(** The table holds entry [e], at reference [l], for address [a]. *)
Definition holds (st : limiter) (a : string) (l : loc) (e : entry) : Prop :=
  attempts st !! a = Some l /\ heap st !! l = Some e.

(** The calls of a request of another address leave the entry of [a]
    where it is. *)
Definition aside (a : string) (l : loc) (h : handle) : Prop :=
  h_ip h <> a /\ h_userAttempts h <> Some l.

Definition handle_bounded (st : limiter) (h : handle) : Prop :=
  forall l, h_userAttempts h = Some l -> l < next_loc st.

(** The arrival falls in the window of the entry. *)
Definition within (windowMs : Z) (e : entry) (a : arrival) : Prop :=
  (a_now a - firstAttempt e <= windowMs)%Z.

(** A request of the address whose handler records a failed attempt. *)
Definition failed_from (addr : string) (a : arrival) : Prop :=
  ip (a_req a) = addr /\ a_calls a = [RecordFailed].
End LimiterVocabulary.

Section CsrfVocabulary.
Import Http.

(** The token a request carries, in the form field [field] or else in
    the header, is that of the session. *)
Definition token_matches (field : string) (req : request) (w : world) : Prop :=
  exists t,
    Js.is_empty t = false
    /\ csrfToken (w_session w) = Some t
    /\ AuthMiddleware.or_else (body req !! field) (x_csrf_token req) = Some t.
End CsrfVocabulary.

(** The view of a project. *)
Definition project_details (locals : list (string * Http.value)) : Http.response :=
  Http.render "project-details" locals.

(** The error of the look-up in [POST /register]. *)
Definition uniqueness_error : Http.verror :=
  {| Http.param := None; Http.msg := "Username or email already exists" |}.

(** The error of the rule on [end_date]. *)
Definition end_date_error : Http.verror :=
  {| Http.param := Some "end_date"; Http.msg := "End date must be after start date" |}.

(** Sample worlds and requests. *)
Definition w_anonymous : Http.world :=
  {| Http.w_session := Sample.anonymous; Http.w_pool := Sample.reliable Sample.store |}.

Definition register_ab : Http.request :=
  Sample.post "/register" ""
    [ ("username", "ab"); ("email", "ab@example.com");
      ("password", "Secret1"); ("confirmPassword", "Secret1") ].



Definition login_alice_wrong : Http.request :=
  Sample.post "/login" "" [ ("username", "alice"); ("password", "guess") ].

(** The login of alice without its password field. *)
Definition login_alice : Http.request :=
  Sample.post "/login" "" [ ("username", "alice") ].

Definition store_without_alice : Store.database :=
  {| Store.users := {| Store.rows := [Sample.bob]; Store.auto_increment := 3 |};
     Store.projects := {| Store.rows := []; Store.auto_increment := 1 |} |}.

Definition w_alice : Http.world :=
  {| Http.w_session := Sample.session_of Sample.alice (Some "7f3a");
     Http.w_pool := Sample.reliable Sample.store |}.

Definition add_project_backwards : Http.request :=
  Sample.post "/add-project" ""
    [ ("title", "Website"); ("short_description", "A new public website");
      ("start_date", "2024-03-01"); ("end_date", "2024-02-01");
      ("phase", "design") ].

(** The end date in the basic format, a year before the start date. *)
Definition add_project_basic_format : Http.request :=
  Sample.post "/add-project" ""
    [ ("title", "Website"); ("short_description", "A new public website");
      ("start_date", "2024-03-01"); ("end_date", "20230101");
      ("phase", "design") ].

(** Alice, with the two flash messages of an earlier request pending. *)
Definition w_alice_flash : Http.world :=
  {| Http.w_session :=
       {| Http.user := Some {| Http.su_uid := 1; Http.su_username := "alice";
                               Http.su_email := "alice@example.com" |};
          Http.csrfToken := Some "7f3a"; Http.returnTo := None;
          Http.successMessage := Some "Project added successfully!";
          Http.errorMessage := Some "Project not found" |};
     Http.w_pool := Sample.reliable Sample.store |}.

Definition w_bob : Http.world :=
  {| Http.w_session := Sample.session_of Sample.bob (Some "91c4");
     Http.w_pool := Sample.reliable Sample.store |}.

Definition delete_site : Http.request := Sample.post "/delete-project/1" "1" [].

(** The same form with the token of alice's session in its hidden field. *)
Definition delete_site_with_token : Http.request :=
  Sample.post "/delete-project/1" "1" [ ("_csrf", "7f3a") ].

Definition get_site : Http.request := Sample.get "/project/1" "1".
Definition get_api_site : Http.request := Sample.get "/api/projects/1" "1".




Definition add_project_more : Http.request :=
  Sample.post "/add-project" ""
    [ ("title", "One more"); ("short_description", "Yet another project");
      ("start_date", "2024-03-01"); ("phase", "design") ].

Definition empty_server : Bootstrap.mysql :=
  {| Bootstrap.databases := ∅; Bootstrap.now := 1000; Bootstrap.upcoming := [];
     Bootstrap.accepting := true |}.

Definition login_attempt : Http.request :=
  Sample.post "/login" "" [ ("username", "alice"); ("password", "guess") ].

Definition failure_at (t : Z) : RateLimit.arrival :=
  {| RateLimit.a_req := login_attempt; RateLimit.a_now := t;
     RateLimit.a_calls := [RateLimit.RecordFailed] |}.

Definition five_failures : list RateLimit.arrival :=
  List.map failure_at [0; 1000; 2000; 3000; 4000]%Z.

Definition sixth_attempt : RateLimit.arrival := failure_at 300000.


(** * Vocabulary of the properties of the handlers, guards and pages *)

Section HandlerVocabulary.
Context `{Libraries}.
Import Exn Store Http Validator.

(** A computation that leaves the data alone, whatever the driver does. *)
Definition reads_only {A} (m : Exn.action world A) : Prop :=
  forall w, data (w_pool (snd (m w))) = data (w_pool w).


(** The row [POST /add-project] writes. *)
Definition added (w : world) (uid : nat) (title desc start : string)
    (endt : option string) (ph : phase) : project_row :=
  {| p_pid := auto_increment (projects (data (w_pool w)));
     p_title := title; p_start_date := start; p_end_date := endt;
     p_short_description := desc; p_phase := ph; p_uid := uid;
     p_created_at := clock (w_pool w); p_updated_at := clock (w_pool w) |}.


(** Validators that may query the store but do not write to it. *)
Definition reading_item (i : item) : Prop :=
  match i with
  | Check t _ => forall v b, reads_only (t v b)
  | Sanitize _ => True
  end.

Definition reading_chain (c : chain) : Prop :=
  Forall reading_item (fst (attach (steps c))).

End HandlerVocabulary.

(** The error of the rule on [phase] in routes/project.js. *)
Definition phase_error : Http.verror :=
  {| Http.param := Some "phase"; Http.msg := "Please select a valid phase" |}.

(** The errors of the two look-ups in the chains of middleware/validation.js. *)
Definition username_taken : Http.verror :=
  {| Http.param := Some "username"; Http.msg := "Username is already taken" |}.

Definition email_registered : Http.verror :=
  {| Http.param := Some "email"; Http.msg := "Email is already registered" |}.

Section KeyVocabulary.
Context `{Libraries}.
Import Store Http.

(** The two [UNIQUE] constraints of [users]: no two rows have the same
    username, and no two the same address, under the collation of the
    columns. *)
Definition unique_users (l : list user_row) : Prop :=
  List.ForallOrdPairs
    (fun a b =>
       collate_eq (u_username a) (u_username b) = false
       /\ collate_eq (u_email a) (u_email b) = false)
    l.

(** The constraints of the schema (the primary keys, the foreign key,
    the two [UNIQUE] constraints), and keys below the counters that
    issue them. *)
Definition keyed (d : database) : Prop :=
  consistent d
  /\ unique_users (rows (users d))
  /\ (forall p, In p (rows (projects d)) -> p_pid p < auto_increment (projects d))
  /\ (forall u, In u (rows (users d)) -> u_uid u < auto_increment (users d)).

(** A computation that keeps a property of the data, whatever the
    driver does. *)
Definition invariant {A} (P : database -> Prop) (m : Exn.action world A) : Prop :=
  forall w, P (data (w_pool w)) -> P (data (w_pool (snd (m w)))).

End KeyVocabulary.

Section PageVocabulary.
Import Store Pages.

(** The number of rows in a phase. *)
Definition in_phase (ph : phase) (l : list project_row) : nat :=
  List.length (List.filter (fun p => same_phase (p_phase p) ph) l).

Definition counted (l : list project_row) : stats :=
  {| n_design := in_phase design l; n_development := in_phase development l;
     n_testing := in_phase testing l; n_deployment := in_phase deployment l;
     n_complete := in_phase complete l; n_total := List.length l |}.

End PageVocabulary.

(** Requests that follow each other within the limit. *)
Fixpoint paced (last : option Z) (hits : list (Z * Z)) : Prop :=
  match hits with
  | [] => True
  | (now, later) :: rest =>
      match last with
      | Some l => (now - l <= SessionGuards.sessionTimeout)%Z
      | None => True
      end
      /\ paced (Some later) rest
  end.

Section TextVocabulary.
Import ValidationGuards.

(** The character does not occur in the text. *)
Definition free_of (c : ascii) (s : string) : Prop :=
  Js.some_char (Ascii.eqb c) s = false.

(** The address without its query and fragment. *)
Definition bare (u : string) : string := before "#" (before "?" u).

End TextVocabulary.

(** No [<] and no [>] in the text. *)
Definition angle_free (s : string) : bool :=
  Js.all_chars (fun c => negb (Nat.eqb (Js.code c) 60 || Nat.eqb (Js.code c) 62)) s.

(** The texts of an input, at any depth. *)
Fixpoint texts (v : SecurityGuards.input) : list string :=
  match v with
  | SecurityGuards.Text s => [s]
  | SecurityGuards.Nested fields =>
      (fix all (l : list (string * SecurityGuards.input)) : list string :=
         match l with
         | [] => []
         | (_, x) :: rest => texts x ++ all rest
         end) fields
  | SecurityGuards.Other => []
  end.

Definition texts_of (part : option (list (string * SecurityGuards.input))) : list string :=
  match part with
  | Some obj => texts (SecurityGuards.Nested obj)
  | None => []
  end.

(** The last character of the text is a word character. *)
Fixpoint ends_in_word_char (s : string) : bool :=
  match s with
  | EmptyString => false
  | String c EmptyString => Js.is_word c
  | String _ r => ends_in_word_char r
  end.


(** * The columns of the store *)

Section ColumnFacts.
Context `{Libraries}.
Import Exn Store.

Lemma varchar_fits (n : nat) (s : string) :
  String.length s <= n -> varchar n s = Some s.
Proof.
  intros Hn. unfold varchar. apply Nat.leb_le in Hn. rewrite Hn. reflexivity.
Qed.

Lemma varchar_length (n : nat) (s t : string) :
  varchar n s = Some t -> String.length t <= n.
Proof.
  unfold varchar. destruct (Nat.leb_spec (String.length s) n) as [Hle|Hgt].
  - intros [= <-]. exact Hle.
  - destruct (Js.all_chars _ _); [|discriminate]. intros [= <-].
    clear. revert n. induction s as [|c r IH]; intros [|n]; simpl; try lia.
    specialize (IH n). change (String.length (substring 0 n r) <= n) in IH. lia.
Qed.

Lemma text_column_fits (s : string) :
  String.length s <= 500 -> text_column s = Some s.
Proof.
  intros Hn. unfold text_column.
  replace (N.leb (N.of_nat (String.length s)) 65535) with true; [reflexivity|].
  symmetry. apply N.leb_le. lia.
Qed.

(** A hash fits the column [password]. *)
Lemma user_values_fit (username email pw : string) (cost : nat) :
  String.length username <= 50 ->
  String.length email <= 100 ->
  user_values username (bcrypt_hash pw cost) email
  = Done (username, bcrypt_hash pw cost, email).
Proof.
  intros Hu He. unfold user_values.
  rewrite (varchar_fits 50 username Hu), (varchar_fits 100 email He).
  rewrite varchar_fits; [reflexivity|]. rewrite bcrypt_hash_length. lia.
Qed.

Lemma project_values_fit (title text start first : string) (endt : option string)
    (last : option string) (ph : phase) :
  String.length title <= 100 ->
  String.length text <= 500 ->
  sql_date start = Some first ->
  date_or_null endt = Some last ->
  project_values title text start endt (phase_name ph)
  = Done (title, first, last, text, ph).
Proof.
  intros Ht Hd Hs He. unfold project_values.
  rewrite (varchar_fits 100 title Ht), (text_column_fits text Hd), Hs, He.
  destruct ph; reflexivity.
Qed.

End ColumnFacts.
(** * Properties *)

(** ** Strings *)

Section StringFacts.




End StringFacts.

(** ** Validation chains *)

(** Closes [no_sanitizer l] and the spine of [Forall quiet_item l] on a
    chain that is written out. *)
Ltac forall_items :=
  simpl; repeat (first [apply List.Forall_nil | apply List.Forall_cons]).

Ltac no_sanitizers := forall_items; exact I.

Section ChainFacts.
Context `{Libraries}.
Import Exn Http Validator.

Lemma standard_quiet (p : string -> bool) : quiet (standard p).
Proof.
  intros v b w. unfold standard.
  destruct (p (to_str v)); split; reflexivity.
Qed.

Lemma run_items_quiet name opt b l :
  Forall quiet_item l ->
  forall v w,
    snd (run_items name opt b l v w) = w
    /\ forall w', fst (run_items name opt b l v w') = fst (run_items name opt b l v w).
Proof.
  induction 1 as [|i l Hi Hl IH]; intros v w; simpl; [split; reflexivity|].
  destruct (opt && falsy v); [apply IH|].
  destruct i as [f|t m]; [apply IH|].
  simpl in Hi.
  destruct (Hi v b w) as [Hw Hsame].
  assert (Hstep : forall w', t v b w' = (fst (t v b w), w')).
  { intros w'. destruct (Hi v b w') as [Hw' _].
    specialize (Hsame w'). destruct (t v b w') as [o w1]. simpl in *. congruence. }
  split.
  - rewrite (Hstep w). destruct (fst (t v b w)) as [[]|thrown].
    + apply IH.
    + destruct (IH v w) as [IHw _].
      destruct (run_items name opt b l v w) as [[v' errs] w2]. exact IHw.
  - intros w'. rewrite (Hstep w), (Hstep w').
    destruct (fst (t v b w)) as [[]|thrown].
    + apply IH.
    + destruct (IH v w) as [_ IHs]. specialize (IHs w').
      destruct (run_items name opt b l v w) as [[v1 errs1] w1].
      destruct (run_items name opt b l v w') as [[v2 errs2] w2].
      simpl in *. congruence.
Qed.

(** Every error of a chain is reported for the field of the chain. *)
Lemma run_items_param name opt b l :
  forall v w e,
    In e (snd (fst (run_items name opt b l v w))) -> param e = Some name.
Proof.
  induction l as [|i l IH]; intros v w e; simpl; [tauto|].
  destruct (opt && falsy v); [apply IH|].
  destruct i as [f|t m]; [apply IH|].
  destruct (t v b w) as [[[]|thrown] w1]; [apply IH|].
  specialize (IH v w1 e).
  destruct (run_items name opt b l v w1) as [[v' errs] w2]. simpl in *.
  intros [<-|Hin]; [reflexivity|auto].
Qed.

Lemma run_chain_quiet c b w :
  quiet_chain c ->
  snd (run_chain c b w) = w
  /\ forall w', fst (run_chain c b w') = fst (run_chain c b w).
Proof.
  intros Hc. unfold run_chain.
  destruct (run_items_quiet (field c) (is_optional (steps c)) b _ Hc
              (b !! field c) w) as [Hq Hs].
  split.
  - destruct (run_items _ _ _ _ _ _) as [[v' errs] w']. exact Hq.
  - intros w'. specialize (Hs w').
    destruct (run_items _ _ _ _ _ w) as [[v1 errs1] w1].
    destruct (run_items _ _ _ _ _ w') as [[v2 errs2] w2].
    simpl in Hs. injection Hs as -> ->. reflexivity.
Qed.

Lemma run_chain_param c b w e :
  In e (snd (fst (run_chain c b w))) -> param e = Some (field c).
Proof.
  unfold run_chain.
  pose proof (run_items_param (field c) (is_optional (steps c)) b
                (fst (attach (steps c))) (b !! field c) w e) as Hp.
  destruct (run_items _ _ _ _ _ _) as [[v' errs] w']. exact Hp.
Qed.

(** A chain rewrites no field but its own. *)
Lemma run_chain_other c b w g :
  g <> field c -> fst (fst (run_chain c b w)) !! g = b !! g.
Proof.
  intros Hg. unfold run_chain.
  destruct (run_items _ _ _ _ _ _) as [[v' errs] w']. simpl.
  destruct v' as [s|]; [|reflexivity].
  destruct (decide (b !! field c = Some s)); [reflexivity|].
  apply lookup_insert_ne. congruence.
Qed.

Lemma run_items_value name b l :
  forall v w, fst (fst (run_items name false b l v w)) = sanitized l v.
Proof.
  induction l as [|i l IH]; intros v w; simpl; [reflexivity|].
  destruct i as [f|t m]; [apply IH|].
  destruct (t v b w) as [[[]|thrown] w1]; [apply IH|].
  specialize (IH v w1).
  destruct (run_items name false b l v w1) as [[v' errs] w2]. exact IH.
Qed.

Lemma run_chain_own c b w s :
  is_optional (steps c) = false ->
  sanitized (fst (attach (steps c))) (b !! field c) = Some s ->
  fst (fst (run_chain c b w)) !! field c = Some s.
Proof.
  intros Hopt Hs. unfold run_chain. rewrite Hopt.
  pose proof (run_items_value (field c) b (fst (attach (steps c))) (b !! field c) w) as Hv.
  destruct (run_items _ _ _ _ _ _) as [[v' errs] w']. simpl in *.
  rewrite Hs in Hv. subst v'.
  destruct (decide (b !! field c = Some s)); [assumption|].
  apply lookup_insert_eq.
Qed.

Lemma run_items_keep name opt b l :
  no_sanitizer l -> forall v w, fst (fst (run_items name opt b l v w)) = v.
Proof.
  induction 1 as [|i l Hi Hl IH]; intros v w; simpl; [reflexivity|].
  destruct (opt && falsy v); [apply IH|].
  destruct i as [f|t m]; [contradiction|].
  destruct (t v b w) as [[[]|thrown] w1]; [apply IH|].
  specialize (IH v w1).
  destruct (run_items name opt b l v w1) as [[v' errs] w2]. exact IH.
Qed.

Lemma run_chain_keep c b w :
  no_sanitizer (fst (attach (steps c))) -> fst (fst (run_chain c b w)) = b.
Proof.
  intros Hc. unfold run_chain.
  pose proof (run_items_keep (field c) (is_optional (steps c)) b _ Hc
                (b !! field c) w) as Hv.
  destruct (run_items _ _ _ _ _ _) as [[v' errs] w']. simpl in *. subst v'.
  destruct (b !! field c) as [s|] eqn:E; [|reflexivity].
  destruct (decide (Some s = Some s)); [reflexivity|congruence].
Qed.

Lemma run_chains_same l :
  Forall quiet_chain l ->
  forall b w,
    snd (run_chains l b w) = w
    /\ forall w', fst (run_chains l b w') = fst (run_chains l b w).
Proof.
  induction 1 as [|c l Hc Hl IH]; intros b w; simpl; [split; reflexivity|].
  destruct (run_chain_quiet c b w Hc) as [Hq Hs].
  assert (Hstep : forall w', run_chain c b w' = (fst (run_chain c b w), w')).
  { intros w'. destruct (run_chain_quiet c b w' Hc) as [Hq' _].
    specialize (Hs w'). destruct (run_chain c b w') as [o w1]. simpl in *. congruence. }
  split.
  - rewrite (Hstep w). destruct (fst (run_chain c b w)) as [b1 e1].
    destruct (IH b1 w) as [IHq _].
    destruct (run_chains l b1 w) as [[b2 e2] w2]. exact IHq.
  - intros w'. rewrite (Hstep w), (Hstep w').
    destruct (fst (run_chain c b w)) as [b1 e1].
    destruct (IH b1 w) as [_ IHs]. specialize (IHs w').
    destruct (run_chains l b1 w) as [[b2 e2] w2].
    destruct (run_chains l b1 w') as [[b3 e3] w3].
    simpl in *. congruence.
Qed.

Lemma run_chains_quiet l :
  Forall quiet_chain l -> forall b w, snd (run_chains l b w) = w.
Proof. intros Hl b w. apply (run_chains_same l Hl b w). Qed.

Lemma run_chains_cons c l b w :
  run_chains (c :: l) b w =
  let '((b1, e1), w1) := run_chain c b w in
  let '((b2, e2), w2) := run_chains l b1 w1 in
  ((b2, e1 ++ e2), w2).
Proof. reflexivity. Qed.

End ChainFacts.

Section ChainListFacts.
Context `{Libraries}.
Import Exn Store Http Validator.

Lemma run_chains_app l1 l2 b w :
  run_chains (l1 ++ l2) b w =
  let '((b1, e1), w1) := run_chains l1 b w in
  let '((b2, e2), w2) := run_chains l2 b1 w1 in
  ((b2, e1 ++ e2), w2).
Proof.
  revert b w. induction l1 as [|c l1 IH]; intros b w; simpl.
  - destruct (run_chains l2 b w) as [[b2 e2] w2]. reflexivity.
  - destruct (run_chain c b w) as [[b0 e0] w0]. rewrite IH.
    destruct (run_chains l1 b0 w0) as [[b1 e1] w1].
    destruct (run_chains l2 b1 w1) as [[b2 e2] w2].
    rewrite app_assoc. reflexivity.
Qed.

Lemma run_chains_param l b w e :
  In e (snd (fst (run_chains l b w))) ->
  exists c, In c l /\ param e = Some (field c).
Proof.
  revert b w. induction l as [|c l IH]; intros b w; simpl; [tauto|].
  pose proof (run_chain_param c b w e) as Hc.
  destruct (run_chain c b w) as [[b1 e1] w1].
  specialize (IH b1 w1).
  destruct (run_chains l b1 w1) as [[b2 e2] w2]. simpl in *.
  rewrite in_app_iff. intros [Hin|Hin].
  - exists c. auto.
  - destruct (IH Hin) as (c' & Hc' & Hp). exists c'. auto.
Qed.

Lemma run_chains_spared l b w g :
  Forall (spares g) l -> fst (fst (run_chains l b w)) !! g = b !! g.
Proof.
  intros Hl. revert b w. induction Hl as [|c l Hc Hl IH]; intros b w; simpl;
    [reflexivity|].
  assert (Hb : fst (fst (run_chain c b w)) !! g = b !! g).
  { destruct Hc as [Hne|Hno].
    - apply run_chain_other. congruence.
    - rewrite run_chain_keep by assumption. reflexivity. }
  destruct (run_chain c b w) as [[b1 e1] w1].
  specialize (IH b1 w1).
  destruct (run_chains l b1 w1) as [[b2 e2] w2]. simpl in *. congruence.
Qed.

(** The errors reported for a field by a list in which one chain is on
    that field are the errors of that chain, run on the form as the
    chains before it left it. *)
Lemma run_chains_field l1 c l2 b w e :
  param e = Some (field c) ->
  Forall (fun c' => field c' <> field c) l1 ->
  Forall (fun c' => field c' <> field c) l2 ->
  In e (snd (fst (run_chains (l1 ++ c :: l2) b w)))
  <-> In e (snd (fst (run_chain c (fst (fst (run_chains l1 b w)))
                        (snd (run_chains l1 b w))))).
Proof.
  intros Hp H1 H2. rewrite run_chains_app.
  pose proof (run_chains_param l1 b w e) as P1.
  destruct (run_chains l1 b w) as [[b1 e1] w1]. rewrite run_chains_cons.
  cbn [fst snd].
  destruct (run_chain c b1 w1) as [[b2 e2] w2].
  pose proof (run_chains_param l2 b2 w2 e) as P2.
  destruct (run_chains l2 b2 w2) as [[b3 e3] w3]. simpl in *.
  rewrite !in_app_iff. split; [|tauto].
  intros [Hin|[Hin|Hin]]; [|assumption|].
  - destruct (P1 Hin) as (c' & Hc' & Hp').
    rewrite List.Forall_forall in H1. specialize (H1 c' Hc'). congruence.
  - destruct (P2 Hin) as (c' & Hc' & Hp').
    rewrite List.Forall_forall in H2. specialize (H2 c' Hc'). congruence.
Qed.

End ChainListFacts.

Ltac distinct_fields :=
  simpl; repeat (first [apply List.Forall_nil | apply List.Forall_cons]);
  simpl; discriminate.

Ltac spared :=
  simpl; repeat (first [apply List.Forall_nil | apply List.Forall_cons]);
  first [left; simpl; discriminate | right; no_sanitizers].

(** ** CSRF tokens and the routes of the application *)

Section CsrfFacts.
Context `{Libraries}.
Import Exn Store Http.

Lemma falsy_spec (o : option string) :
  Validator.falsy o = false <-> exists t, o = Some t /\ Js.is_empty t = false.
Proof.
  destruct o as [t|]; simpl.
  - split; [eauto|]. intros (t' & E & Ht). congruence.
  - split; [discriminate|]. intros (t' & E & _). discriminate.
Qed.

(** The guard of middleware/auth.js, where it is applied: a request
    other than GET passes exactly when its token matches, and is
    answered with 403 otherwise. *)
Lemma validateCSRFToken_guards (req : request) (w : world) :
  String.eqb (method req) "GET" = false ->
  (token_matches "_csrf" req w ->
   AuthMiddleware.validateCSRFToken req w = (Next, w))
  /\ (~ token_matches "_csrf" req w ->
      exists r, AuthMiddleware.validateCSRFToken req w = (Answer r, w)
                /\ status r = 403).
Proof.
  intros Hm. unfold AuthMiddleware.validateCSRFToken, token_matches. rewrite Hm.
  split.
  - intros (t & Ht & Hs & Hr). rewrite Hs, Hr. simpl. rewrite Ht. simpl.
    rewrite bool_decide_eq_true_2 by reflexivity. reflexivity.
  - intros Hno.
    destruct (Validator.falsy (csrfToken (w_session w))) eqn:Es; simpl.
    { destruct (wants_json req); eexists; split; reflexivity. }
    destruct (Validator.falsy
                (AuthMiddleware.or_else (body req !! "_csrf") (x_csrf_token req)))
      eqn:Er; simpl.
    { destruct (wants_json req); eexists; split; reflexivity. }
    destruct (bool_decide
                (csrfToken (w_session w)
                 = AuthMiddleware.or_else (body req !! "_csrf") (x_csrf_token req)))
      eqn:Eb; simpl.
    + exfalso. apply Hno.
      apply falsy_spec in Es as (t & Hs & Ht).
      apply bool_decide_eq_true_1 in Eb.
      exists t. split; [exact Ht|]. split; [exact Hs|]. congruence.
    + destruct (wants_json req); eexists; split; reflexivity.
Qed.

(** The guard of middleware/security.js, which reads the field
    [csrfToken] instead. *)
Lemma csrfProtection_guards (fresh : string) (req : request) (w : world) :
  String.eqb (method req) "GET" = false ->
  (token_matches "csrfToken" req w ->
   SecurityMiddleware.csrfProtection fresh req w = (Next, w))
  /\ (~ token_matches "csrfToken" req w ->
      exists r, SecurityMiddleware.csrfProtection fresh req w = (Answer r, w)
                /\ status r = 403).
Proof.
  intros Hm. unfold SecurityMiddleware.csrfProtection, token_matches. rewrite Hm.
  split.
  - intros (t & Ht & Hs & Hr). rewrite Hs, Hr. simpl. rewrite Ht. simpl.
    rewrite bool_decide_eq_true_2 by reflexivity. reflexivity.
  - intros Hno.
    destruct (Validator.falsy
                (AuthMiddleware.or_else (body req !! "csrfToken") (x_csrf_token req)))
      eqn:Er; simpl; [eexists; split; reflexivity|].
    destruct (bool_decide
                (AuthMiddleware.or_else (body req !! "csrfToken") (x_csrf_token req)
                 = csrfToken (w_session w)))
      eqn:Eb; simpl; [|eexists; split; reflexivity].
    exfalso. apply Hno.
    apply falsy_spec in Er as (t & Hr & Ht).
    apply bool_decide_eq_true_1 in Eb.
    exists t. split; [exact Ht|]. split; congruence.
Qed.

(** The routes of the application for requests other than GET are the
    six handlers as they are: none is behind a token guard. *)
Lemma app_post_routes (req : request) (pattern : string) (h : action response) :
  method req = "POST" ->
  App.app false pattern req = Some h ->
  (pattern = "/register" /\ h = AuthRoutes.post_register req)
  \/ (pattern = "/login" /\ h = AuthRoutes.post_login req)
  \/ (pattern = "/logout" /\ h = AuthRoutes.post_logout req)
  \/ (pattern = "/add-project" /\ h = ProjectRoutes.post_add_project req)
  \/ (pattern = "/edit-project/:id" /\ h = ProjectRoutes.post_edit_project req)
  \/ (pattern = "/delete-project/:id" /\ h = ProjectRoutes.post_delete_project req).
Proof.
  intros Hm. unfold App.app, App.routes, App.publicRoutes, App.authRoutes,
    App.projectRoutes. rewrite Hm.
  cbn [List.find List.app fst snd].
  change (String.eqb "GET" "POST") with false.
  change (String.eqb "POST" "POST") with true.
  cbn [andb].
  repeat match goal with
  | |- context [String.eqb ?p pattern] =>
      destruct (String.eqb_spec p pattern) as [<-|]; cbn [fst snd]
  end; intros E; try discriminate E; injection E as <-; tauto.
Qed.

(** [GET /project/:id] is served by the handler of routes/public.js. *)
Lemma app_get_project (req : request) :
  method req = "GET" ->
  App.app false "/project/:id" req = Some (PublicRoutes.get_project req).
Proof. intros Hm. unfold App.app. rewrite Hm. reflexivity. Qed.

End CsrfFacts.

(** C1 (failing input): the session of alice holds a token, the request
    [POST /delete-project/1] carries none, neither in the form nor in a
    header.  The guard [validateCSRFToken] answers it with 403, but the
    application does not apply the guard: the handler runs, the row is
    deleted and the answer is the redirect of a successful deletion. *)
Theorem C1_delete_without_token :
  Http.csrfToken (Http.w_session w_alice) = Some "7f3a"
  /\ Http.body delete_site !! "_csrf" = None
  /\ Http.x_csrf_token delete_site = None
  /\ (exists r,
        AuthMiddleware.validateCSRFToken delete_site w_alice = (Http.Answer r, w_alice)
        /\ Http.status r = 403)
  /\ exists h,
       App.app (H := Sample.libraries) false "/delete-project/:id" delete_site
       = Some h
       /\ fst (h w_alice) = Http.redirect "/dashboard"
       /\ Store.rows (Store.projects (Http.data (Http.w_pool (snd (h w_alice))))) = []
       /\ Http.successMessage (Http.w_session (snd (h w_alice)))
          = Some "Project deleted successfully!".
Proof.
  split; [reflexivity|]. split; [reflexivity|]. split; [reflexivity|].
  split.
  - eexists. split; [vm_compute; reflexivity|reflexivity].
  - eexists. split; [reflexivity|]. vm_compute. auto.
Qed.

(** ** Registration *)

Section RegisterFacts.
Context `{Libraries}.
Import Exn Store Http Validator AuthRoutes.
#[local] Arguments is_length : simpl never.
#[local] Arguments Js.trim : simpl never.
#[local] Arguments Js.re_username : simpl never.

Lemma registerValidation_quiet : Forall quiet_chain registerValidation.
Proof.
  unfold registerValidation, quiet_chain.
  repeat (first [apply List.Forall_nil | apply List.Forall_cons]); simpl;
    try exact I; try apply standard_quiet.
  intros v b w. destruct (decide (v = b !! "password")); split; reflexivity.
Qed.






End RegisterFacts.





(** ** Login *)

Section LoginFacts.
Context `{Libraries}.
Import Exn Store Http Validator AuthRoutes.

Lemma loginValidation_quiet : Forall quiet_chain loginValidation.
Proof.
  unfold loginValidation, quiet_chain.
  forall_items; try exact I; apply standard_quiet.
Qed.

(** The fields of a login as the handler reads them. *)
Lemma login_sanitized b w :
  let b' := fst (fst (run_chains loginValidation b w)) in
  b' !! "username" = Some (Js.trim (to_str (b !! "username")))
  /\ b' !! "password" = b !! "password".
Proof.
  intros b'. subst b'. unfold loginValidation.
  rewrite run_chains_cons.
  match goal with |- context [run_chain ?c b w] =>
    pose proof (run_chain_own c b w _ eq_refl eq_refl) as U1;
    pose proof (run_chain_other c b w "password") as U2;
    destruct (run_chain c b w) as [[b1 e1] w1] end.
  cbv beta iota. rewrite run_chains_cons.
  match goal with |- context [run_chain ?c b1 w1] =>
    pose proof (run_chain_keep c b1 w1 ltac:(no_sanitizers)) as V;
    destruct (run_chain c b1 w1) as [[b2 e2] w2] end.
  simpl in *. subst b2. rewrite U1, U2 by discriminate. auto.
Qed.

(** A login that passes the chains has a password. *)
Lemma login_valid_has_password b w :
  snd (fst (run_chains loginValidation b w)) = [] ->
  exists pw, b !! "password" = Some pw.
Proof.
  unfold loginValidation. rewrite run_chains_cons.
  match goal with |- context [run_chain ?c b w] =>
    pose proof (run_chain_other c b w "password") as U2;
    destruct (run_chain c b w) as [[b1 e1] w1] end.
  cbv beta iota. rewrite run_chains_cons.
  simpl in U2. specialize (U2 ltac:(discriminate)).
  unfold run_chain. simpl. rewrite U2.
  destruct (b !! "password") as [pw|]; [eauto|].
  simpl. intros Hnil. apply app_eq_nil in Hnil as [_ Hnil]. discriminate.
Qed.

Lemma login_handler_same (req : request) (errors : list verror) (s : session)
    (p1 p2 : pool) (name : string) (u : user_row) (others : list user_row) :
  faults p1 = faults p2 ->
  body req !! "username" = Some name ->
  (errors = [] -> exists pw, body req !! "password" = Some pw) ->
  select_users_by_username (Js.trim name) (data p1) = u :: others ->
  bcrypt_compare (to_str (body req !! "password")) (u_password u) = false ->
  select_users_by_username (Js.trim name) (data p2) = [] ->
  fst (login_handler req errors {| w_session := s; w_pool := p1 |})
  = fst (login_handler req errors {| w_session := s; w_pool := p2 |})
  /\ w_session (snd (login_handler req errors {| w_session := s; w_pool := p1 |})) = s
  /\ w_session (snd (login_handler req errors {| w_session := s; w_pool := p2 |})) = s.
Proof.
  intros Hf Hu Hpw H1 Hcmp H2.
  unfold login_handler, try_catch. rewrite Hu.
  destruct errors as [|e errors]; simpl; [|auto].
  destruct (Hpw eq_refl) as [pw Hp]. rewrite Hp in *. simpl in Hcmp.
  unfold bind, query, execute. simpl. rewrite <- Hf.
  destruct (faults p1) as [|[fault|] rest]; simpl; [|auto|];
    rewrite H1, H2; simpl; rewrite Hcmp; simpl; auto.
Qed.

(** On a body of strings: for every login request and session, and two
    stores in which the driver behaves alike, if in the first the username
    exists and the password is wrong and in the second the username does
    not exist, then [POST /login] gives the same response (status, view,
    locals, error message) in both, and leaves the session as it was in
    both. *)
Lemma login_indistinguishable_text (req : request) (s : session) (p1 p2 : pool)
    (u : user_row) (others : list user_row) :
  let w1 := {| w_session := s; w_pool := p1 |} in
  let w2 := {| w_session := s; w_pool := p2 |} in
  let b' := fst (fst (run_chains loginValidation (body req) w1)) in
  let name := Js.trim (to_str (b' !! "username")) in
  faults p1 = faults p2 ->
  select_users_by_username name (data p1) = u :: others ->
  bcrypt_compare (to_str (b' !! "password")) (u_password u) = false ->
  select_users_by_username name (data p2) = [] ->
  fst (post_login req w1) = fst (post_login req w2)
  /\ w_session (snd (post_login req w1)) = s
  /\ w_session (snd (post_login req w2)) = s.
Proof.
  intros w1 w2 b' name Hf H1 Hcmp H2.
  destruct (login_sanitized (body req) w1) as [Hu Hp]. fold b' in Hu, Hp.
  pose proof (login_valid_has_password (body req) w1) as Hhas.
  destruct (run_chains_same loginValidation loginValidation_quiet (body req) w1)
    as [Hq Hs].
  specialize (Hs w2).
  pose proof (run_chains_quiet loginValidation loginValidation_quiet (body req) w2)
    as Hq2.
  unfold post_login, guarded, requireGuest, logged_in. simpl.
  destruct (user s) as [su|]; [auto|].
  unfold validated. subst b'.
  destruct (run_chains loginValidation (body req) w1) as [[b' errors] w1'].
  destruct (run_chains loginValidation (body req) w2) as [[b2 errors2] w2'].
  cbn [fst snd] in *. injection Hs as -> ->. subst w1' w2'.
  subst name. rewrite Hu in H1, H2. cbn [to_str] in H1, H2.
  apply (login_handler_same (with_body req b') errors s p1 p2
           (Js.trim (to_str (body req !! "username"))) u others);
    try assumption.
  intros He. destruct (Hhas He) as [pw Hpw]. exists pw.
  change (b' !! "password" = Some pw). congruence.
Qed.

(** On a string the handler with the typed password is [login_handler]. *)
Lemma login_handler_posted_text (pw : string) (req : request)
    (errors : list verror) (w : world) :
  body req !! "password" = Some pw ->
  login_handler_posted (IsString pw) req errors w = login_handler req errors w.
Proof.
  intros Hp. unfold login_handler_posted, login_handler, try_catch.
  rewrite Hp. destruct (negb (is_nil errors)); [reflexivity|].
  unfold bind. destruct (defined (body req !! "username") w) as [[name|e] w1];
    [|reflexivity].
  destruct (query _ w1) as [[[|u users]|e] w2]; reflexivity.
Qed.

Lemma post_login_posted_text (pw : string) (req : request) (w : world) :
  post_login_posted (IsString pw) req w
  = post_login (with_body req (<["password" := pw]> (body req))) w.
Proof.
  unfold post_login_posted, post_login, guarded.
  destruct (requireGuest w) as [[r|] w1]; [reflexivity|].
  unfold validated. cbn [shown body with_body].
  pose proof (login_sanitized (<["password" := pw]> (body req)) w1) as [_ Hp].
  destruct (run_chains loginValidation (<["password" := pw]> (body req)) w1)
    as [[b' errors] w2].
  cbn [fst snd] in Hp. apply login_handler_posted_text.
  change (b' !! "password" = Some pw). rewrite Hp. apply lookup_insert_eq.
Qed.

End LoginFacts.

Lemma login_indistinguishable_text_witness :
  fst (AuthRoutes.post_login (H := Sample.libraries) login_alice_wrong
         {| Http.w_session := Sample.anonymous;
            Http.w_pool := Sample.reliable Sample.store |})
  = AuthRoutes.login_view (Http.VStr "Invalid username or password")
  /\ fst (AuthRoutes.post_login (H := Sample.libraries) login_alice_wrong
           {| Http.w_session := Sample.anonymous;
              Http.w_pool := Sample.reliable store_without_alice |})
     = AuthRoutes.login_view (Http.VStr "Invalid username or password").
Proof.
  destruct (login_indistinguishable_text (H := Sample.libraries) login_alice_wrong
              Sample.anonymous (Sample.reliable Sample.store)
              (Sample.reliable store_without_alice) Sample.alice [])
    as (Hsame & _ & _); try (vm_compute; reflexivity).
  split; [|rewrite <- Hsame]; vm_compute; reflexivity.
Defined.


(** C4: a login whose password is not a string tells an existing username
    from an unknown one.  For the JSON body with the username alice and the
    number 12345678 as password, [POST /login] answers "Login failed. Please
    try again." on the store that has alice, and "Invalid username or
    password" on the store that has not: the same status and view with
    another error message. *)
Theorem C4_login_distinguishes_non_string :
  let password := Http.NotString "12345678" in
  let known :=
    fst (AuthRoutes.post_login_posted (H := Sample.libraries) password login_alice
           {| Http.w_session := Sample.anonymous;
              Http.w_pool := Sample.reliable Sample.store |}) in
  let unknown :=
    fst (AuthRoutes.post_login_posted (H := Sample.libraries) password login_alice
           {| Http.w_session := Sample.anonymous;
              Http.w_pool := Sample.reliable store_without_alice |}) in
  Store.select_users_by_username (H := Sample.libraries) "alice" Sample.store
  = [Sample.alice]
  /\ Store.select_users_by_username (H := Sample.libraries) "alice" store_without_alice
     = []
  /\ known = AuthRoutes.login_view (Http.VStr "Login failed. Please try again.")
  /\ unknown = AuthRoutes.login_view (Http.VStr "Invalid username or password")
  /\ known <> unknown.
Proof.
  intros password known unknown.
  assert (Hk : known
               = AuthRoutes.login_view (Http.VStr "Login failed. Please try again."))
    by (vm_compute; reflexivity).
  assert (Hu : unknown
               = AuthRoutes.login_view (Http.VStr "Invalid username or password"))
    by (vm_compute; reflexivity).
  repeat split; try assumption; try (vm_compute; reflexivity).
  rewrite Hk, Hu. discriminate.
Qed.
(** ** Project validation *)

Section ProjectValidationFacts.
Context `{Libraries}.
Import Exn Store Http Validator.

Lemma new_Date_nonempty text t :
  JsDate.new_Date text = Some t -> Js.is_empty text = false.
Proof.
  unfold JsDate.new_Date. destruct (Js.is_empty text); [discriminate|reflexivity].
Qed.

Lemma end_after_start_quiet : quiet ProjectRoutes.end_after_start.
Proof.
  intros v b w. unfold ProjectRoutes.end_after_start.
  destruct (_ && _); split; reflexivity.
Qed.

Lemma projectValidation_quiet : Forall quiet_chain ProjectRoutes.projectValidation.
Proof.
  unfold ProjectRoutes.projectValidation, quiet_chain.
  forall_items; try exact I; try apply standard_quiet.
  apply end_after_start_quiet.
Qed.

(** The list of routes/project.js, split around the chain of [end_date]. *)
Lemma routes_split :
  exists l1 c l2,
    ProjectRoutes.projectValidation = l1 ++ c :: l2
    /\ c = body_ "end_date"
             [ Optional; IsISO8601; WithMessage "Please provide a valid end date";
               Custom ProjectRoutes.end_after_start ]
    /\ Forall (fun c' => field c' <> "end_date") l1
    /\ Forall (fun c' => field c' <> "end_date") l2
    /\ Forall (spares "end_date") l1
    /\ Forall (spares "start_date") l1.
Proof.
  eexists [_; _; _], _, [_]. split; [reflexivity|]. split; [reflexivity|].
  split; [distinct_fields|]. split; [distinct_fields|].
  split; spared.
Qed.

Lemma routes_end_chain (b : fields) (w : world) (endt start : string) (te ts : Z) :
  b !! "end_date" = Some endt ->
  b !! "start_date" = Some start ->
  JsDate.new_Date endt = Some te ->
  JsDate.new_Date start = Some ts ->
  In end_date_error
    (snd (fst (run_chain
                 (body_ "end_date"
                    [ Optional; IsISO8601;
                      WithMessage "Please provide a valid end date";
                      Custom ProjectRoutes.end_after_start ]) b w)))
  <-> (te <= ts)%Z.
Proof.
  intros He Hs Hte Hts.
  unfold run_chain. simpl. rewrite He. simpl.
  rewrite (new_Date_nonempty _ _ Hte). simpl.
  unfold standard, ProjectRoutes.end_after_start. simpl.
  rewrite Hs. simpl. rewrite (new_Date_nonempty _ _ Hte), (new_Date_nonempty _ _ Hts).
  rewrite Hte, Hts. simpl.
  destruct (isISO8601 endt); simpl;
    destruct (Z.leb_spec te ts); simpl; split; intros Hx; try lia; auto;
    repeat (destruct Hx as [Hx|Hx]; try discriminate Hx; try contradiction).
Qed.

Lemma routes_end_date_rule (b : fields) (w : world) (endt start : string) (te ts : Z) :
  b !! "end_date" = Some endt ->
  b !! "start_date" = Some start ->
  JsDate.new_Date endt = Some te ->
  JsDate.new_Date start = Some ts ->
  In end_date_error (snd (fst (run_chains ProjectRoutes.projectValidation b w)))
  <-> (te <= ts)%Z.
Proof.
  intros He Hs Hte Hts.
  destruct routes_split as (l1 & c & l2 & -> & -> & F1 & F2 & S1 & S2).
  rewrite run_chains_field by (reflexivity || assumption).
  apply routes_end_chain with (endt := endt) (start := start); try assumption.
  - rewrite run_chains_spared by assumption. exact He.
  - rewrite run_chains_spared by assumption. exact Hs.
Qed.

(** Without an end date the chain of [end_date] reports nothing. *)
Lemma routes_no_end_date (b : fields) (w : world) (e : verror) :
  falsy (b !! "end_date") = true ->
  In e (snd (fst (run_chains ProjectRoutes.projectValidation b w))) ->
  param e <> Some "end_date".
Proof.
  intros Hf Hin Hp.
  destruct routes_split as (l1 & c & l2 & Hl & -> & F1 & F2 & S1 & S2).
  rewrite Hl in Hin.
  rewrite run_chains_field in Hin by (assumption || reflexivity).
  revert Hin. unfold run_chain. simpl.
  rewrite run_chains_spared by assumption. rewrite Hf. simpl. tauto.
Qed.


(** The same for the list of middleware/validation.js. *)
Lemma middleware_end_after_start_quiet : quiet ValidationMiddleware.end_after_start.
Proof.
  intros v b w. unfold ValidationMiddleware.end_after_start.
  destruct (_ && _); [|split; reflexivity].
  destruct (JsDate.le _ _); [split; reflexivity|].
  destruct (JsDate.gt _ _); split; reflexivity.
Qed.

Lemma middleware_split (now : Z) :
  exists l1 c l2,
    ValidationMiddleware.projectValidation now = l1 ++ c :: l2
    /\ c = body_ "end_date"
             [ Optional; IsISO8601;
               WithMessage "Please provide a valid end date (YYYY-MM-DD)";
               Custom ValidationMiddleware.end_after_start ]
    /\ Forall (fun c' => field c' <> "end_date") l1
    /\ Forall (fun c' => field c' <> "end_date") l2
    /\ Forall (spares "end_date") l1
    /\ Forall (spares "start_date") l1.
Proof.
  eexists [_; _; _], _, [_]. split; [reflexivity|]. split; [reflexivity|].
  split; [distinct_fields|]. split; [distinct_fields|].
  split; spared.
Qed.

Lemma middleware_end_chain (b : fields) (w : world) (endt start : string) (te ts : Z) :
  b !! "end_date" = Some endt ->
  b !! "start_date" = Some start ->
  JsDate.new_Date endt = Some te ->
  JsDate.new_Date start = Some ts ->
  In end_date_error
    (snd (fst (run_chain
                 (body_ "end_date"
                    [ Optional; IsISO8601;
                      WithMessage "Please provide a valid end date (YYYY-MM-DD)";
                      Custom ValidationMiddleware.end_after_start ]) b w)))
  <-> (te <= ts)%Z.
Proof.
  intros He Hs Hte Hts.
  unfold run_chain. simpl. rewrite He. simpl.
  rewrite (new_Date_nonempty _ _ Hte). simpl.
  unfold standard, ValidationMiddleware.end_after_start. simpl.
  rewrite Hs. simpl. rewrite (new_Date_nonempty _ _ Hte), (new_Date_nonempty _ _ Hts).
  rewrite Hte, Hts. simpl.
  destruct (isISO8601 endt); simpl;
    destruct (Z.leb_spec te ts); simpl;
    try destruct (Z.ltb _ _); simpl; split; intros Hx; try lia; auto;
    repeat (destruct Hx as [Hx|Hx]; try discriminate Hx; try contradiction).
Qed.

Lemma middleware_end_date_rule (now : Z) (b : fields) (w : world)
    (endt start : string) (te ts : Z) :
  b !! "end_date" = Some endt ->
  b !! "start_date" = Some start ->
  JsDate.new_Date endt = Some te ->
  JsDate.new_Date start = Some ts ->
  In end_date_error
    (snd (fst (run_chains (ValidationMiddleware.projectValidation now) b w)))
  <-> (te <= ts)%Z.
Proof.
  intros He Hs Hte Hts.
  destruct (middleware_split now) as (l1 & c & l2 & -> & -> & F1 & F2 & S1 & S2).
  rewrite run_chains_field by (reflexivity || assumption).
  apply middleware_end_chain with (endt := endt) (start := start); try assumption.
  - rewrite run_chains_spared by assumption. exact He.
  - rewrite run_chains_spared by assumption. exact Hs.
Qed.

Lemma middleware_no_end_date (now : Z) (b : fields) (w : world) (e : verror) :
  falsy (b !! "end_date") = true ->
  In e (snd (fst (run_chains (ValidationMiddleware.projectValidation now) b w))) ->
  param e <> Some "end_date".
Proof.
  intros Hf Hin Hp.
  destruct (middleware_split now) as (l1 & c & l2 & Hl & -> & F1 & F2 & S1 & S2).
  rewrite Hl in Hin.
  rewrite run_chains_field in Hin by (assumption || reflexivity).
  revert Hin. unfold run_chain. simpl.
  rewrite run_chains_spared by assumption. rewrite Hf. simpl. tauto.
Qed.

(** An end date that [new Date] does not parse passes the rule of either
    list, whatever the start date: the comparison with NaN is false. *)
Lemma end_date_unparsed_passes (now : Z) (b : fields) (w : world) (endt : string) :
  b !! "end_date" = Some endt ->
  JsDate.new_Date endt = None ->
  ~ In end_date_error (snd (fst (run_chains ProjectRoutes.projectValidation b w)))
  /\ ~ In end_date_error
         (snd (fst (run_chains (ValidationMiddleware.projectValidation now) b w))).
Proof.
  intros He Hnone. split; intros Hin.
  - destruct routes_split as (l1 & c & l2 & Hl & -> & F1 & F2 & S1 & S2).
    rewrite Hl in Hin.
    rewrite run_chains_field in Hin by (assumption || reflexivity).
    revert Hin. unfold run_chain. simpl.
    rewrite run_chains_spared by assumption. rewrite He. simpl.
    unfold standard, ProjectRoutes.end_after_start. simpl.
    rewrite Hnone.
    destruct (Js.is_empty endt); simpl; [tauto|].
    rewrite Bool.andb_false_r.
    destruct (isISO8601 endt); simpl; intros Hx;
      repeat (destruct Hx as [Hx|Hx]; try discriminate Hx; try contradiction);
      try contradiction.
  - destruct (middleware_split now) as (l1 & c & l2 & Hl & -> & F1 & F2 & S1 & S2).
    rewrite Hl in Hin.
    rewrite run_chains_field in Hin by (assumption || reflexivity).
    revert Hin. unfold run_chain. simpl.
    rewrite run_chains_spared by assumption. rewrite He. simpl.
    unfold standard, ValidationMiddleware.end_after_start. simpl.
    rewrite Hnone.
    destruct (Js.is_empty endt); simpl; [tauto|].
    destruct (negb _); simpl;
      destruct (isISO8601 endt); simpl; intros Hx;
      repeat (destruct Hx as [Hx|Hx]; try discriminate Hx; try contradiction);
      try contradiction.
Qed.

(** With validation errors neither handler writes to the store. *)
Lemma add_project_handler_rejects (req : request) (errors : list verror) (w : world) :
  errors <> [] ->
  ProjectRoutes.add_project_handler req errors w
  = (ProjectRoutes.add_project_view (or_null VUser (user (w_session w))) errors
       (VFields (ProjectRoutes.form_data (body req))), w).
Proof.
  intros Hne. unfold ProjectRoutes.add_project_handler, try_catch.
  destruct errors; [congruence|]. reflexivity.
Qed.

Lemma edit_project_handler_rejects (req : request) (errors : list verror) (w : world) :
  errors <> [] ->
  data (w_pool (snd (ProjectRoutes.edit_project_handler req errors w)))
  = data (w_pool w).
Proof.
  intros Hne. unfold ProjectRoutes.edit_project_handler, try_catch.
  unfold bind, ProjectRoutes.session_user_of, query, execute.
  destruct (user (w_session w)) as [u|]; simpl; [|reflexivity].
  destruct errors; [congruence|].
  destruct (faults (w_pool w)) as [|[fault|] rest]; simpl; try reflexivity;
    destruct (AuthRoutes.is_nil _); reflexivity.
Qed.

(** The rule on [end_date] for dates that [new Date] parses, in the
    chains of routes/project.js (used by [POST /add-project] and
    [POST /edit-project/:id]) and in those of middleware/validation.js.
    When the form has an end date and a start date that denote the
    instants [te] and [ts], the error "End date must be after start date"
    is reported exactly when [te <= ts], hence not reported exactly when
    [te] is strictly later; a form without an end date gets no error for
    [end_date]; and a request for which the error is reported writes
    nothing to the store, the creation form being rendered again with the
    errors. *)
Lemma end_date_rule_parsed (req : request) (w : world) (now : Z) :
  let routes_errors :=
    snd (fst (run_chains ProjectRoutes.projectValidation (body req) w)) in
  let middleware_errors :=
    snd (fst (run_chains (ValidationMiddleware.projectValidation now) (body req) w)) in
  (forall endt start te ts,
      body req !! "end_date" = Some endt ->
      body req !! "start_date" = Some start ->
      JsDate.new_Date endt = Some te ->
      JsDate.new_Date start = Some ts ->
      (In end_date_error routes_errors <-> (te <= ts)%Z)
      /\ (In end_date_error middleware_errors <-> (te <= ts)%Z))
  /\ (falsy (body req !! "end_date") = true ->
      forall e, In e routes_errors \/ In e middleware_errors ->
                param e <> Some "end_date")
  /\ (In end_date_error routes_errors ->
      data (w_pool (snd (ProjectRoutes.post_add_project req w))) = data (w_pool w)
      /\ data (w_pool (snd (ProjectRoutes.post_edit_project req w))) = data (w_pool w)
      /\ forall u, user (w_session w) = Some u ->
           exists formData,
             fst (ProjectRoutes.post_add_project req w)
             = ProjectRoutes.add_project_view (VUser u) routes_errors formData).
Proof.
  intros routes_errors middleware_errors. split; [|split].
  - intros endt start te ts He Hs Hte Hts. split.
    + apply routes_end_date_rule with (endt := endt) (start := start); assumption.
    + apply middleware_end_date_rule with (endt := endt) (start := start); assumption.
  - intros Hf e [Hin|Hin].
    + eapply routes_no_end_date; eauto.
    + eapply middleware_no_end_date; eauto.
  - intros Hin.
    assert (Hne : routes_errors <> []) by (intros E; rewrite E in Hin; exact Hin).
    pose proof (run_chains_quiet _ projectValidation_quiet (body req) w) as Hq.
    subst routes_errors.
    unfold ProjectRoutes.post_add_project, ProjectRoutes.post_edit_project,
      guarded, AuthRoutes.requireAuth, AuthRoutes.logged_in, AuthRoutes.validated.
    destruct (user (w_session w)) as [u|] eqn:Hu; cbv beta iota.
    2:{ split; [reflexivity|]. split; [reflexivity|]. discriminate. }
    destruct (run_chains ProjectRoutes.projectValidation (body req) w)
      as [[b' errors] w'].
    cbn [fst snd] in *. subst w'.
    rewrite add_project_handler_rejects by assumption.
    rewrite edit_project_handler_rejects by assumption.
    split; [reflexivity|]. split; [reflexivity|].
    intros u' Hu'. injection Hu' as <-. cbn [fst]. rewrite Hu. eauto.
Qed.

End ProjectValidationFacts.

Lemma end_date_rule_parsed_witness :
  In end_date_error
    (snd (fst (Validator.run_chains (H := Sample.libraries)
                 (ProjectRoutes.projectValidation (H := Sample.libraries))
                 (Http.body add_project_backwards) w_alice)))
  /\ Http.data (Http.w_pool
        (snd (ProjectRoutes.post_add_project (H := Sample.libraries)
                add_project_backwards w_alice)))
     = Sample.store.
Proof.
  destruct (end_date_rule_parsed (H := Sample.libraries) add_project_backwards w_alice 0)
    as (Hrule & _ & Hreject).
  destruct (Hrule "2024-02-01" "2024-03-01" 1706745600000%Z 1709251200000%Z)
    as [Hroutes _]; try (vm_compute; reflexivity).
  assert (Hin : In end_date_error
    (snd (fst (Validator.run_chains (H := Sample.libraries)
                 (ProjectRoutes.projectValidation (H := Sample.libraries))
                 (Http.body add_project_backwards) w_alice)))).
  { apply Hroutes. lia. }
  split; [exact Hin|]. apply (Hreject Hin).
Defined.


(** C5: an end date that validator.js accepts and [new Date] does not parse
    escapes the rule.  The form [add_project_basic_format], sent by alice,
    has the start date 2024-03-01 and the end date 20230101, ISO 8601 in its
    basic format: the chains of routes/project.js report no error, those of
    middleware/validation.js report none for the rule at any time, and
    [POST /add-project] answers with the redirect to the dashboard and
    stores the project, whose end date is a year before its start date. *)
Theorem C5_unparsed_end_date_accepted :
  let req := add_project_basic_format in
  let answer := ProjectRoutes.post_add_project (H := Sample.libraries) req w_alice in
  Http.body req !! "start_date" = Some "2024-03-01"
  /\ Http.body req !! "end_date" = Some "20230101"
  /\ snd (fst (Validator.run_chains (H := Sample.libraries)
                 (ProjectRoutes.projectValidation (H := Sample.libraries))
                 (Http.body req) w_alice)) = []
  /\ (forall now,
        ~ In end_date_error
            (snd (fst (Validator.run_chains (H := Sample.libraries)
                         (ValidationMiddleware.projectValidation
                            (H := Sample.libraries) now)
                         (Http.body req) w_alice))))
  /\ fst answer = Http.redirect "/dashboard"
  /\ Store.rows (Store.projects (Http.data (Http.w_pool (snd answer))))
     = [ Sample.site;
         {| Store.p_pid := 2; Store.p_title := "Website";
            Store.p_start_date := "2024-03-01";
            Store.p_end_date := Some "2023-01-01";
            Store.p_short_description := "A new public website";
            Store.p_phase := Store.design; Store.p_uid := 1;
            Store.p_created_at := 1000; Store.p_updated_at := 1000 |} ].
Proof.
  intros req answer.
  split; [reflexivity|]. split; [reflexivity|]. split; [vm_compute; reflexivity|].
  split; [|split; vm_compute; reflexivity].
  intros now.
  apply (end_date_unparsed_passes (H := Sample.libraries) now (Http.body req)
           w_alice "20230101"); reflexivity.
Qed.
(** ** Ownership *)

Section OwnershipFacts.
Context `{Libraries}.
Import Exn Store Http Validator.

Lemma filter_none {A} (f : A -> bool) (l : list A) :
  (forall x, In x l -> f x = false) -> List.filter f l = [].
Proof.
  induction l as [|x l IH]; intros Hf; simpl; [reflexivity|].
  rewrite (Hf x) by (left; reflexivity). apply IH. intros y Hy. apply Hf. right. exact Hy.
Qed.

Lemma filter_all {A} (f : A -> bool) (l : list A) :
  (forall x, In x l -> f x = true) -> List.filter f l = l.
Proof.
  induction l as [|x l IH]; intros Hf; simpl; [reflexivity|].
  rewrite (Hf x) by (left; reflexivity). f_equal. apply IH.
  intros y Hy. apply Hf. right. exact Hy.
Qed.

(** Rows are told apart by their key. *)
Lemma unique_key (l : list project_row) (p q : project_row) :
  List.NoDup (List.map p_pid l) -> In p l -> In q l -> p_pid q = p_pid p -> q = p.
Proof.
  induction l as [|r l IH]; intros Hnd Hp Hq Heq; [contradiction|].
  simpl in Hnd. inversion Hnd as [|? ? Hr Hnd']; subst.
  destruct Hp as [->|Hp], Hq as [->|Hq]; auto.
  - exfalso. apply Hr. rewrite <- Heq. apply List.in_map. exact Hq.
  - exfalso. apply Hr. rewrite Heq. apply List.in_map. exact Hp.
Qed.

(** What the statements of the project routes find for a user who does
    not own the row with the given key. *)
Lemma not_owner_selects_nothing (d : database) (p : project_row) (id : string)
    (uid : nat) :
  List.NoDup (List.map p_pid (rows (projects d))) ->
  In p (rows (projects d)) ->
  sql_key id = Some (p_pid p) ->
  uid <> p_uid p ->
  forall q, In q (rows (projects d)) ->
            key_matches (sql_key id) (p_pid q) && Nat.eqb (p_uid q) uid = false.
Proof.
  intros Hnd Hp Hkey Hne q Hq. rewrite Hkey. simpl.
  destruct (Nat.eqb_spec (p_pid p) (p_pid q)) as [Heq|]; [|reflexivity].
  assert (q = p) by (eapply unique_key; eauto). subst q.
  simpl. apply Nat.eqb_neq. congruence.
Qed.

Lemma owner_of_key (d : database) (p : project_row) (id : string) :
  List.NoDup (List.map p_pid (rows (projects d))) ->
  In p (rows (projects d)) ->
  sql_key id = Some (p_pid p) ->
  List.filter (fun q => key_matches (sql_key id) (p_pid q)) (rows (projects d)) = [p].
Proof.
  intros Hnd Hp Hkey. rewrite Hkey. simpl.
  induction (rows (projects d)) as [|r l IH]; [contradiction|].
  simpl in Hnd. inversion Hnd as [|? ? Hr Hnd']; subst. simpl.
  destruct Hp as [->|Hp].
  - rewrite Nat.eqb_refl. f_equal. apply filter_none.
    intros q Hq. apply Nat.eqb_neq. intros Heq. apply Hr.
    rewrite Heq. apply List.in_map. exact Hq.
  - destruct (Nat.eqb_spec (p_pid p) (p_pid r)) as [Heq|]; [|auto].
    exfalso. apply Hr. rewrite <- Heq. apply List.in_map. exact Hp.
Qed.

Lemma delete_not_owner (d : database) (p : project_row) (id : string) (uid : nat) :
  List.NoDup (List.map p_pid (rows (projects d))) ->
  In p (rows (projects d)) ->
  sql_key id = Some (p_pid p) ->
  uid <> p_uid p ->
  delete_project id uid d = (Done 0, d).
Proof.
  intros Hnd Hp Hkey Hne.
  pose proof (not_owner_selects_nothing d p id uid Hnd Hp Hkey Hne) as Hmiss.
  unfold delete_project.
  rewrite (filter_none _ _ Hmiss).
  rewrite filter_all by (intros q Hq; rewrite (Hmiss q Hq); reflexivity).
  destruct d as [us [prows pnext]]. reflexivity.
Qed.

(** C2: for an authenticated session whose user is not the owner of the
    project the route parameter designates, [POST /delete-project/:id]
    always answers with a redirect to the dashboard and
    [POST /edit-project/:id] does so whenever the store answers the
    ownership query; neither changes any row of the store, whatever the
    form and whatever the store's faults.  The guard
    [requireProjectOwnership] never lets such a request through, leaves
    the store as it is, and answers 403 to API clients and with a
    redirect to browsers. *)
Theorem C2_non_owner_cannot_change (req : request) (w : world)
    (u : session_user) (p : project_row) :
  user (w_session w) = Some u ->
  List.NoDup (List.map p_pid (rows (projects (data (w_pool w))))) ->
  In p (rows (projects (data (w_pool w)))) ->
  sql_key (params_id req) = Some (p_pid p) ->
  su_uid u <> p_uid p ->
  (fst (ProjectRoutes.post_delete_project req w) = redirect "/dashboard"
   /\ data (w_pool (snd (ProjectRoutes.post_delete_project req w))) = data (w_pool w))
  /\ (data (w_pool (snd (ProjectRoutes.post_edit_project req w))) = data (w_pool w)
      /\ (next_fault (w_pool w) = None ->
          fst (ProjectRoutes.post_edit_project req w) = redirect "/dashboard"))
  /\ (data (w_pool (snd (AuthMiddleware.requireProjectOwnership req w)))
      = data (w_pool w)
      /\ (exists r, fst (AuthMiddleware.requireProjectOwnership req w) = Answer r)
      /\ (next_fault (w_pool w) = None -> su_uid u <> 0 ->
          Js.is_empty (params_id req) = false ->
          fst (AuthMiddleware.requireProjectOwnership req w)
          = Answer (if wants_json req
                    then with_status 403 (json [("error", VStr "Access denied")])
                    else redirect "/dashboard"))).
Proof.
  intros Hu Hnd Hp Hkey Hne.
  pose proof (delete_not_owner _ p _ _ Hnd Hp Hkey Hne) as Hdel.
  pose proof (not_owner_selects_nothing _ p _ _ Hnd Hp Hkey Hne) as Hmiss.
  pose proof (owner_of_key _ p _ Hnd Hp Hkey) as Hown.
  split; [|split].
  - unfold ProjectRoutes.post_delete_project, guarded, AuthRoutes.requireAuth,
      AuthRoutes.logged_in, try_catch, bind, ProjectRoutes.session_user_of, execute.
    repeat (cbv beta iota zeta; rewrite ?Hu).
    cbv beta iota zeta.
    destruct (faults (w_pool w)) as [|[fault|] rest]; cbv beta iota zeta;
      rewrite ?Hdel; cbn; auto.
  - pose proof (run_chains_quiet _ projectValidation_quiet (body req) w) as Hq.
    unfold ProjectRoutes.post_edit_project, guarded, AuthRoutes.requireAuth,
      AuthRoutes.logged_in, AuthRoutes.validated.
    repeat (cbv beta iota zeta; rewrite ?Hu).
    cbv beta iota zeta.
    destruct (run_chains ProjectRoutes.projectValidation (body req) w)
      as [[b' errors] w'].
    cbn [fst snd] in *. subst w'.
    unfold ProjectRoutes.edit_project_handler, try_catch, bind,
      ProjectRoutes.session_user_of, query, execute, next_fault.
    repeat (cbv beta iota zeta; rewrite ?Hu).
    cbv beta iota zeta.
    unfold select_project_of.
    change (params_id (with_body req b')) with (params_id req).
    rewrite (filter_none _ _ Hmiss).
    destruct (faults (w_pool w)) as [|[fault|] rest]; cbn; auto.
    split; [reflexivity|discriminate].
  - unfold AuthMiddleware.requireProjectOwnership, try_catch, bind,
      ProjectRoutes.session_user_of, query, execute, next_fault,
      AuthMiddleware.deny, select_project_owner.
    repeat (cbv beta iota zeta; rewrite ?Hu, ?Hown).
    cbv beta iota zeta.
    assert (Hneq : Nat.eqb (p_uid p) (su_uid u) = false)
      by (apply Nat.eqb_neq; congruence).
    destruct (Js.is_empty (params_id req)); cbn.
    { split; [reflexivity|]. split; [eauto|]. discriminate. }
    destruct (Nat.eqb_spec (su_uid u) 0); cbn.
    { split; [reflexivity|]. split; [eauto|]. tauto. }
    destruct (faults (w_pool w)) as [|[fault|] rest];
      repeat (cbv beta iota zeta; cbn [fst snd w_pool data]; rewrite ?Hown);
      cbn; rewrite ?Hneq; cbn;
      destruct (wants_json req); cbn;
      (split; [reflexivity|]; split; [eauto|]; intros; try reflexivity; try discriminate).
Qed.

End OwnershipFacts.

Lemma C2_non_owner_cannot_change_witness :
  fst (ProjectRoutes.post_delete_project (H := Sample.libraries) delete_site w_bob)
  = Http.redirect "/dashboard"
  /\ Http.data (Http.w_pool
       (snd (ProjectRoutes.post_delete_project (H := Sample.libraries) delete_site w_bob)))
     = Sample.store.
Proof.
  apply (C2_non_owner_cannot_change (H := Sample.libraries) delete_site w_bob
           {| Http.su_uid := 2; Http.su_username := "bob";
              Http.su_email := "bob@example.com" |} Sample.site).
  - reflexivity.
  - vm_compute. repeat constructor. intros [].
  - left. reflexivity.
  - reflexivity.
  - vm_compute. discriminate.
Defined.

(** ** Reading a project *)

Section ReadFacts.
Context `{Libraries}.
Import Exn Store Http Validator.

Lemma filter_unique {A} (key : A -> nat) (l : list A) (x : A) :
  List.NoDup (List.map key l) ->
  In x l ->
  List.filter (fun y => Nat.eqb (key x) (key y)) l = [x].
Proof.
  intros Hnd Hx.
  induction l as [|r l IH]; [contradiction|].
  simpl in Hnd. inversion Hnd as [|? ? Hr Hnd']; subst. simpl.
  destruct Hx as [->|Hx].
  - rewrite Nat.eqb_refl. f_equal. apply filter_none.
    intros q Hq. apply Nat.eqb_neq. intros Heq. apply Hr.
    rewrite Heq. apply List.in_map. exact Hq.
  - destruct (Nat.eqb_spec (key x) (key r)) as [Heq|]; [|auto].
    exfalso. apply Hr. rewrite <- Heq. apply List.in_map. exact Hx.
Qed.

Lemma join_of_key (d : database) (p : project_row) (o : user_row) (id : string) :
  consistent d ->
  In p (rows (projects d)) ->
  In o (rows (users d)) ->
  u_uid o = p_uid p ->
  sql_key id = Some (p_pid p) ->
  select_project_with_owner id d = [(p, o)].
Proof.
  intros (Hp & Hu & _) Hin Hino Ho Hkey.
  unfold select_project_with_owner.
  rewrite (owner_of_key d p id Hp Hin Hkey). simpl.
  rewrite <- Ho. rewrite (filter_unique u_uid _ o Hu Hino). reflexivity.
Qed.

(** C7 (amended): [GET /api/projects/:id] sends every anonymous session
    to the login page, with the status 302 of the redirect, whatever the
    store holds or does.  On a store that satisfies the constraints of
    the schema and carries out the statements, for every project [p],
    with owner row [o], that the route parameter designates:
    [GET /project/:id] (both the handler of routes/public.js, which
    serves the path, and the one of routes/project.js) renders the
    details of [p] with the owner's name and address for every session,
    anonymous or not; [GET /api/projects/:id] returns [p] to the session
    of its owner and answers 404 to any other user. *)
Theorem C7_project_reads (req : request) (w : world) :
  (user (w_session w) = None ->
   ProjectRoutes.get_api_project req w = (redirect "/login", w)
   /\ status (fst (ProjectRoutes.get_api_project req w)) = 302)
  /\ forall p,
       consistent (data (w_pool w)) ->
       In p (rows (projects (data (w_pool w)))) ->
       sql_key (params_id req) = Some (p_pid p) ->
       faults (w_pool w) = [] ->
       exists o,
         In o (rows (users (data (w_pool w)))) /\ u_uid o = p_uid p
         /\ (Js.is_empty (params_id req) = false ->
             js_isNaN (params_id req) = false ->
             exists locals,
               fst (PublicRoutes.get_project req w) = project_details locals
               /\ In ("project", VProjectOwner p (u_username o) (u_email o)) locals)
         /\ (exists locals,
               fst (ProjectRoutes.get_project req w) = project_details locals
               /\ In ("project", VProjectOwner p (u_username o) (u_email o)) locals)
         /\ (forall u, user (w_session w) = Some u -> su_uid u = p_uid p ->
             fst (ProjectRoutes.get_api_project req w) = json_value (VProject p))
         /\ (forall u, user (w_session w) = Some u -> su_uid u <> p_uid p ->
             fst (ProjectRoutes.get_api_project req w)
             = with_status 404 (json [("error", VStr "Project not found")])).
Proof.
  split.
  { intros Hu.
    unfold ProjectRoutes.get_api_project, guarded, AuthRoutes.requireAuth,
      AuthRoutes.logged_in.
    rewrite Hu. split; reflexivity. }
  intros p Hc Hin Hkey Hf.
  destruct Hc as (Hpk & Huk & Hfk).
  destruct (Hfk p Hin) as (o & Hino & Ho).
  pose proof (join_of_key _ p o _ (conj Hpk (conj Huk Hfk)) Hin Hino Ho Hkey) as Hjoin.
  exists o. split; [exact Hino|]. split; [exact Ho|].
  split; [|split; [|split]].
  - intros Hne Hnan.
    unfold PublicRoutes.get_project, try_catch, bind, query, execute.
    repeat (cbv beta iota zeta; cbn [orb w_pool w_session faults data fst snd];
            rewrite ?Hne, ?Hnan, ?Hf, ?Hjoin).
    cbv beta iota zeta.
    eexists. split; [reflexivity|]. simpl. auto 10.
  - unfold ProjectRoutes.get_project, try_catch, bind, query, execute.
    repeat (cbv beta iota zeta; cbn [w_pool w_session faults data fst snd];
            rewrite ?Hf, ?Hjoin).
    cbv beta iota zeta.
    eexists. split; [reflexivity|]. simpl. auto 10.
  - intros u Hu Hown.
    unfold ProjectRoutes.get_api_project, guarded, AuthRoutes.requireAuth,
      AuthRoutes.logged_in, try_catch, bind, ProjectRoutes.session_user_of,
      query, execute, select_project_of.
    repeat (cbv beta iota zeta; rewrite ?Hu, ?Hf).
    cbv beta iota zeta.
    assert (Hsel : List.filter
              (fun q => key_matches (sql_key (params_id req)) (p_pid q)
                        && Nat.eqb (p_uid q) (su_uid u))
              (rows (projects (data (w_pool w)))) = [p]).
    { rewrite <- (owner_of_key _ p _ Hpk Hin Hkey).
      apply List.filter_ext_in. intros q Hq.
      destruct (key_matches (sql_key (params_id req)) (p_pid q)) eqn:E; [|reflexivity].
      simpl. rewrite Hkey in E. simpl in E. apply Nat.eqb_eq in E.
      assert (q = p) by (eapply unique_key; eauto). subst q.
      apply Nat.eqb_eq. congruence. }
    rewrite Hsel. reflexivity.
  - intros u Hu Hne.
    unfold ProjectRoutes.get_api_project, guarded, AuthRoutes.requireAuth,
      AuthRoutes.logged_in, try_catch, bind, ProjectRoutes.session_user_of,
      query, execute, select_project_of.
    repeat (cbv beta iota zeta; rewrite ?Hu, ?Hf).
    cbv beta iota zeta.
    rewrite (filter_none _ _ (not_owner_selects_nothing _ p _ _ Hpk Hin Hkey Hne)).
    reflexivity.
Qed.

End ReadFacts.

Lemma sample_store_consistent : consistent Sample.store.
Proof.
  split; [|split].
  - vm_compute. repeat constructor. intros [].
  - vm_compute. repeat constructor; simpl; intuition discriminate.
  - intros p [<-|[]]. exists Sample.alice. split; [left; reflexivity|reflexivity].
Defined.

Lemma C7_project_reads_witness :
  exists locals,
    fst (PublicRoutes.get_project (H := Sample.libraries) get_site w_anonymous)
    = project_details locals
    /\ In ("project", Http.VProjectOwner Sample.site "alice" "alice@example.com") locals.
Proof.
  destruct (C7_project_reads (H := Sample.libraries) get_site w_anonymous)
    as (_ & Hreads).
  destruct (Hreads Sample.site sample_store_consistent (or_introl eq_refl) eq_refl
              eq_refl) as (o & Hin & Ho & Hpublic & _).
  destruct Hin as [<-|[<-|[]]]; [|discriminate Ho].
  apply Hpublic; reflexivity.
Defined.

(** C7, as stated, fails for [GET /api/projects/:id]: an anonymous session
    asking for an existing project is redirected to the login page and
    gets no project data. *)
Lemma C7_counterexample :
  In Sample.site (Store.rows (Store.projects Sample.store))
  /\ fst (ProjectRoutes.get_api_project (H := Sample.libraries) get_api_site w_anonymous)
     = Http.redirect "/login"
  /\ fst (ProjectRoutes.get_api_project (H := Sample.libraries) get_api_site w_anonymous)
     <> Http.json_value (Http.VProject Sample.site).
Proof.
  split; [left; reflexivity|]. split; [reflexivity|]. vm_compute. discriminate.
Qed.
(** ** The cap on projects per user *)

Section ProjectCapFacts.
Context `{Libraries}.
Import Exn Store Http Validator.




End ProjectCapFacts.


(** ** The schema bootstrap *)

Section BootstrapFacts.
Context `{Libraries}.
Import Exn Store Bootstrap.

Lemma triple_ret {A} (P : mysql -> Prop) (a : A) (Q : A -> mysql -> Prop) E :
  (forall m, P m -> Q a m) -> triple P (ret a) Q E.
Proof. intros HQ m Hm. simpl. auto. Qed.

Lemma triple_bind {A B} (P : mysql -> Prop) (c : M mysql A) (k : A -> M mysql B)
    (Q : A -> mysql -> Prop) (R : B -> mysql -> Prop) (E : mysql -> Prop) :
  triple P c Q E ->
  (forall a, triple (Q a) (k a) R E) ->
  triple P (bind c k) R E.
Proof.
  intros Hc Hk m Hm. unfold bind. specialize (Hc m Hm).
  destruct (c m) as [[a|e] m']; [|exact Hc].
  apply (Hk a m' Hc).
Qed.

(** A statement under any behaviour of the driver, for properties of
    the databases alone. *)
Lemma triple_execute {A}
    (stmt : Z -> gmap string schema -> outcome A * gmap string schema)
    (p : gmap string schema -> Prop) (q : A -> gmap string schema -> Prop)
    (e : gmap string schema -> Prop) :
  (forall dbs, p dbs -> e dbs) ->
  (forall clock dbs, p dbs ->
     match stmt clock dbs with
     | (Done a, dbs') => q a dbs'
     | (Failed _, dbs') => e dbs'
     end) ->
  triple (fun m => p (databases m)) (execute stmt)
    (fun a m => q a (databases m)) (fun m => e (databases m)).
Proof.
  intros Hfault Hstmt m Hm. unfold execute.
  specialize (Hstmt (now m) (databases m) Hm).
  destruct (upcoming m) as [|[fault|] rest]; simpl; auto;
    destruct (stmt (now m) (databases m)) as [[a|err] dbs']; simpl; exact Hstmt.
Qed.

(** A statement when the driver carries every statement out. *)
Lemma triple_execute_reliable {A}
    (stmt : Z -> gmap string schema -> outcome A * gmap string schema)
    (p : gmap string schema -> Prop) (q : A -> gmap string schema -> Prop)
    (e : gmap string schema -> Prop) :
  (forall clock dbs, p dbs ->
     match stmt clock dbs with
     | (Done a, dbs') => q a dbs'
     | (Failed _, dbs') => e dbs'
     end) ->
  triple (fun m => upcoming m = [] /\ p (databases m)) (execute stmt)
    (fun a m => upcoming m = [] /\ q a (databases m))
    (fun m => upcoming m = [] /\ e (databases m)).
Proof.
  intros Hstmt m [Hup Hm]. unfold execute. rewrite Hup.
  specialize (Hstmt (now m) (databases m) Hm).
  destruct (stmt (now m) (databases m)) as [[a|err] dbs']; simpl; auto.
Qed.

Lemma triple_weaken {A} (P P' : mysql -> Prop) (c : M mysql A)
    (Q Q' : A -> mysql -> Prop) (E E' : mysql -> Prop) :
  triple P' c Q' E' ->
  (forall m, P m -> P' m) ->
  (forall a m, Q' a m -> Q a m) ->
  (forall m, E' m -> E m) ->
  triple P c Q E.
Proof.
  intros Hc HP HQ HE m Hm. specialize (Hc m (HP m Hm)).
  destruct (c m) as [[a|e] m']; auto.
Qed.

(** *** On an initialized store nothing is written *)

Section Initialized.
Variables (name : string) (D : gmap string schema).
Hypothesis Hinit : initialized name D.

Let same (m : mysql) : Prop := databases m = D.

Lemma create_database_inert clock : create_database name clock D = (Done tt, D).
Proof.
  destruct Hinit as (tu & tp & Hl & _). unfold create_database. rewrite Hl.
  reflexivity.
Qed.

Lemma create_users_inert clock : create_users name clock D = (Done tt, D).
Proof.
  destruct Hinit as (tu & tp & Hl & _). unfold create_users. rewrite Hl.
  reflexivity.
Qed.

Lemma create_projects_inert clock : create_projects name clock D = (Done tt, D).
Proof.
  destruct Hinit as (tu & tp & Hl & _). unfold create_projects. rewrite Hl.
  reflexivity.
Qed.

Lemma count_users_inert clock :
  exists total,
    in_database name false (fun _ d => (Done (count_users d), d)) clock D
    = (Done total, D)
    /\ 0 < total.
Proof.
  destruct Hinit as (tu & tp & Hl & Hrows).
  exists (List.length (rows tu)). unfold in_database. rewrite Hl. simpl.
  split.
  - f_equal. apply insert_id. exact Hl.
  - unfold count_users. destruct (rows tu); [congruence|simpl; lia].
Qed.

Ltac inert_statement lemma :=
  apply (triple_execute _ (fun dbs => dbs = D) (fun _ dbs => dbs = D)
           (fun dbs => dbs = D));
  [ auto | intros clock dbs Hd; rewrite Hd, lemma; reflexivity ].

Lemma createDatabase_inert :
  triple same (createDatabase name) (fun a m => a = name /\ same m) same.
Proof.
  unfold createDatabase. eapply triple_bind.
  - inert_statement create_database_inert.
  - intros x. apply triple_ret. auto.
Qed.

Lemma createTables_inert :
  triple same (createTables name) (fun _ => same) same.
Proof.
  unfold createTables. eapply triple_bind.
  - inert_statement create_users_inert.
  - intros x. eapply triple_bind.
    + inert_statement create_projects_inert.
    + intros y. apply triple_ret. auto.
Qed.

Lemma addSampleData_inert plainPassword m :
  same m -> same (snd (addSampleData name plainPassword m)).
Proof.
  intros Hm. unfold addSampleData, try_catch.
  match goal with |- context [bind ?c ?k m] =>
    assert (Ht : triple same (bind c k) (fun _ => same) same) end.
  { eapply triple_bind.
    - apply (triple_execute _ (fun dbs => dbs = D)
               (fun total dbs => dbs = D /\ 0 < total) (fun dbs => dbs = D));
        [auto|].
      intros clock dbs Hd. rewrite Hd.
      destruct (count_users_inert clock) as (total & -> & Hpos). auto.
    - intros total. simpl. intros m' [Hm' Hpos].
      apply Nat.ltb_lt in Hpos. rewrite Hpos. simpl. exact Hm'. }
  specialize (Ht m Hm).
  destruct (bind _ _ m) as [[[]|e] m']; exact Ht.
Qed.

Lemma setupDatabase_inert plainPassword m :
  same m -> same (snd (setupDatabase name plainPassword m)).
Proof.
  intros Hm. unfold setupDatabase, try_catch.
  destruct (accepting m); [|exact Hm].
  match goal with |- context [bind ?c ?k m] =>
    assert (Ht : triple same (bind c k) (fun _ => same) same) end.
  { eapply triple_bind; [apply createDatabase_inert|].
    intros activeDatabase m0 [-> Hm0]. revert m0 Hm0.
    change (triple same
              (bind (createTables name)
                 (fun _ m' =>
                    let '(_, m'') := addSampleData name plainPassword m' in
                    (Done tt, m'')))
              (fun _ => same) same).
    eapply triple_bind; [apply createTables_inert|].
    intros x m1 Hm1.
    pose proof (addSampleData_inert plainPassword m1 Hm1) as Hs.
    destruct (addSampleData name plainPassword m1) as [[] m2]. exact Hs. }
  specialize (Ht m Hm).
  destruct (bind _ _ m) as [[[]|e] m']; exact Ht.
Qed.
End Initialized.

(** *** A run without faults initializes the store *)

Lemma createDatabase_creates name :
  triple (reliably (fun _ => True)) (createDatabase name)
    (fun a => reliably (fun dbs => a = name /\ has_database name dbs))
    (reliably (fun _ => False)).
Proof.
  unfold createDatabase. eapply triple_bind.
  - apply (triple_execute_reliable _ (fun _ => True)
             (fun _ dbs => has_database name dbs) (fun _ => False)).
    intros clock dbs _. unfold create_database, has_database.
    destruct (dbs !! name) as [sc|] eqn:E; [eauto|].
    rewrite lookup_insert_eq. eauto.
  - intros x. apply triple_ret. intros m [Hup Hdb]. split; auto.
Qed.

Lemma createTables_creates name :
  triple (reliably (has_database name)) (createTables name)
    (fun _ => reliably (has_tables name)) (reliably (fun _ => False)).
Proof.
  unfold createTables. eapply triple_bind.
  - apply (triple_execute_reliable _ (has_database name)
             (fun _ dbs => exists sc tu, dbs !! name = Some sc /\ s_users sc = Some tu)
             (fun _ => False)).
    intros clock dbs [sc Hsc]. unfold create_users. rewrite Hsc.
    destruct (s_users sc) as [tu|] eqn:E; [eauto|].
    rewrite lookup_insert_eq. eauto.
  - intros x. eapply triple_bind.
    + apply (triple_execute_reliable _
               (fun dbs => exists sc tu, dbs !! name = Some sc /\ s_users sc = Some tu)
               (fun _ dbs => has_tables name dbs) (fun _ => False)).
      intros clock dbs (sc & tu & Hsc & Htu). unfold create_projects, has_tables.
      rewrite Hsc. destruct sc as [su sp]. simpl in Htu. subst su. simpl.
      destruct sp as [tp|]; [eauto|].
      rewrite lookup_insert_eq. eauto.
    + intros y. apply triple_ret. auto.
Qed.

Lemma insert_project_users title short_description start_date end_date phase uid
    clock d :
  users (snd (insert_project title short_description start_date end_date phase uid
                clock d)) = users d.
Proof.
  unfold insert_project.
  destruct (project_values _ _ _ _ _) as [[[[[t first] last] text] ph]|e];
    [|reflexivity].
  destruct (List.existsb _ _); reflexivity.
Qed.

Lemma insert_samples_keeps name uid l :
  triple (reliably (initialized name)) (insert_samples name uid l)
    (fun _ => reliably (initialized name)) (reliably (initialized name)).
Proof.
  induction l as [|[[[title start_date] short_description] phase] l IH]; simpl.
  - apply triple_ret. auto.
  - eapply triple_bind; [|intros x; exact IH].
    apply (triple_execute_reliable _ (initialized name)
             (fun _ dbs => initialized name dbs) (initialized name)).
    intros clock dbs (tu & tp & Hdb & Hrows). unfold in_database. rewrite Hdb. simpl.
    pose proof (insert_project_users title short_description start_date None phase
                  uid clock {| users := tu; projects := tp |}) as Hu.
    destruct (insert_project _ _ _ _ _ _ _ _) as [[pid|err] d']; simpl in *;
      exists (users d'), (projects d'); rewrite lookup_insert_eq, Hu; auto.
Qed.

Lemma addSampleData_seeds name plainPassword m :
  reliably (has_tables name) m ->
  reliably (initialized name) (snd (addSampleData name plainPassword m)).
Proof.
  intros Hm. unfold addSampleData, try_catch.
  match goal with |- context [bind ?c ?k m] =>
    assert (Ht : triple (reliably (has_tables name)) (bind c k)
                   (fun _ => reliably (initialized name))
                   (reliably (initialized name))) end.
  { eapply triple_bind.
    - eapply triple_weaken;
        [ apply (triple_execute_reliable _ (has_tables name)
                   (fun total dbs =>
                      exists tu tp,
                        dbs !! name
                        = Some {| s_users := Some tu; s_projects := Some tp |}
                        /\ total = List.length (rows tu))
                   (fun _ => False))
        | auto | intros a m' Hq; exact Hq | intros m' [_ []] ].
      intros clock dbs (tu & tp & Hdb). unfold in_database. rewrite Hdb. simpl.
      exists tu, tp. rewrite lookup_insert_eq. auto.
    - intros total.
      destruct (Nat.ltb 0 total) eqn:Hpos.
      + apply triple_ret. intros m' [Hup (tu & tp & Hdb & ->)].
        split; [exact Hup|]. exists tu, tp. split; [exact Hdb|].
        apply Nat.ltb_lt in Hpos. destruct (rows tu); [simpl in Hpos; lia|discriminate].
      + eapply triple_bind; [|intros x; apply insert_samples_keeps].
        eapply triple_weaken.
        * apply (triple_execute_reliable _
                   (fun dbs => exists tu tp,
                      dbs !! name = Some {| s_users := Some tu; s_projects := Some tp |}
                      /\ rows tu = [])
                   (fun _ dbs => initialized name dbs) (fun _ => False)).
          intros clock dbs (tu & tp & Hdb & Hrows). unfold in_database.
          rewrite Hdb. simpl. unfold insert_user.
          rewrite user_values_fit by (simpl; lia). simpl. rewrite Hrows. simpl.
          eexists _, _. rewrite lookup_insert_eq. split; [reflexivity|].
          simpl. discriminate.
        * intros m' [Hup (tu & tp & Hdb & ->)]. split; [exact Hup|].
          exists tu, tp. split; [exact Hdb|].
          apply Nat.ltb_ge in Hpos. destruct (rows tu); [reflexivity|simpl in Hpos; lia].
        * auto.
        * intros m' [_ []]. }
  specialize (Ht m Hm).
  destruct (bind _ _ m) as [[[]|e] m']; exact Ht.
Qed.

Lemma setupDatabase_initializes name plainPassword m :
  accepting m = true ->
  upcoming m = [] ->
  initialized name (databases (snd (setupDatabase name plainPassword m))).
Proof.
  intros Hacc Hup. unfold setupDatabase, try_catch. rewrite Hacc.
  match goal with |- context [bind ?c ?k m] =>
    assert (Ht : triple (reliably (fun _ => True)) (bind c k)
                   (fun _ => reliably (initialized name))
                   (reliably (fun _ => False))) end.
  { eapply triple_bind; [apply createDatabase_creates|].
    intros activeDatabase m0 [Hup0 [-> Hdb]]. revert m0 Hup0 Hdb.
    enough (Hrest : triple (reliably (has_database name))
              (bind (createTables name)
                 (fun _ m' =>
                    let '(_, m'') := addSampleData name plainPassword m' in
                    (Done tt, m'')))
              (fun _ => reliably (initialized name)) (reliably (fun _ => False))).
    { intros m0 Hup0 Hdb. apply (Hrest m0). split; assumption. }
    eapply triple_bind; [apply createTables_creates|].
    intros x m1 Hm1.
    pose proof (addSampleData_seeds name plainPassword m1 Hm1) as Hs.
    destruct (addSampleData name plainPassword m1) as [[] m2]. exact Hs. }
  specialize (Ht m (conj Hup I)).
  destruct (bind _ _ m) as [[[]|e] m']; [apply Ht|destruct Ht as [_ []]].
Qed.

(** *** No run removes or alters anything *)

Lemma table_kept_refl {A} (t : option (table A)) : table_kept t t.
Proof.
  destruct t as [x|]; simpl; [|exact I].
  exists x, []. rewrite app_nil_r. auto.
Qed.

Lemma table_kept_trans {A} (t1 t2 t3 : option (table A)) :
  table_kept t1 t2 -> table_kept t2 t3 -> table_kept t1 t3.
Proof.
  destruct t1 as [x|]; simpl; [|auto].
  intros (y & more & -> & Hy). simpl. intros (z & more' & -> & Hz).
  exists z, (more ++ more'). split; [reflexivity|].
  rewrite Hz, Hy, <- app_assoc. reflexivity.
Qed.

Lemma schema_kept_refl sc : schema_kept sc sc.
Proof. split; apply table_kept_refl. Qed.

Lemma preserved_refl dbs : preserved dbs dbs.
Proof. intros n sc Hn. exists sc. split; [exact Hn|apply schema_kept_refl]. Qed.

Lemma preserved_trans dbs1 dbs2 dbs3 :
  preserved dbs1 dbs2 -> preserved dbs2 dbs3 -> preserved dbs1 dbs3.
Proof.
  intros H12 H23 n sc Hn.
  destruct (H12 n sc Hn) as (sc2 & Hn2 & [Hu2 Hp2]).
  destruct (H23 n sc2 Hn2) as (sc3 & Hn3 & [Hu3 Hp3]).
  exists sc3. split; [exact Hn3|].
  split; eapply table_kept_trans; eauto.
Qed.

(** Writing a schema that keeps the one it replaces, or a new one. *)
Lemma preserved_insert (dbs : gmap string schema) name sc' :
  (forall sc, dbs !! name = Some sc -> schema_kept sc sc') ->
  preserved dbs (<[name := sc']> dbs).
Proof.
  intros Hk n sc Hn. destruct (decide (name = n)) as [<-|Hne].
  - exists sc'. rewrite lookup_insert_eq. split; [reflexivity|]. apply Hk, Hn.
  - exists sc. rewrite lookup_insert_ne by exact Hne.
    split; [exact Hn|apply schema_kept_refl].
Qed.

Lemma create_database_preserves name clock dbs :
  preserved dbs (snd (create_database name clock dbs)).
Proof.
  unfold create_database. destruct (dbs !! name) as [sc|] eqn:E; simpl.
  - apply preserved_refl.
  - apply preserved_insert. intros sc Hsc. congruence.
Qed.

Lemma create_users_preserves name clock dbs :
  preserved dbs (snd (create_users name clock dbs)).
Proof.
  unfold create_users. destruct (dbs !! name) as [sc|] eqn:E; simpl;
    [|apply preserved_refl].
  destruct (s_users sc) as [tu|] eqn:Eu; simpl; [apply preserved_refl|].
  apply preserved_insert. intros sc0 Hsc. assert (sc0 = sc) by congruence.
  subst sc0. split; simpl; [rewrite Eu; exact I|apply table_kept_refl].
Qed.

Lemma create_projects_preserves name clock dbs :
  preserved dbs (snd (create_projects name clock dbs)).
Proof.
  unfold create_projects. destruct (dbs !! name) as [sc|] eqn:E; simpl;
    [|apply preserved_refl].
  destruct (s_projects sc) as [tp|] eqn:Ep; simpl; [apply preserved_refl|].
  destruct (s_users sc) as [tu|] eqn:Eu; simpl; [|apply preserved_refl].
  apply preserved_insert. intros sc0 Hsc. assert (sc0 = sc) by congruence.
  subst sc0. split; simpl; [rewrite Eu; apply table_kept_refl|rewrite Ep; exact I].
Qed.

Lemma in_database_preserves {A} name need
    (stmt : Z -> database -> outcome A * database) clock dbs :
  appends stmt ->
  preserved dbs (snd (in_database name need stmt clock dbs)).
Proof.
  intros Happ. unfold in_database.
  destruct (dbs !! name) as [sc|] eqn:E; simpl; [|apply preserved_refl].
  destruct (s_users sc) as [tu|] eqn:Eu; [|apply preserved_refl].
  destruct (s_projects sc) as [tp|] eqn:Ep.
  - destruct (Happ clock {| users := tu; projects := tp |}) as [[mu Hu] [mp Hp]].
    destruct (stmt clock {| users := tu; projects := tp |}) as [r d]. simpl in *.
    apply preserved_insert. intros sc0 Hsc. assert (sc0 = sc) by congruence.
    subst sc0. split; simpl.
    + rewrite Eu. simpl. eauto.
    + rewrite Ep. simpl. eauto.
  - destruct need; simpl; [apply preserved_refl|].
    destruct (Happ clock {| users := tu; projects := empty_table |})
      as [[mu Hu] _].
    destruct (stmt clock {| users := tu; projects := empty_table |}) as [r d].
    simpl in *.
    apply preserved_insert. intros sc0 Hsc. assert (sc0 = sc) by congruence.
    subst sc0. split; simpl.
    + rewrite Eu. simpl. eauto.
    + rewrite Ep. exact I.
Qed.

Lemma count_users_appends :
  appends (fun (_ : Z) d => (Done (count_users d), d)).
Proof. intros clock d. simpl. split; exists []; rewrite app_nil_r; reflexivity. Qed.

Lemma insert_user_appends username email password :
  appends (insert_user username email password).
Proof.
  intros clock d. unfold insert_user.
  destruct (user_values _ _ _) as [[[name hash] mail]|e]; simpl.
  2:{ split; exists []; rewrite app_nil_r; reflexivity. }
  destruct (List.existsb _ _); simpl.
  - split; exists []; rewrite app_nil_r; reflexivity.
  - split; [eauto|]. exists []. rewrite app_nil_r. reflexivity.
Qed.

Lemma insert_project_appends title short_description start_date end_date phase uid :
  appends (insert_project title short_description start_date end_date phase uid).
Proof.
  intros clock d. unfold insert_project.
  destruct (project_values _ _ _ _ _) as [[[[[t first] last] text] ph]|e]; simpl.
  2:{ split; exists []; rewrite app_nil_r; reflexivity. }
  destruct (List.existsb _ _); simpl.
  - split; [|eauto]. exists []. rewrite app_nil_r. reflexivity.
  - split; exists []; rewrite app_nil_r; reflexivity.
Qed.

Section Preserved.
Variable D : gmap string schema.

Let keeps (m : mysql) : Prop := preserved D (databases m).

Lemma execute_preserves {A}
    (stmt : Z -> gmap string schema -> outcome A * gmap string schema) :
  (forall clock dbs, preserved dbs (snd (stmt clock dbs))) ->
  triple keeps (execute stmt) (fun _ => keeps) keeps.
Proof.
  intros Hstmt.
  apply (triple_execute stmt (preserved D) (fun _ => preserved D) (preserved D));
    [auto|].
  intros clock dbs Hd. specialize (Hstmt clock dbs).
  destruct (stmt clock dbs) as [[a|err] dbs']; simpl in *;
    eapply preserved_trans; eauto.
Qed.

Lemma createDatabase_preserves name :
  triple keeps (createDatabase name) (fun _ => keeps) keeps.
Proof.
  unfold createDatabase. eapply triple_bind.
  - apply execute_preserves. apply create_database_preserves.
  - intros x. apply triple_ret. auto.
Qed.

Lemma createTables_preserves name :
  triple keeps (createTables name) (fun _ => keeps) keeps.
Proof.
  unfold createTables. eapply triple_bind.
  - apply execute_preserves. apply create_users_preserves.
  - intros x. eapply triple_bind.
    + apply execute_preserves. apply create_projects_preserves.
    + intros y. apply triple_ret. auto.
Qed.

Lemma insert_samples_preserves name uid l :
  triple keeps (insert_samples name uid l) (fun _ => keeps) keeps.
Proof.
  induction l as [|[[[title start_date] short_description] phase] l IH]; simpl.
  - apply triple_ret. auto.
  - eapply triple_bind; [|intros x; exact IH].
    apply execute_preserves. intros clock dbs.
    apply in_database_preserves, insert_project_appends.
Qed.

Lemma addSampleData_preserves name plainPassword m :
  keeps m -> keeps (snd (addSampleData name plainPassword m)).
Proof.
  intros Hm. unfold addSampleData, try_catch.
  match goal with |- context [bind ?c ?k m] =>
    assert (Ht : triple keeps (bind c k) (fun _ => keeps) keeps) end.
  { eapply triple_bind.
    - apply execute_preserves. intros clock dbs.
      apply in_database_preserves, count_users_appends.
    - intros total. destruct (Nat.ltb 0 total); [apply triple_ret; auto|].
      eapply triple_bind; [|intros x; apply insert_samples_preserves].
      apply execute_preserves. intros clock dbs.
      apply in_database_preserves, insert_user_appends. }
  specialize (Ht m Hm).
  destruct (bind _ _ m) as [[[]|e] m']; exact Ht.
Qed.

Lemma setupDatabase_preserves name plainPassword m :
  keeps m -> keeps (snd (setupDatabase name plainPassword m)).
Proof.
  intros Hm. unfold setupDatabase, try_catch.
  destruct (accepting m); [|exact Hm].
  match goal with |- context [bind ?c ?k m] =>
    assert (Ht : triple keeps (bind c k) (fun _ => keeps) keeps) end.
  { eapply triple_bind; [apply createDatabase_preserves|].
    intros activeDatabase.
    eapply triple_bind; [apply createTables_preserves|].
    intros x m1 Hm1.
    pose proof (addSampleData_preserves activeDatabase plainPassword m1 Hm1) as Hs.
    destruct (addSampleData activeDatabase plainPassword m1) as [[] m2]. exact Hs. }
  specialize (Ht m Hm).
  destruct (bind _ _ m) as [[[]|e] m']; exact Ht.
Qed.
End Preserved.

(** C9: the schema bootstrap is idempotent.  On a store that is already
    initialized (the database and its two tables exist and [users] has
    a row) [setupDatabase] leaves every database of the server, every
    table and every row exactly as they were, whatever the driver does;
    a run that the driver carries out initializes the store; hence a
    second run after such a run changes nothing.  And on any store at
    all, a run drops no database and no table and removes or alters no
    row: the rows of every table are still there, in their order,
    before the rows the seeding may add. *)
Theorem C9_bootstrap_idempotent (name plainPassword : string) :
  (forall m, initialized name (databases m) ->
     databases (snd (setupDatabase name plainPassword m)) = databases m)
  /\ (forall m, accepting m = true -> upcoming m = [] ->
       initialized name (databases (snd (setupDatabase name plainPassword m))))
  /\ (forall m again, accepting m = true -> upcoming m = [] ->
       databases (snd (setupDatabase name again
                         (snd (setupDatabase name plainPassword m))))
       = databases (snd (setupDatabase name plainPassword m)))
  /\ (forall m,
       preserved (databases m)
         (databases (snd (setupDatabase name plainPassword m)))).
Proof.
  split; [|split; [|split]].
  - intros m Hinit. apply (setupDatabase_inert name (databases m) Hinit). reflexivity.
  - apply setupDatabase_initializes.
  - intros m again Hacc Hup.
    apply (setupDatabase_inert name _
             (setupDatabase_initializes name plainPassword m Hacc Hup)).
    reflexivity.
  - intros m. apply setupDatabase_preserves, preserved_refl.
Qed.

End BootstrapFacts.

Lemma C9_bootstrap_idempotent_witness :
  Bootstrap.databases
    (snd (Bootstrap.setupDatabase (H := Sample.libraries) "project_manager" "n3wPass!"
            (snd (Bootstrap.setupDatabase (H := Sample.libraries) "project_manager"
                    "s3cret8" empty_server))))
  = Bootstrap.databases
      (snd (Bootstrap.setupDatabase (H := Sample.libraries) "project_manager"
              "s3cret8" empty_server)).
Proof.
  destruct (C9_bootstrap_idempotent (H := Sample.libraries) "project_manager"
              "s3cret8") as (_ & _ & Hagain & _).
  apply Hagain; reflexivity.
Defined.
(** ** The rate limiter *)

Section LimiterFacts.
Import Http RateLimit.
Variables (maxAttempts : nat) (windowMs : Z).

#[local] Abbreviation evict := (evict windowMs).
#[local] Abbreviation serve := (serve maxAttempts windowMs).
#[local] Abbreviation run := (run maxAttempts windowMs).

Lemma fresh_well_formed : well_formed fresh_limiter.
Proof.
  split; simpl; intros *; rewrite lookup_empty; discriminate.
Qed.

Lemma evict_lookup now st a l :
  attempts (evict now st) !! a = Some l
  <-> attempts st !! a = Some l /\ stale windowMs (heap st) now l = false.
Proof. unfold evict. simpl. apply map_lookup_filter_Some. Qed.

Lemma evict_well_formed now st : well_formed st -> well_formed (evict now st).
Proof.
  intros [Hb Hi]. split.
  - intros a l Hl. apply evict_lookup in Hl as [Hl _]. apply (Hb a l Hl).
  - intros a1 a2 l H1 H2.
    apply evict_lookup in H1 as [H1 _]. apply evict_lookup in H2 as [H2 _].
    eapply Hi; eauto.
Qed.

Lemma evict_keeps now st a l e :
  holds st a l e -> (now - firstAttempt e <= windowMs)%Z -> holds (evict now st) a l e.
Proof.
  intros [Hl He] Hw. split; [|exact He].
  apply evict_lookup. split; [exact Hl|].
  unfold stale. rewrite He. apply Z.ltb_ge. exact Hw.
Qed.

Lemma evict_drops now st a l e :
  holds st a l e -> (windowMs < now - firstAttempt e)%Z ->
  attempts (evict now st) !! a = None.
Proof.
  intros [Hl He] Hw.
  destruct (attempts (evict now st) !! a) as [l'|] eqn:E; [|reflexivity].
  apply evict_lookup in E as [E Hs]. rewrite Hl in E. injection E as <-.
  unfold stale in Hs. rewrite He in Hs. apply Z.ltb_ge in Hs. lia.
Qed.

Lemma perform_keeps (h : handle) (st : limiter) (c : call) a l e :
  aside a l h -> l < next_loc st -> holds st a l e ->
  holds (perform h st c) a l e /\ l < next_loc (perform h st c).
Proof.
  intros [Hip Hobj] Hlt [Hl He]. unfold holds.
  destruct c; unfold perform, recordFailedAttempt, clearFailedAttempts.
  - destruct (h_userAttempts h) as [l'|]; cbn [attempts heap next_loc].
    + split; [split|]; auto.
      rewrite lookup_alter_ne by congruence. exact He.
    + split; [split|]; [| |lia].
      * rewrite lookup_insert_ne by exact Hip. exact Hl.
      * rewrite lookup_insert_ne by lia. exact He.
  - cbn [attempts heap next_loc]. split; [split|]; auto.
    rewrite lookup_delete_ne by exact Hip. exact Hl.
Qed.

Lemma perform_all_keeps (h : handle) (calls : list call) (st : limiter) a l e :
  aside a l h -> l < next_loc st -> holds st a l e ->
  holds (List.fold_left (perform h) calls st) a l e.
Proof.
  intros Hh. revert st. induction calls as [|c calls IH]; intros st Hlt Hst; simpl.
  - exact Hst.
  - destruct (perform_keeps h st c a l e Hh Hlt Hst) as [Hst' Hlt'].
    apply IH; assumption.
Qed.

Lemma perform_well_formed (h : handle) (st : limiter) (c : call) :
  well_formed st -> handle_bounded st h ->
  well_formed (perform h st c) /\ handle_bounded (perform h st c) h.
Proof.
  intros [Hb Hi] Hh. unfold well_formed, handle_bounded in *.
  destruct c; unfold perform, recordFailedAttempt, clearFailedAttempts.
  - destruct (h_userAttempts h) as [l'|] eqn:Hobj; cbn [attempts heap next_loc].
    + split; [split|]; auto.
    + split; [split|].
      * intros a l Hl. destruct (decide (h_ip h = a)) as [<-|Hne].
        -- rewrite lookup_insert_eq in Hl. injection Hl as <-. lia.
        -- rewrite lookup_insert_ne in Hl by exact Hne.
           specialize (Hb a l Hl). lia.
      * intros a1 a2 l H1 H2.
        destruct (decide (h_ip h = a1)) as [<-|N1], (decide (h_ip h = a2)) as [<-|N2].
        -- reflexivity.
        -- rewrite lookup_insert_eq in H1. rewrite lookup_insert_ne in H2 by exact N2.
           injection H1 as <-. specialize (Hb a2 _ H2). lia.
        -- rewrite lookup_insert_eq in H2. rewrite lookup_insert_ne in H1 by exact N1.
           injection H2 as <-. specialize (Hb a1 _ H1). lia.
        -- rewrite lookup_insert_ne in H1 by exact N1.
           rewrite lookup_insert_ne in H2 by exact N2. eapply Hi; eauto.
      * discriminate.
  - cbn [attempts heap next_loc]. split; [split|]; [| |exact Hh].
    + intros a l Hl. apply lookup_delete_Some in Hl as [_ Hl]. eauto.
    + intros a1 a2 l H1 H2.
      apply lookup_delete_Some in H1 as [_ H1].
      apply lookup_delete_Some in H2 as [_ H2]. eauto.
Qed.

Lemma perform_all_well_formed (h : handle) (calls : list call) (st : limiter) :
  well_formed st -> handle_bounded st h ->
  well_formed (List.fold_left (perform h) calls st).
Proof.
  revert st. induction calls as [|c calls IH]; intros st Hwf Hh; simpl; [exact Hwf|].
  destruct (perform_well_formed h st c Hwf Hh) as [Hwf' Hh']. apply IH; assumption.
Qed.

Lemma serve_well_formed (a : arrival) (st : limiter) :
  well_formed st -> well_formed (snd (serve a st)).
Proof.
  intros Hwf. pose proof (evict_well_formed (a_now a) st Hwf) as Hwf1.
  unfold RateLimit.serve, RateLimit.authRateLimit.
  set (st1 := evict (a_now a) st) in *.
  assert (Hpass : well_formed
            (List.fold_left
               (perform {| h_ip := ip (a_req a); h_now := a_now a;
                           h_userAttempts := attempts st1 !! ip (a_req a) |})
               (a_calls a) st1)).
  { apply perform_all_well_formed; [exact Hwf1|].
    intros l Hl. simpl in Hl. destruct Hwf1 as [Hb _]. eapply Hb; eauto. }
  destruct (attempts st1 !! ip (a_req a)) as [l|] eqn:El; [|exact Hpass].
  destruct (heap st1 !! l) as [e|]; [|exact Hpass].
  destruct (Nat.leb maxAttempts (count e)); [exact Hwf1|exact Hpass].
Qed.

(** An address that has used up its attempts is refused while its
    window lasts, and its entry stays. *)
Lemma serve_refuses (a : arrival) (st : limiter) (l : loc) (e : entry) :
  holds st (ip (a_req a)) l e ->
  maxAttempts <= count e ->
  (a_now a - firstAttempt e <= windowMs)%Z ->
  fst (serve a st)
  = Some (too_many (a_req a) (timeLeft windowMs (a_now a) (firstAttempt e)))
  /\ holds (snd (serve a st)) (ip (a_req a)) l e.
Proof.
  intros Hst Hmax Hw.
  destruct (evict_keeps (a_now a) st _ l e Hst Hw) as [Hl He].
  unfold RateLimit.serve, RateLimit.authRateLimit.
  rewrite Hl, He. apply Nat.leb_le in Hmax. rewrite Hmax. simpl.
  split; [reflexivity|]. split; assumption.
Qed.

(** Requests of other addresses do not touch the entry. *)
Lemma serve_other (a : arrival) (st : limiter) (addr : string) (l : loc) (e : entry) :
  well_formed st ->
  holds st addr l e ->
  ip (a_req a) <> addr ->
  (a_now a - firstAttempt e <= windowMs)%Z ->
  holds (snd (serve a st)) addr l e.
Proof.
  intros Hwf Hst Hne Hw.
  pose proof (evict_well_formed (a_now a) st Hwf) as [Hb Hi].
  pose proof (evict_keeps (a_now a) st addr l e Hst Hw) as Hst1.
  unfold RateLimit.serve, RateLimit.authRateLimit.
  set (st1 := evict (a_now a) st) in *.
  assert (Hpass : holds
            (List.fold_left
               (perform {| h_ip := ip (a_req a); h_now := a_now a;
                           h_userAttempts := attempts st1 !! ip (a_req a) |})
               (a_calls a) st1) addr l e).
  { apply perform_all_keeps; [|eapply Hb; apply Hst1|exact Hst1].
    split; simpl; [exact Hne|].
    intros Hsame. apply Hne. destruct Hst1 as [Hl _]. eapply Hi; eauto. }
  destruct (attempts st1 !! ip (a_req a)) as [l'|] eqn:El; [|exact Hpass].
  destruct (heap st1 !! l') as [e'|]; [|exact Hpass].
  destruct (Nat.leb maxAttempts (count e')); [exact Hst1|exact Hpass].
Qed.

Lemma run_well_formed (arrivals : list arrival) (st : limiter) :
  well_formed st -> well_formed (snd (run arrivals st)).
Proof.
  revert st. induction arrivals as [|a rest IH]; intros st Hwf; simpl; [exact Hwf|].
  pose proof (serve_well_formed a st Hwf) as Hwf1.
  destruct (serve a st) as [r st1]. specialize (IH st1 Hwf1).
  destruct (run rest st1) as [rs st2]. exact IH.
Qed.

Lemma run_refuses (addr : string) (l : loc) (e : entry) (arrivals : list arrival) :
  maxAttempts <= count e ->
  Forall (within windowMs e) arrivals ->
  forall st,
    well_formed st -> holds st addr l e ->
    holds (snd (run arrivals st)) addr l e
    /\ forall i a,
         arrivals !! i = Some a -> ip (a_req a) = addr ->
         fst (run arrivals st) !! i
         = Some (Some (too_many (a_req a)
                         (timeLeft windowMs (a_now a) (firstAttempt e)))).
Proof.
  intros Hmax Hall. induction Hall as [|a rest Ha Hrest IH]; intros st Hwf Hst; simpl.
  - split; [exact Hst|]. intros i a Hi. rewrite lookup_nil in Hi. discriminate.
  - pose proof (serve_well_formed a st Hwf) as Hwf1.
    assert (Hst1 : holds (snd (serve a st)) addr l e
                   /\ (ip (a_req a) = addr ->
                       fst (serve a st)
                       = Some (too_many (a_req a)
                                 (timeLeft windowMs (a_now a) (firstAttempt e))))).
    { destruct (decide (ip (a_req a) = addr)) as [Heq|Hne].
      - subst addr. destruct (serve_refuses a st l e Hst Hmax Ha) as [Hr Hk]. auto.
      - split; [|contradiction]. apply serve_other; assumption. }
    destruct (serve a st) as [r st1]. cbn [fst snd] in *.
    destruct Hst1 as [Hst1 Hr].
    destruct (IH st1 Hwf1 Hst1) as [Hk Hrs].
    destruct (run rest st1) as [rs st2]. cbn [fst snd] in *.
    split; [exact Hk|].
    intros [|i] b Hi Hb; simpl in *.
    + injection Hi as <-. rewrite (Hr Hb). reflexivity.
    + apply Hrs; assumption.
Qed.

Lemma serve_after_rollover (a : arrival) (st : limiter) (l : loc) (e : entry) :
  holds st (ip (a_req a)) l e ->
  (windowMs < a_now a - firstAttempt e)%Z ->
  fst (serve a st) = None.
Proof.
  intros Hst Hw. unfold RateLimit.serve, RateLimit.authRateLimit.
  rewrite (evict_drops (a_now a) st _ l e Hst Hw). reflexivity.
Qed.

(** A failed attempt of an address without an entry opens its window. *)
Lemma serve_first (a : arrival) (st : limiter) :
  attempts st !! ip (a_req a) = None ->
  a_calls a = [RecordFailed] ->
  fst (serve a st) = None
  /\ holds (snd (serve a st)) (ip (a_req a)) (next_loc st)
       {| count := 1; firstAttempt := a_now a |}.
Proof.
  intros Hnone Hcalls.
  assert (Hev : attempts (evict (a_now a) st) !! ip (a_req a) = None).
  { unfold RateLimit.evict. cbn [attempts]. apply map_lookup_filter_None. auto. }
  unfold RateLimit.serve, RateLimit.authRateLimit. rewrite Hev, Hcalls.
  cbn [fst snd List.fold_left perform]. unfold recordFailedAttempt, holds.
  cbn [h_userAttempts h_ip h_now attempts heap next_loc RateLimit.evict].
  rewrite !lookup_insert_eq. auto.
Qed.

(** A further failed attempt inside the window is counted. *)
Lemma serve_counts (a : arrival) (st : limiter) (l : loc) (e : entry) :
  holds st (ip (a_req a)) l e ->
  count e < maxAttempts ->
  within windowMs e a ->
  a_calls a = [RecordFailed] ->
  fst (serve a st) = None
  /\ holds (snd (serve a st)) (ip (a_req a)) l
       {| count := S (count e); firstAttempt := firstAttempt e |}.
Proof.
  intros Hst Hlt Hw Hcalls.
  destruct (evict_keeps (a_now a) st _ l e Hst Hw) as [Hl He].
  unfold RateLimit.serve, RateLimit.authRateLimit. rewrite Hl, He, Hcalls.
  apply Nat.leb_gt in Hlt. rewrite Hlt.
  cbn [fst snd List.fold_left perform]. unfold recordFailedAttempt, holds.
  cbn [h_userAttempts h_ip h_now attempts heap next_loc].
  split; [reflexivity|]. split; [exact Hl|].
  rewrite lookup_alter_eq, He. reflexivity.
Qed.

Lemma run_counts (addr : string) (l : loc) (first : Z) (arrivals : list arrival) :
  Forall (failed_from addr) arrivals ->
  Forall (fun a => (a_now a - first <= windowMs)%Z) arrivals ->
  forall st n,
    holds st addr l {| count := n; firstAttempt := first |} ->
    n + List.length arrivals <= maxAttempts ->
    fst (run arrivals st) = List.repeat None (List.length arrivals)
    /\ holds (snd (run arrivals st)) addr l
         {| count := n + List.length arrivals; firstAttempt := first |}.
Proof.
  intros Hfrom. induction Hfrom as [|a rest [Hip Hcalls] Hrest IH];
    intros Hwin st n Hst Hle; simpl in *.
  - rewrite Nat.add_0_r. auto.
  - inversion Hwin as [|? ? Ha Hwin']; subst.
    destruct (serve_counts a st l _ Hst ltac:(simpl; lia) Ha Hcalls) as [Hr Hst1].
    destruct (serve a st) as [r st1]. cbn [fst snd count firstAttempt] in *.
    destruct (IH Hwin' st1 (S n) Hst1 ltac:(lia)) as [Hrs Hst2].
    destruct (run rest st1) as [rs st2]. cbn [fst snd] in *.
    subst r rs. split; [reflexivity|].
    replace (n + S (List.length rest)) with (S n + List.length rest) by lia.
    exact Hst2.
Qed.

(** [timeLeft] is the rest of the window in minutes, rounded up. *)
Lemma timeLeft_bounds (now first : Z) :
  (now - first <= windowMs)%Z ->
  let left := timeLeft windowMs now first in
  (0 <= left)%Z
  /\ (60000 * (left - 1) < windowMs - (now - first) <= 60000 * left)%Z.
Proof.
  intros Hin left. subst left. unfold timeLeft.
  set (x := (windowMs - (now - first))%Z).
  pose proof (Z.div_mod (- x) 60000 ltac:(lia)).
  pose proof (Z.mod_pos_bound (- x) 60000 ltac:(lia)). lia.
Qed.

(** C8: the limiter of [authRateLimit], with requests served one after
    the other.  It keeps one counter per address: the failed attempts of
    an address without an entry are let through and counted, the first
    of them opening the window.  Once the count of an address has
    reached the maximum, every request of that address that arrives
    while the window lasts is refused, whatever requests of other
    addresses come in between: with status 429 and the fields [error]
    and [timeLeft] for API clients, with the login page and the message
    [Too many login attempts. Please try again in ... minutes.] for
    browsers, where the minutes are the rest of the window rounded up;
    and a request that arrives after the window has passed, when the
    entry is evicted, is let through again. *)
Theorem C8_fixed_window_limiter (addr : string) :
  (forall st first rest,
      attempts st !! addr = None ->
      Forall (failed_from addr) (first :: rest) ->
      Forall (fun a => (a_now a - a_now first <= windowMs)%Z) rest ->
      S (List.length rest) <= maxAttempts ->
      fst (run (first :: rest) st) = List.repeat None (S (List.length rest))
      /\ exists l,
           holds (snd (run (first :: rest) st)) addr l
             {| count := S (List.length rest); firstAttempt := a_now first |})
  /\ (forall st l e arrivals,
        well_formed st -> holds st addr l e -> maxAttempts <= count e ->
        Forall (within windowMs e) arrivals ->
        forall i a,
          arrivals !! i = Some a -> ip (a_req a) = addr ->
          let left := timeLeft windowMs (a_now a) (firstAttempt e) in
          fst (run arrivals st) !! i
          = Some (Some (if wants_json (a_req a) then
                          with_status 429
                            (json [ ("error", VStr "Too many login attempts");
                                    ("timeLeft", VNum left) ])
                        else
                          render "login"
                            [ ("title", VStr "Login");
                              ("error",
                               VStr ("Too many login attempts. Please try again in "
                                     ++ show left ++ " minutes.")) ]))
          /\ (0 <= left)%Z
          /\ (60000 * (left - 1) < windowMs - (a_now a - firstAttempt e)
              <= 60000 * left)%Z)
  /\ (forall st l e arrivals a,
        well_formed st -> holds st addr l e -> maxAttempts <= count e ->
        Forall (within windowMs e) arrivals ->
        ip (a_req a) = addr ->
        (windowMs < a_now a - firstAttempt e)%Z ->
        fst (serve a (snd (run arrivals st))) = None).
Proof.
  split; [|split].
  - intros st first rest Hnone Hfrom Hwin Hle.
    inversion Hfrom as [|? ? [Hip Hcalls] Hfrom']; subst.
    destruct (serve_first first st Hnone Hcalls) as [Hr Hst1].
    simpl. destruct (serve first st) as [r st1]. cbn [fst snd] in *.
    destruct (run_counts _ _ _ rest Hfrom' Hwin st1 1 Hst1 ltac:(lia)) as [Hrs Hst2].
    destruct (run rest st1) as [rs st2]. cbn [fst snd] in *.
    subst r rs. split; [reflexivity|]. eauto.
  - intros st l e arrivals Hwf Hst Hmax Hall i a Hi Hip left.
    split.
    + exact (proj2 (run_refuses addr l e arrivals Hmax Hall st Hwf Hst) i a Hi Hip).
    + apply timeLeft_bounds.
      exact (proj1 (Forall_lookup _ _) Hall i a Hi).
  - intros st l e arrivals a Hwf Hst Hmax Hall Hip Hw.
    destruct (run_refuses addr l e arrivals Hmax Hall st Hwf Hst) as [Hk _].
    subst addr. eapply serve_after_rollover; eauto.
Qed.
End LimiterFacts.

Lemma C8_fixed_window_limiter_witness :
  fst (RateLimit.run 5 900000 [sixth_attempt]
         (snd (RateLimit.run 5 900000 five_failures RateLimit.fresh_limiter))) !! 0
  = Some (Some (Http.render "login"
                  [ ("title", Http.VStr "Login");
                    ("error",
                     Http.VStr
                       "Too many login attempts. Please try again in 10 minutes.") ])).
Proof.
  destruct (C8_fixed_window_limiter 5 900000 "203.0.113.7") as (_ & Hrefuse & _).
  assert (Hwf : well_formed
            (snd (RateLimit.run 5 900000 five_failures RateLimit.fresh_limiter))).
  { apply run_well_formed. apply fresh_well_formed. }
  assert (Hst : holds
            (snd (RateLimit.run 5 900000 five_failures RateLimit.fresh_limiter))
            "203.0.113.7" 0 {| RateLimit.count := 5; RateLimit.firstAttempt := 0 |}).
  { split; vm_compute; reflexivity. }
  assert (Hin : Forall
            (within 900000 {| RateLimit.count := 5; RateLimit.firstAttempt := 0 |})
            [sixth_attempt]).
  { repeat constructor. unfold within. simpl. lia. }
  exact (proj1 (Hrefuse _ 0 _ [sixth_attempt] Hwf Hst (le_n 5) Hin 0 sixth_attempt
                  eq_refl eq_refl)).
Defined.

(** * Accounts: registration, login and logout *)

Section TrimFacts.

Lemma trim_end_idempotent (s : string) : Js.trim_end (Js.trim_end s) = Js.trim_end s.
Proof.
induction s as [|c r IH]; simpl; [reflexivity|].
destruct (Js.is_empty (Js.trim_end r) && Js.is_space c) eqn:E; simpl; [reflexivity|].
rewrite IH, E. reflexivity.
Qed.

Lemma trim_start_trimmed (s : string) :
Js.trim_start (Js.trim_end (Js.trim_start s)) = Js.trim_end (Js.trim_start s).
Proof.
induction s as [|c r IH]; simpl; [reflexivity|].
destruct (Js.is_space c) eqn:E; [exact IH|].
simpl. rewrite E, andb_false_r. simpl. rewrite E. reflexivity.
Qed.

Lemma trim_idempotent (s : string) : Js.trim (Js.trim s) = Js.trim s.
Proof.
unfold Js.trim. rewrite trim_start_trimmed. apply trim_end_idempotent.
Qed.

End TrimFacts.

Section AccountFacts.
Context `{Libraries}.
Import Exn Store Http Validator AuthRoutes.
#[local] Arguments is_length : simpl never.
#[local] Arguments Js.trim : simpl never.
#[local] Arguments Js.re_username : simpl never.
#[local] Arguments Js.re_password_mixed : simpl never.



Lemma run_chains_nil_cons (c : chain) (l : list chain) (b : fields) (w : world) :
snd (fst (run_chains (c :: l) b w)) = [] ->
snd (fst (run_chain c b w)) = []
/\ snd (fst (run_chains l (fst (fst (run_chain c b w))) (snd (run_chain c b w)))) = [].
Proof.
rewrite run_chains_cons.
destruct (run_chain c b w) as [[b1 e1] w1]. cbn [fst snd].
destruct (run_chains l b1 w1) as [[b2 e2] w2]. cbn [fst snd].
intros Hnil. apply app_eq_nil in Hnil. exact Hnil.
Qed.



Lemma is_length_max (min max : nat) (s : string) :
is_length min (Some max) s = true -> String.length s <= max.
Proof.
unfold is_length. intros Hl. apply andb_prop in Hl as [_ Hl].
apply Nat.leb_le. exact Hl.
Qed.


End AccountFacts.


Section SessionFacts.
Context `{Libraries}.
Import Exn Store Http Validator AuthRoutes.
#[local] Arguments Js.trim : simpl never.

(** A statement that only reads leaves the data alone, whatever the
  driver does. *)
Lemma query_data {A} (q : database -> A) (w : world) :
data (w_pool (snd (query q w))) = data (w_pool w).
Proof.
unfold query, execute.
destruct (faults (w_pool w)) as [|[fault|] rest]; reflexivity.
Qed.

Lemma login_handler_opens (req : request) (w : world) (name pw : string)
  (u : user_row) (others : list user_row) :
body req !! "username" = Some name ->
body req !! "password" = Some pw ->
select_users_by_username (Js.trim name) (data (w_pool w)) = u :: others ->
bcrypt_compare pw (u_password u) = true ->
faults (w_pool w) = [] ->
login_handler req [] w
= (redirect (if falsy (returnTo (w_session w)) then "/dashboard"
             else to_str (returnTo (w_session w))),
   {| w_session :=
        {| user := Some {| su_uid := u_uid u; su_username := u_username u;
                           su_email := u_email u |};
           csrfToken := csrfToken (w_session w);
           returnTo := None;
           successMessage := Some ("Welcome back, " ++ u_username u ++ "!")%string;
           errorMessage := errorMessage (w_session w) |};
      w_pool := {| data := data (w_pool w); clock := clock (w_pool w);
                   faults := [] |} |}).
Proof.
intros Hu Hp Hsel Hcmp Hf.
unfold login_handler, try_catch. rewrite Hu, Hp.
cbn [negb is_nil defined]. unfold bind, ret, query, execute, modify_session,
  get_session.
cbv beta iota zeta. rewrite Hf, Hsel. cbv beta iota zeta. rewrite Hcmp.
reflexivity.
Qed.

Lemma post_login_opens (req : request) (w : world) (u : user_row)
  (others : list user_row) :
let raw : fields := body req in
let name := Js.trim (to_str (raw !! "username")) in
let w' := snd (post_login req w) in
user (w_session w) = None ->
snd (fst (run_chains loginValidation raw w)) = [] ->
select_users_by_username name (data (w_pool w)) = u :: others ->
bcrypt_compare (to_str (raw !! "password")) (u_password u) = true ->
faults (w_pool w) = [] ->
fst (post_login req w)
= redirect (if falsy (returnTo (w_session w)) then "/dashboard"
            else to_str (returnTo (w_session w)))
/\ user (w_session w')
   = Some {| su_uid := u_uid u; su_username := u_username u;
             su_email := u_email u |}
/\ returnTo (w_session w') = None
/\ successMessage (w_session w') = Some ("Welcome back, " ++ u_username u ++ "!")%string
/\ data (w_pool w') = data (w_pool w).
Proof.
intros raw name w' Hanon Herr Hsel Hcmp Hf.
destruct (login_valid_has_password raw w Herr) as [pw Hpw].
pose proof (login_sanitized raw w) as (Hu & Hp).
pose proof (run_chains_quiet loginValidation loginValidation_quiet raw w) as Hq.
subst w'. unfold post_login, guarded, requireGuest, logged_in.
rewrite Hanon. unfold validated. fold raw.
destruct (run_chains loginValidation raw w) as [[b' errors] w1].
cbn [fst snd] in *. subst w1 errors.
rewrite Hpw in Hp, Hcmp. cbn [to_str] in Hcmp.
rewrite (login_handler_opens (with_body req b') w _ pw u others Hu Hp).
- cbn. auto 10.
- rewrite trim_idempotent. exact Hsel.
- exact Hcmp.
- exact Hf.
Qed.

(** X2: a login by a visitor who is not logged in, whose form the chains
  accept, whose trimmed username selects a stored account and whose
  password bcrypt matches the stored hash, when the store carries the
  statement out, is answered by a redirect to [returnTo] (or to the
  dashboard when the session holds none); the session then carries the
  user of the first selected row, [returnTo] is cleared, a welcome
  message is set, and the data is not written. *)
Theorem login_opens_session (req : request) (w : world) (u : user_row)
  (others : list user_row) :
let raw : fields := body req in
let name := Js.trim (to_str (raw !! "username")) in
let w' := snd (post_login req w) in
user (w_session w) = None ->
snd (fst (run_chains loginValidation raw w)) = [] ->
select_users_by_username name (data (w_pool w)) = u :: others ->
bcrypt_compare (to_str (raw !! "password")) (u_password u) = true ->
faults (w_pool w) = [] ->
fst (post_login req w)
= redirect (if falsy (returnTo (w_session w)) then "/dashboard"
            else to_str (returnTo (w_session w)))
/\ user (w_session w')
   = Some {| su_uid := u_uid u; su_username := u_username u;
             su_email := u_email u |}
/\ returnTo (w_session w') = None
/\ successMessage (w_session w') = Some ("Welcome back, " ++ u_username u ++ "!")%string
/\ data (w_pool w') = data (w_pool w).
Proof. exact (post_login_opens req w u others). Qed.

Lemma reads_only_ret {A} (a : A) : reads_only (ret a).
Proof. intros w. reflexivity. Qed.

Lemma reads_only_throw {A} (e : string) : reads_only (@throw world A e).
Proof. intros w. reflexivity. Qed.

Lemma reads_only_bind {A B} (m : M A) (k : A -> M B) :
reads_only m -> (forall a, reads_only (k a)) -> reads_only (bind m k).
Proof.
intros Hm Hk w. unfold bind. specialize (Hm w).
destruct (m w) as [[a|e] w1]; cbn [snd] in *; [|exact Hm].
rewrite (Hk a w1). exact Hm.
Qed.

Lemma reads_only_try_catch {A} (body : M A) (handler : Http.action A) :
reads_only body -> reads_only handler -> reads_only (try_catch body handler).
Proof.
intros Hb Hh w. unfold try_catch. specialize (Hb w).
destruct (body w) as [[a|e] w1]; cbn [snd] in *; [exact Hb|].
rewrite (Hh w1). exact Hb.
Qed.

Lemma reads_only_query {A} (q : database -> A) : reads_only (query q).
Proof. intros w. apply query_data. Qed.

Lemma reads_only_defined (v : option string) : reads_only (defined v).
Proof. destruct v; intros w; reflexivity. Qed.

Lemma reads_only_modify_session (f : session -> session) :
reads_only (modify_session f).
Proof. intros w. reflexivity. Qed.

Lemma reads_only_get_session : reads_only get_session.
Proof. intros w. reflexivity. Qed.

Lemma reads_only_session_user_of : reads_only ProjectRoutes.session_user_of.
Proof.
intros w. unfold ProjectRoutes.session_user_of.
destruct (user (w_session w)); reflexivity.
Qed.

Lemma reads_only_guarded (g : Http.action verdict) (h : Http.action response) :
reads_only g -> reads_only h -> reads_only (guarded g h).
Proof.
intros Hg Hh w. unfold guarded. specialize (Hg w).
destruct (g w) as [[r|] w1]; cbn [snd] in *; [exact Hg|].
rewrite (Hh w1). exact Hg.
Qed.

Lemma reads_only_validated (chains : list chain) (req : request)
  (h : request -> list verror -> Http.action response) :
Forall quiet_chain chains ->
(forall b errors, reads_only (h (with_body req b) errors)) ->
reads_only (validated chains req h).
Proof.
intros Hq Hh w. unfold validated.
pose proof (run_chains_quiet chains Hq (body req) w) as Hw.
destruct (run_chains chains (body req) w) as [[b errors] w1].
cbn [snd] in Hw. subst w1. apply Hh.
Qed.

End SessionFacts.

(** Discharges [reads_only] of a handler by its structure. *)
Ltac read_only :=
  repeat first
    [ apply reads_only_ret | apply reads_only_throw | apply reads_only_query
    | apply reads_only_defined | apply reads_only_modify_session
    | apply reads_only_get_session | apply reads_only_session_user_of
    | apply reads_only_bind; [|intros ?]
    | apply reads_only_try_catch
    | apply reads_only_guarded
    | match goal with
      | |- reads_only (match ?x with _ => _ end) => destruct x
      end
    | (intros ?; reflexivity) ].

Section ReadOnlyFacts.
Context `{Libraries}.
Import Exn Store Http Validator AuthRoutes.


(** X4: [POST /login], [POST /logout], the public and the owner's
  [GET /project/:id] and [GET /api/projects/:id] never write to the
  store: whatever the request, the session and the driver's faults, the
  data after the handler is the data before it. *)
Theorem reads_leave_store (req : request) :
reads_only (post_login req)
/\ reads_only (post_logout req)
/\ reads_only (PublicRoutes.get_project req)
/\ reads_only (ProjectRoutes.get_project req)
/\ reads_only (ProjectRoutes.get_api_project req).
Proof.
split; [|split; [|split; [|split]]].
- unfold post_login. apply reads_only_guarded; [intros w; unfold requireGuest;
    destruct (logged_in _); reflexivity|].
  apply reads_only_validated; [apply loginValidation_quiet|].
  intros b errors. unfold login_handler. read_only.
- unfold post_logout. apply reads_only_guarded.
  + intros w; unfold requireAuth; destruct (logged_in _); reflexivity.
  + intros w. destruct (xhr req); reflexivity.
- intros w. unfold PublicRoutes.get_project.
  match goal with |- context [try_catch ?b ?h w] =>
    apply (reads_only_try_catch b h) end; read_only.
- intros w. unfold ProjectRoutes.get_project.
  match goal with |- context [try_catch ?b ?h w] =>
    apply (reads_only_try_catch b h) end; read_only.
- unfold ProjectRoutes.get_api_project. apply reads_only_guarded.
  + intros w; unfold requireAuth; destruct (logged_in _); reflexivity.
  + read_only.
Qed.

End ReadOnlyFacts.

(** Rewriting with an equation whose left-hand side occurs in the goal
    up to the unfolding of a type abbreviation. *)
Ltac rewrite_conv H :=
  match type of H with
  | ?l = _ =>
      match goal with
      | |- context [?t] => unify t l; change t with l
      end
  end; rewrite H.

Section RoundTrip.
Context `{Libraries}.
Import Exn Store Http Validator AuthRoutes.
#[local] Arguments is_length : simpl never.
#[local] Arguments Js.trim : simpl never.
#[local] Arguments Js.re_username : simpl never.
#[local] Arguments Js.re_password_mixed : simpl never.





End RoundTrip.


Lemma login_opens_session_witness :
  fst (AuthRoutes.post_login (H := Sample.libraries)
         (Sample.post "/login" "" [ ("username", " alice "); ("password", "Secret1") ])
         w_anonymous)
  = Http.redirect "/dashboard".
Proof.
  destruct (login_opens_session (H := Sample.libraries)
              (Sample.post "/login" ""
                 [ ("username", " alice "); ("password", "Secret1") ])
              w_anonymous Sample.alice []) as (Hr & _);
    [vm_compute; reflexivity .. | exact Hr].
Defined.


(** * Projects, guards and the limiter *)

Section ProjectFacts.
Context `{Libraries}.
Import Exn Store Http Validator.
#[local] Arguments is_length : simpl never.
#[local] Arguments Js.trim : simpl never.
#[local] Arguments is_in : simpl never.

(** The list of routes/project.js ends with the chain of [phase]. *)
Lemma routes_phase_split :
exists l1 c,
  ProjectRoutes.projectValidation = l1 ++ [c]
  /\ c = body_ "phase"
           [ IsIn ProjectRoutes.phases; WithMessage "Please select a valid phase" ]
  /\ Forall (fun c' => field c' <> "phase") l1
  /\ Forall (spares "phase") l1.
Proof.
eexists [_; _; _; _], _. split; [reflexivity|]. split; [reflexivity|].
split; [distinct_fields|spared].
Qed.

Lemma routes_phase_rule (b : fields) (w : world) :
In phase_error (snd (fst (run_chains ProjectRoutes.projectValidation b w)))
<-> is_in ProjectRoutes.phases (to_str (b !! "phase")) = false.
Proof.
destruct routes_phase_split as (l1 & c & -> & -> & F1 & S1).
rewrite run_chains_field by (reflexivity || assumption || constructor).
unfold run_chain. simpl. rewrite run_chains_spared by assumption.
unfold standard.
match goal with |- context [if ?c then ret _ else _] => destruct c eqn:E end;
  simpl.
- split; [tauto|intros Hx]. first [congruence | discriminate Hx].
- split; [intros _; first [exact E | reflexivity]|intros _; left; reflexivity].
Qed.

(** X5: the chains of routes/project.js report [Please select a valid
  phase] exactly when the submitted phase (an absent one counts as
  empty) is none of the five phases; with such a phase neither
  [POST /add-project] nor [POST /edit-project/:id] writes to the store,
  and a logged-in user is shown the add-project form again with the
  errors. *)
Theorem invalid_phase_rejected (req : request) (w : world) :
let raw : fields := body req in
let errors := snd (fst (run_chains ProjectRoutes.projectValidation raw w)) in
(In phase_error errors <-> is_in ProjectRoutes.phases (to_str (raw !! "phase")) = false)
/\ (is_in ProjectRoutes.phases (to_str (raw !! "phase")) = false ->
    data (w_pool (snd (ProjectRoutes.post_add_project req w))) = data (w_pool w)
    /\ data (w_pool (snd (ProjectRoutes.post_edit_project req w))) = data (w_pool w)
    /\ forall u, user (w_session w) = Some u ->
         exists formData,
           fst (ProjectRoutes.post_add_project req w)
           = ProjectRoutes.add_project_view (VUser u) errors formData).
Proof.
intros raw errors. split; [apply routes_phase_rule|].
intros Hbad. apply routes_phase_rule with (w := w) in Hbad. fold errors in Hbad.
assert (Hne : errors <> []) by (intros E; rewrite E in Hbad; exact Hbad).
pose proof (run_chains_quiet _ projectValidation_quiet raw w) as Hq.
subst errors.
unfold ProjectRoutes.post_add_project, ProjectRoutes.post_edit_project,
  guarded, AuthRoutes.requireAuth, AuthRoutes.logged_in, AuthRoutes.validated.
fold raw.
destruct (user (w_session w)) as [u|] eqn:Hu; cbv beta iota.
2:{ split; [reflexivity|]. split; [reflexivity|]. discriminate. }
destruct (run_chains ProjectRoutes.projectValidation raw w) as [[b' errors] w'].
cbn [fst snd] in *. subst w'.
rewrite add_project_handler_rejects by assumption.
rewrite edit_project_handler_rejects by assumption.
split; [reflexivity|]. split; [reflexivity|].
intros u' Hu'. injection Hu' as <-. cbn [fst]. rewrite Hu. eauto.
Qed.

Lemma phase_of_name (ph : phase) : phase_of_string (phase_name ph) = Some ph.
Proof. destruct ph; reflexivity. Qed.

(** The fields of a project form as the handlers read them. *)
Lemma project_sanitized (b : fields) (w : world) :
let b' := fst (fst (run_chains ProjectRoutes.projectValidation b w)) in
b' !! "title" = Some (Js.trim (to_str (b !! "title")))
/\ b' !! "short_description" = Some (Js.trim (to_str (b !! "short_description")))
/\ b' !! "start_date" = b !! "start_date"
/\ b' !! "end_date" = b !! "end_date"
/\ b' !! "phase" = b !! "phase".
Proof.
intros b'. subst b'. unfold ProjectRoutes.projectValidation.
rewrite run_chains_cons.
match goal with |- context [run_chain ?c b w] =>
  pose proof (run_chain_own c b w _ eq_refl eq_refl) as U1;
  pose proof (fun g => run_chain_other c b w g) as U2;
  destruct (run_chain c b w) as [[b1 e1] w1] end.
cbv beta iota. rewrite run_chains_cons.
match goal with |- context [run_chain ?c b1 w1] =>
  pose proof (run_chain_own c b1 w1 _ eq_refl eq_refl) as V1;
  pose proof (fun g => run_chain_other c b1 w1 g) as V2;
  destruct (run_chain c b1 w1) as [[b2 e2] w2] end.
cbv beta iota.
match goal with |- context [run_chains ?l b2 w2] =>
  pose proof (fun g Hs => run_chains_spared l b2 w2 g Hs) as W;
  destruct (run_chains l b2 w2) as [[b3 e3] w3] end.
cbn [fst snd] in *. simpl in U1, V1. unfold body_ in U2, V2. cbn [field] in U2, V2.
rewrite (W "title") by spared. rewrite (W "short_description") by spared.
rewrite (W "start_date") by spared. rewrite (W "end_date") by spared.
rewrite (W "phase") by spared.
rewrite (V2 "title"), U1, V1 by discriminate.
rewrite (U2 "short_description") by discriminate.
rewrite (V2 "start_date"), (V2 "end_date"), (V2 "phase") by discriminate.
rewrite (U2 "start_date"), (U2 "end_date"), (U2 "phase") by discriminate. auto.
Qed.

(** What the chains of a project form that passes say of the title and
  the description. *)
Lemma project_valid_lengths (b : fields) (w : world) :
snd (fst (run_chains ProjectRoutes.projectValidation b w)) = [] ->
String.length (Js.trim (to_str (b !! "title"))) <= 100
/\ String.length (Js.trim (to_str (b !! "short_description"))) <= 500.
Proof.
unfold ProjectRoutes.projectValidation. intros Herr.
apply run_chains_nil_cons in Herr as [E1 Herr].
match type of E1 with context [run_chain ?c b w] =>
  pose proof (run_chain_other c b w "short_description") as U2 end.
split.
- apply (is_length_max 3). revert E1. unfold run_chain. simpl. unfold standard.
  match goal with |- context [if ?c then ret _ else _] => destruct c eqn:E end;
    [intros _; first [exact E | reflexivity]|].
  unfold throw. cbn. discriminate.
- clear E1.
  destruct (run_chain _ b w) as [[b1 e1] w1]. cbn [fst snd] in *.
  apply run_chains_nil_cons in Herr as [E2 _].
  simpl in U2. specialize (U2 ltac:(discriminate)).
  apply (is_length_max 10). revert E2. unfold run_chain. simpl. unfold standard.
  rewrite U2.
  match goal with |- context [if ?c then ret _ else _] => destruct c eqn:E end;
    [intros _; first [exact E | reflexivity]|].
  unfold throw. cbn. discriminate.
Qed.

Lemma add_project_handler_creates (req : request) (w : world) (u : session_user)
  (title desc start first : string) (last : option string) (ph : phase) :
user (w_session w) = Some u ->
body req !! "title" = Some title ->
body req !! "short_description" = Some desc ->
body req !! "start_date" = Some start ->
body req !! "phase" = Some (phase_name ph) ->
String.length (Js.trim title) <= 100 ->
String.length (Js.trim desc) <= 500 ->
sql_date start = Some first ->
date_or_null (ProjectRoutes.or_none (body req !! "end_date")) = Some last ->
List.existsb (fun o => Nat.eqb (u_uid o) (su_uid u)) (rows (users (data (w_pool w))))
= true ->
faults (w_pool w) = [] ->
ProjectRoutes.add_project_handler req [] w
= (redirect "/dashboard",
   {| w_session := set_successMessage "Project added successfully!" (w_session w);
      w_pool :=
        {| data :=
             with_projects (data (w_pool w))
               {| rows := rows (projects (data (w_pool w)))
                          ++ [added w (su_uid u) (Js.trim title) (Js.trim desc) first
                                last ph];
                  auto_increment := S (auto_increment (projects (data (w_pool w)))) |};
           clock := clock (w_pool w); faults := [] |} |}).
Proof.
intros Hu Ht Hd Hs Hp Hlt Hld Hfirst Hlast Hfk Hf.
unfold ProjectRoutes.add_project_handler, try_catch.
rewrite Ht, Hd, Hs, Hp.
cbn [negb AuthRoutes.is_nil defined]. unfold bind, ret, execute, modify_session,
  ProjectRoutes.session_user_of.
cbv beta iota zeta. rewrite Hu. cbv beta iota zeta. rewrite Hf.
unfold insert_project.
rewrite (project_values_fit _ _ _ first _ last ph Hlt Hld Hfirst Hlast), Hfk.
reflexivity.
Qed.

Lemma existsb_owner (l : list user_row) (uid : nat) :
(exists o, In o l /\ u_uid o = uid) ->
List.existsb (fun o => Nat.eqb (u_uid o) uid) l = true.
Proof.
intros (o & Hin & Ho). apply List.existsb_exists. exists o.
split; [exact Hin|]. apply Nat.eqb_eq. exact Ho.
Qed.

(** X6: when a logged-in user whose account is in [users] submits a
  project form that the chains accept and whose dates the [DATE] columns
  of the store take, and the store carries the statement out,
  [POST /add-project] redirects to the dashboard with a success message
  and appends exactly one row to [projects]: the next key, the trimmed
  title and description, the dates as the columns take them (an empty
  end date stored as NULL), the phase, the session user as owner and the
  time of the statement as both timestamps; [users] is left alone. *)
Theorem add_project_creates (req : request) (w : world) (u : session_user)
  (title desc start first : string) (last : option string) (ph : phase) :
let raw : fields := body req in
let w' := snd (ProjectRoutes.post_add_project req w) in
user (w_session w) = Some u ->
snd (fst (run_chains ProjectRoutes.projectValidation raw w)) = [] ->
raw !! "title" = Some title ->
raw !! "short_description" = Some desc ->
raw !! "start_date" = Some start ->
raw !! "phase" = Some (phase_name ph) ->
sql_date start = Some first ->
date_or_null (ProjectRoutes.or_none (raw !! "end_date")) = Some last ->
(exists o, In o (rows (users (data (w_pool w)))) /\ u_uid o = su_uid u) ->
faults (w_pool w) = [] ->
fst (ProjectRoutes.post_add_project req w) = redirect "/dashboard"
/\ rows (projects (data (w_pool w')))
   = rows (projects (data (w_pool w)))
     ++ [added w (su_uid u) (Js.trim title) (Js.trim desc) first last ph]
/\ users (data (w_pool w')) = users (data (w_pool w))
/\ successMessage (w_session w') = Some "Project added successfully!".
Proof.
intros raw w' Hu Herr Ht Hd Hs Hp Hfirst Hlast Hfk Hf.
pose proof (project_sanitized raw w) as (St & Sd & Ss & Se & Sp).
pose proof (project_valid_lengths raw w Herr) as (Hlt & Hld).
pose proof (run_chains_quiet _ projectValidation_quiet raw w) as Hq.
subst w'.
unfold ProjectRoutes.post_add_project, guarded, AuthRoutes.requireAuth,
  AuthRoutes.logged_in, AuthRoutes.validated. fold raw.
rewrite Hu. cbv beta iota.
destruct (run_chains ProjectRoutes.projectValidation raw w) as [[b' errors] w1].
cbn [fst snd] in *. subst w1 errors.
rewrite Ht in St, Hlt. rewrite Hd in Sd, Hld. rewrite Hs in Ss. rewrite Hp in Sp.
cbn [to_str] in St, Sd, Hlt, Hld.
rewrite (add_project_handler_creates (with_body req b') w u _ _ _ first last ph
           Hu St Sd Ss Sp).
- cbn [fst snd w_pool w_session data users projects rows with_projects
       set_successMessage successMessage].
  rewrite !trim_idempotent. repeat split.
- rewrite trim_idempotent. exact Hlt.
- rewrite trim_idempotent. exact Hld.
- exact Hfirst.
- change (body (with_body req b')) with b'.
  exact (eq_trans (f_equal (fun v => date_or_null (ProjectRoutes.or_none v)) Se)
           Hlast).
- apply existsb_owner, Hfk.
- exact Hf.
Qed.

End ProjectFacts.

Section OwnerFacts.
Context `{Libraries}.
Import Exn Store Http Validator.
#[local] Arguments is_length : simpl never.
#[local] Arguments Js.trim : simpl never.

(** On a table with distinct keys, the statements that select by key and
  owner hit the row of the key when the owner is right. *)
Lemma owner_hits (l : list project_row) (p : project_row) (id : string) (uid : nat) :
List.NoDup (List.map p_pid l) ->
In p l ->
sql_key id = Some (p_pid p) ->
p_uid p = uid ->
forall q, In q l ->
  key_matches (sql_key id) (p_pid q) && Nat.eqb (p_uid q) uid
  = Nat.eqb (p_pid p) (p_pid q).
Proof.
intros Hnd Hp Hkey Hown q Hq. rewrite Hkey. simpl.
destruct (Nat.eqb_spec (p_pid p) (p_pid q)) as [Heq|]; [|reflexivity].
assert (q = p) by (eapply unique_key; eauto). subst q.
simpl. apply Nat.eqb_eq. exact Hown.
Qed.

Lemma filter_key (l : list project_row) (p : project_row) :
List.NoDup (List.map p_pid l) -> In p l ->
List.filter (fun q => Nat.eqb (p_pid p) (p_pid q)) l = [p].
Proof.
intros Hnd Hp.
induction l as [|r l IH]; [contradiction|].
simpl in Hnd. inversion Hnd as [|? ? Hr Hnd']; subst. simpl.
destruct Hp as [->|Hp].
- rewrite Nat.eqb_refl. f_equal. apply filter_none.
  intros q Hq. apply Nat.eqb_neq. intros Heq. apply Hr.
  rewrite Heq. apply List.in_map. exact Hq.
- destruct (Nat.eqb_spec (p_pid p) (p_pid r)) as [Heq|]; [|auto].
  exfalso. apply Hr. rewrite <- Heq. apply List.in_map. exact Hp.
Qed.

(** X7: when the project keys are distinct and the store answers,
  [POST /delete-project/:id] by the owner of the designated project
  redirects to the dashboard with a success message and removes that
  row and no other; [users] is left alone. *)
Theorem owner_deletes_project (req : request) (w : world) (u : session_user)
  (p : project_row) :
let w' := snd (ProjectRoutes.post_delete_project req w) in
user (w_session w) = Some u ->
List.NoDup (List.map p_pid (rows (projects (data (w_pool w))))) ->
In p (rows (projects (data (w_pool w)))) ->
sql_key (params_id req) = Some (p_pid p) ->
p_uid p = su_uid u ->
next_fault (w_pool w) = None ->
fst (ProjectRoutes.post_delete_project req w) = redirect "/dashboard"
/\ successMessage (w_session w') = Some "Project deleted successfully!"
/\ rows (projects (data (w_pool w')))
   = List.filter (fun q => negb (Nat.eqb (p_pid p) (p_pid q)))
       (rows (projects (data (w_pool w))))
/\ (forall q, In q (rows (projects (data (w_pool w')))) <->
              In q (rows (projects (data (w_pool w)))) /\ q <> p)
/\ users (data (w_pool w')) = users (data (w_pool w)).
Proof.
intros w' Hu Hnd Hp Hkey Hown Hf.
pose proof (owner_hits _ p _ _ Hnd Hp Hkey Hown) as Hhit.
assert (Hdel : delete_project (params_id req) (su_uid u) (data (w_pool w))
               = (Done 1,
                  with_projects (data (w_pool w))
                    {| rows := List.filter (fun q => negb (Nat.eqb (p_pid p) (p_pid q)))
                                 (rows (projects (data (w_pool w))));
                       auto_increment := auto_increment (projects (data (w_pool w))) |})).
{ unfold delete_project. f_equal.
  - rewrite (List.filter_ext_in _ _ _ Hhit), (filter_key _ p Hnd Hp). reflexivity.
  - f_equal. f_equal. apply List.filter_ext_in. intros q Hq.
    rewrite (Hhit q Hq). reflexivity. }
assert (Hrows : rows (projects (data (w_pool w')))
                = List.filter (fun q => negb (Nat.eqb (p_pid p) (p_pid q)))
                    (rows (projects (data (w_pool w))))
                /\ fst (ProjectRoutes.post_delete_project req w) = redirect "/dashboard"
                /\ successMessage (w_session w') = Some "Project deleted successfully!"
                /\ users (data (w_pool w')) = users (data (w_pool w))).
{ subst w'.
  unfold ProjectRoutes.post_delete_project, guarded, AuthRoutes.requireAuth,
    AuthRoutes.logged_in, try_catch, bind, ProjectRoutes.session_user_of, execute,
    next_fault in *.
  repeat (cbv beta iota zeta; rewrite ?Hu).
  cbv beta iota zeta.
  destruct (faults (w_pool w)) as [|[fault|] rest]; [|discriminate|];
    cbv beta iota zeta; rewrite Hdel; cbn; auto. }
destruct Hrows as (Hrows & Hr & Hm & Husers).
split; [exact Hr|]. split; [exact Hm|]. split; [exact Hrows|].
split; [|exact Husers].
intros q. rewrite Hrows, List.filter_In. split.
- intros [Hq Hne]. split; [exact Hq|]. intros ->.
  rewrite Nat.eqb_refl in Hne. discriminate.
- intros [Hq Hne]. split; [exact Hq|].
  destruct (Nat.eqb_spec (p_pid p) (p_pid q)) as [Heq|]; [|reflexivity].
  exfalso. apply Hne. eapply unique_key; eauto.
Qed.

Lemma edit_project_handler_updates (req : request) (w : world) (u : session_user)
  (p : project_row) (title desc start first : string) (last : option string)
  (ph : phase) :
user (w_session w) = Some u ->
List.NoDup (List.map p_pid (rows (projects (data (w_pool w))))) ->
In p (rows (projects (data (w_pool w)))) ->
sql_key (params_id req) = Some (p_pid p) ->
p_uid p = su_uid u ->
body req !! "title" = Some title ->
body req !! "short_description" = Some desc ->
body req !! "start_date" = Some start ->
body req !! "phase" = Some (phase_name ph) ->
String.length (Js.trim title) <= 100 ->
String.length (Js.trim desc) <= 500 ->
sql_date start = Some first ->
date_or_null (ProjectRoutes.or_none (body req !! "end_date")) = Some last ->
faults (w_pool w) = [] ->
ProjectRoutes.edit_project_handler req [] w
= (redirect "/dashboard",
   {| w_session := set_successMessage "Project updated successfully!" (w_session w);
      w_pool :=
        {| data :=
             with_projects (data (w_pool w))
               {| rows :=
                    List.map
                      (fun q =>
                         if Nat.eqb (p_pid p) (p_pid q)
                         then set_project (Js.trim title) (Js.trim desc) first last
                                ph (clock (w_pool w)) p
                         else q)
                      (rows (projects (data (w_pool w))));
                  auto_increment := auto_increment (projects (data (w_pool w))) |};
           clock := clock (w_pool w); faults := [] |} |}).
Proof.
intros Hu Hnd Hp Hkey Hown Ht Hd Hs Hph Hlt Hld Hfirst Hlast Hf.
pose proof (owner_hits _ p _ _ Hnd Hp Hkey Hown) as Hhit.
unfold ProjectRoutes.edit_project_handler, try_catch.
unfold bind, ret, query, execute, modify_session, ProjectRoutes.session_user_of.
cbv beta iota zeta. rewrite Hu. cbv beta iota zeta. rewrite Hf.
cbn [w_pool w_session data faults clock].
unfold select_project_of.
rewrite (List.filter_ext_in _ _ _ Hhit), (filter_key _ p Hnd Hp).
cbn [AuthRoutes.is_nil negb]. rewrite Ht, Hd, Hs, Hph. cbn [defined ret].
cbv beta iota zeta.
unfold update_project.
rewrite (project_values_fit _ _ _ first _ last ph Hlt Hld Hfirst Hlast).
cbn [w_pool w_session data faults clock fst snd].
match goal with |- context [List.map ?f ?l] =>
  rewrite (List.map_ext_in f
             (fun q =>
                if Nat.eqb (p_pid p) (p_pid q)
                then set_project (Js.trim title) (Js.trim desc) first last ph
                       (clock (w_pool w)) p
                else q) l)
end; [reflexivity|].
intros q Hq. rewrite (Hhit q Hq).
destruct (Nat.eqb_spec (p_pid p) (p_pid q)) as [Heq|]; [|reflexivity].
assert (q = p) by (eapply unique_key; eauto). subst q. reflexivity.
Qed.

(** X8: when the project keys are distinct, the chains accept the form,
  the [DATE] columns of the store take its dates and the store carries
  the statements out, [POST /edit-project/:id] by the owner replaces the
  designated row by its edited version (the trimmed title and
  description, the dates as the columns take them, the phase) and
  changes no other row; the edit keeps the key, the owner and the time
  of creation of the row. *)
Theorem owner_edits_project (req : request) (w : world) (u : session_user)
  (p : project_row) (title desc start first : string) (last : option string)
  (ph : phase) :
let raw : fields := body req in
let w' := snd (ProjectRoutes.post_edit_project req w) in
let edited :=
  set_project (Js.trim title) (Js.trim desc) first last ph (clock (w_pool w)) p in
user (w_session w) = Some u ->
List.NoDup (List.map p_pid (rows (projects (data (w_pool w))))) ->
In p (rows (projects (data (w_pool w)))) ->
sql_key (params_id req) = Some (p_pid p) ->
p_uid p = su_uid u ->
snd (fst (run_chains ProjectRoutes.projectValidation raw w)) = [] ->
raw !! "title" = Some title ->
raw !! "short_description" = Some desc ->
raw !! "start_date" = Some start ->
raw !! "phase" = Some (phase_name ph) ->
sql_date start = Some first ->
date_or_null (ProjectRoutes.or_none (raw !! "end_date")) = Some last ->
faults (w_pool w) = [] ->
fst (ProjectRoutes.post_edit_project req w) = redirect "/dashboard"
/\ successMessage (w_session w') = Some "Project updated successfully!"
/\ rows (projects (data (w_pool w')))
   = List.map (fun q => if Nat.eqb (p_pid p) (p_pid q) then edited else q)
       (rows (projects (data (w_pool w))))
/\ (p_pid edited = p_pid p /\ p_uid edited = p_uid p
    /\ p_created_at edited = p_created_at p
    /\ p_title edited = Js.trim title
    /\ p_short_description edited = Js.trim desc
    /\ p_start_date edited = first /\ p_end_date edited = last
    /\ p_phase edited = ph)
/\ users (data (w_pool w')) = users (data (w_pool w)).
Proof.
intros raw w' edited Hu Hnd Hp Hkey Hown Herr Ht Hd Hs Hph Hfirst Hlast Hf.
pose proof (project_sanitized raw w) as (St & Sd & Ss & Se & Sp).
pose proof (project_valid_lengths raw w Herr) as (Hlt & Hld).
pose proof (run_chains_quiet _ projectValidation_quiet raw w) as Hq.
subst w' edited.
unfold ProjectRoutes.post_edit_project, guarded, AuthRoutes.requireAuth,
  AuthRoutes.logged_in, AuthRoutes.validated. fold raw.
rewrite Hu. cbv beta iota.
destruct (run_chains ProjectRoutes.projectValidation raw w) as [[b' errors] w1].
cbn [fst snd] in *. subst w1 errors.
rewrite Ht in St, Hlt. rewrite Hd in Sd, Hld. rewrite Hs in Ss. rewrite Hph in Sp.
cbn [to_str] in St, Sd, Hlt, Hld.
rewrite (edit_project_handler_updates (with_body req b') w u p _ _ _ first last ph
           Hu Hnd Hp Hkey Hown St Sd Ss Sp).
- cbn [fst snd w_pool w_session data users projects rows with_projects
       set_successMessage successMessage].
  rewrite !trim_idempotent. repeat split.
- rewrite trim_idempotent. exact Hlt.
- rewrite trim_idempotent. exact Hld.
- exact Hfirst.
- change (body (with_body req b')) with b'.
  exact (eq_trans (f_equal (fun v => date_or_null (ProjectRoutes.or_none v)) Se)
           Hlast).
- exact Hf.
Qed.

End OwnerFacts.

Section KeyFacts.
Context `{Libraries}.
Import Exn Store Http Validator.

Lemma reads_only_invariant {A} (P : database -> Prop) (m : Exn.action world A) :
reads_only m -> invariant P m.
Proof. intros Hm w Hw. rewrite (Hm w). exact Hw. Qed.

Lemma invariant_bind {A B} (P : database -> Prop) (m : M A) (k : A -> M B) :
invariant P m -> (forall a, invariant P (k a)) -> invariant P (bind m k).
Proof.
intros Hm Hk w Hw. unfold bind. specialize (Hm w Hw).
destruct (m w) as [[a|e] w1]; cbn [snd] in *; [|exact Hm].
apply (Hk a w1 Hm).
Qed.

Lemma invariant_try_catch {A} (P : database -> Prop) (body : M A)
  (handler : Http.action A) :
invariant P body -> invariant P handler -> invariant P (try_catch body handler).
Proof.
intros Hb Hh w Hw. unfold try_catch. specialize (Hb w Hw).
destruct (body w) as [[a|e] w1]; cbn [snd] in *; [exact Hb|].
apply (Hh w1 Hb).
Qed.

Lemma invariant_execute {A} (P : database -> Prop)
  (stmt : Z -> database -> outcome A * database) :
(forall clock d, P d -> P (snd (stmt clock d))) -> invariant P (execute stmt).
Proof.
intros Hs w Hw. unfold execute.
specialize (Hs (clock (w_pool w)) (data (w_pool w)) Hw).
destruct (faults (w_pool w)) as [|[fault|] rest]; cbn; try exact Hw;
  destruct (stmt _ _) as [r d]; exact Hs.
Qed.

Lemma invariant_guarded (P : database -> Prop) (g : Http.action verdict)
  (h : Http.action response) :
invariant P g -> invariant P h -> invariant P (guarded g h).
Proof.
intros Hg Hh w Hw. unfold guarded. specialize (Hg w Hw).
destruct (g w) as [[r|] w1]; cbn [snd] in *; [exact Hg|].
apply (Hh w1 Hg).
Qed.

Lemma invariant_validated (P : database -> Prop) (chains : list chain) (req : request)
  (h : request -> list verror -> Http.action response) :
Forall quiet_chain chains ->
(forall b errors, invariant P (h (with_body req b) errors)) ->
invariant P (AuthRoutes.validated chains req h).
Proof.
intros Hq Hh w Hw. unfold AuthRoutes.validated.
pose proof (run_chains_quiet chains Hq (body req) w) as Hw1.
destruct (run_chains chains (body req) w) as [[b errors] w1].
cbn [snd] in Hw1. subst w1. apply Hh. exact Hw.
Qed.

Lemma unique_users_snoc (l : list user_row) (row : user_row) :
unique_users l ->
List.existsb
  (fun u => collate_eq (u_username u) (u_username row)
            || collate_eq (u_email u) (u_email row)) l = false ->
unique_users (l ++ [row]).
Proof.
unfold unique_users. intros Hl Hnew.
induction Hl as [|a l Ha Hl IH]; cbn [List.app].
- constructor; constructor.
- cbn [List.existsb] in Hnew. apply orb_false_elim in Hnew as [Hrow Hnew].
  apply orb_false_elim in Hrow as [Hname Hmail].
  constructor; [|apply IH, Hnew].
  apply List.Forall_app. split; [exact Ha|]. repeat constructor; assumption.
Qed.

(** The four statements that write keep the constraints. *)
Lemma insert_user_keyed username email password clock d :
keyed d -> keyed (snd (insert_user username email password clock d)).
Proof.
intros ((Hpk & Huk & Hfk) & Hun & Hp & Hu). unfold insert_user.
destruct (user_values _ _ _) as [[[name hash] mail]|e];
  [|repeat split; assumption].
destruct (List.existsb _ _) eqn:Hnew; [repeat split; assumption|].
unfold with_users. split; [split; [|split]|split; [|split]]; cbn.
- exact Hpk.
- rewrite List.map_app. cbn. apply NoDup_ListNoDup. apply NoDup_app.
  split; [apply NoDup_ListNoDup; exact Huk|].
  split; [|apply NoDup_singleton].
  intros x Hx Hx'. apply list_elem_of_In in Hx. apply List.in_map_iff in Hx.
  destruct Hx as (o & <- & Ho). apply list_elem_of_singleton in Hx'.
  specialize (Hu o Ho). lia.
- intros p Hin. destruct (Hfk p Hin) as (o & Ho & Heq).
  exists o. split; [apply List.in_or_app; left; exact Ho|exact Heq].
- apply unique_users_snoc; [exact Hun|exact Hnew].
- exact Hp.
- intros u Hin. apply List.in_app_or in Hin as [Hin|[<-|[]]].
  + specialize (Hu u Hin). lia.
  + cbn. lia.
Qed.

Lemma insert_project_keyed title desc start endt phase uid clock d :
keyed d -> keyed (snd (insert_project title desc start endt phase uid clock d)).
Proof.
intros ((Hpk & Huk & Hfk) & Hun & Hp & Hu). unfold insert_project.
destruct (project_values _ _ _ _ _) as [[[[[t first] last] text] ph]|e];
  [|repeat split; assumption].
destruct (List.existsb _ _) eqn:Hex; [|repeat split; assumption].
unfold with_projects. split; [split; [|split]|split; [|split]]; cbn.
- rewrite List.map_app. cbn. apply NoDup_ListNoDup. apply NoDup_app.
  split; [apply NoDup_ListNoDup; exact Hpk|].
  split; [|apply NoDup_singleton].
  intros x Hx Hx'. apply list_elem_of_In in Hx. apply List.in_map_iff in Hx.
  destruct Hx as (o & <- & Ho). apply list_elem_of_singleton in Hx'.
  specialize (Hp o Ho). lia.
- exact Huk.
- intros p Hin. apply List.in_app_or in Hin as [Hin|[<-|[]]]; [apply Hfk, Hin|].
  cbn. apply List.existsb_exists in Hex as (o & Ho & Heq).
  exists o. split; [exact Ho|]. apply Nat.eqb_eq. exact Heq.
- exact Hun.
- intros p Hin. apply List.in_app_or in Hin as [Hin|[<-|[]]].
  + specialize (Hp p Hin). lia.
  + cbn. lia.
- exact Hu.
Qed.

Lemma delete_project_keyed id uid d :
keyed d -> keyed (snd (delete_project id uid d)).
Proof.
intros ((Hpk & Huk & Hfk) & Hun & Hp & Hu). unfold delete_project, with_projects.
split; [split; [|split]|split; [|split]];
  cbn [snd projects users rows auto_increment].
- clear Hfk Hp. induction (rows (projects d)) as [|r l IH]; [exact Hpk|].
  cbn in *. inversion Hpk as [|? ? Hr Hl]; subst.
  destruct (negb _); [|apply IH, Hl].
  cbn. constructor; [|apply IH, Hl].
  intros Hin. apply Hr. apply List.in_map_iff in Hin as (q & Hq & Hin).
  apply List.filter_In in Hin as [Hin _]. rewrite <- Hq. apply List.in_map, Hin.
- exact Huk.
- intros p Hin. apply List.filter_In in Hin as [Hin _]. apply Hfk, Hin.
- exact Hun.
- intros p Hin. apply List.filter_In in Hin as [Hin _]. apply Hp, Hin.
- exact Hu.
Qed.

Lemma update_project_keyed title desc start endt phase id uid clock d :
keyed d -> keyed (snd (update_project title desc start endt phase id uid clock d)).
Proof.
intros ((Hpk & Huk & Hfk) & Hun & Hp & Hu). unfold update_project.
destruct (project_values _ _ _ _ _) as [[[[[t first] last] text] ph]|e];
  [|destruct (List.existsb _ _); repeat split; assumption].
unfold with_projects. cbn [snd projects users rows auto_increment].
set (f := fun p : project_row => _).
assert (Hpid : forall q, p_pid (f q) = p_pid q).
{ intros q. unfold f. destruct (_ && _); reflexivity. }
assert (Huid : forall q, p_uid (f q) = p_uid q).
{ intros q. unfold f. destruct (_ && _); reflexivity. }
split; [split; [|split]|split; [|split]];
  cbn [snd projects users rows auto_increment].
- rewrite List.map_map. rewrite (List.map_ext _ p_pid Hpid). exact Hpk.
- exact Huk.
- intros p Hin. apply List.in_map_iff in Hin as (q & <- & Hq).
  rewrite Huid. apply Hfk, Hq.
- exact Hun.
- intros p Hin. apply List.in_map_iff in Hin as (q & <- & Hq).
  rewrite Hpid. apply Hp, Hq.
- exact Hu.
Qed.

End KeyFacts.

(** Discharges [invariant keyed] of a handler by its structure. *)
Ltac keeps_keys :=
  repeat first
    [ apply invariant_bind; [|intros ?]
    | apply invariant_try_catch
    | apply invariant_execute; intros ? ? ?;
      first [ apply insert_user_keyed | apply insert_project_keyed
            | apply delete_project_keyed | apply update_project_keyed ];
      assumption
    | apply reads_only_invariant; solve [read_only]
    | match goal with
      | |- invariant _ (match ?x with _ => _ end) => destruct x
      end
    | (intros ? ?; assumption) ].

Section HandlerKeyFacts.
Context `{Libraries}.
Import Exn Store Http Validator.


Lemma requireAuth_reads_only : reads_only AuthRoutes.requireAuth.
Proof.
intros w. unfold AuthRoutes.requireAuth.
destruct (AuthRoutes.logged_in _); reflexivity.
Qed.

Lemma requireGuest_reads_only : reads_only AuthRoutes.requireGuest.
Proof.
intros w. unfold AuthRoutes.requireGuest.
destruct (AuthRoutes.logged_in _); reflexivity.
Qed.

(** X9: the four handlers that write keep the constraints of the schema
  (distinct primary keys; no two users with the same username and no
  two with the same address under the collation of the columns; every
  project owned by a stored user) and keep every key below the counter
  that issues keys, whatever the request, the session and the faults of
  the driver. *)
Theorem handlers_keep_keys (req : request) :
invariant keyed (AuthRoutes.post_register req)
/\ invariant keyed (ProjectRoutes.post_add_project req)
/\ invariant keyed (ProjectRoutes.post_edit_project req)
/\ invariant keyed (ProjectRoutes.post_delete_project req).
Proof.
split; [|split; [|split]].
- unfold AuthRoutes.post_register. apply invariant_guarded;
    [apply reads_only_invariant, requireGuest_reads_only|].
  apply invariant_validated; [apply registerValidation_quiet|].
  intros b errors. unfold AuthRoutes.register_handler. keeps_keys.
- unfold ProjectRoutes.post_add_project. apply invariant_guarded;
    [apply reads_only_invariant, requireAuth_reads_only|].
  apply invariant_validated; [apply projectValidation_quiet|].
  intros b errors w. unfold ProjectRoutes.add_project_handler.
  match goal with |- context [try_catch ?b ?h w] =>
    apply (invariant_try_catch keyed b h) end; keeps_keys.
- unfold ProjectRoutes.post_edit_project. apply invariant_guarded;
    [apply reads_only_invariant, requireAuth_reads_only|].
  apply invariant_validated; [apply projectValidation_quiet|].
  intros b errors. unfold ProjectRoutes.edit_project_handler. keeps_keys.
- unfold ProjectRoutes.post_delete_project. apply invariant_guarded;
    [apply reads_only_invariant, requireAuth_reads_only|].
  keeps_keys.
Qed.

End HandlerKeyFacts.

Section GuardFacts.
Context `{Libraries}.
Import Exn Store Http Validator.

Lemma filter_key_none (l : list project_row) (key : option nat) :
(forall p, In p l -> key <> Some (p_pid p)) ->
List.filter (fun q => key_matches key (p_pid q)) l = [].
Proof.
intros Hno. apply filter_none. intros q Hq. specialize (Hno q Hq).
destruct key as [k|]; [|reflexivity]. simpl.
apply Nat.eqb_neq. congruence.
Qed.

(** X10: for a logged-in user and a store that answers, the guard
  [requireProjectOwnership] calls [next()] with the session untouched
  when the designated project is the user's, answers 403 (API clients)
  or a redirect to the dashboard (browsers) when it is someone else's,
  and 404 or a redirect with the message [Project not found.] when no
  project has that key; it never writes to the store. *)
Theorem ownership_guard_outcomes (req : request) (w : world) (u : session_user) :
let guard := AuthMiddleware.requireProjectOwnership req in
user (w_session w) = Some u ->
su_uid u <> 0 ->
Js.is_empty (params_id req) = false ->
List.NoDup (List.map p_pid (rows (projects (data (w_pool w))))) ->
next_fault (w_pool w) = None ->
(forall p, In p (rows (projects (data (w_pool w)))) ->
           sql_key (params_id req) = Some (p_pid p) ->
           if Nat.eqb (p_uid p) (su_uid u)
           then fst (guard w) = Next /\ w_session (snd (guard w)) = w_session w
           else fst (guard w)
                = Answer (if wants_json req
                          then with_status 403 (json [("error", VStr "Access denied")])
                          else redirect "/dashboard"))
/\ ((forall p, In p (rows (projects (data (w_pool w)))) ->
               sql_key (params_id req) <> Some (p_pid p)) ->
    fst (guard w)
    = Answer (if wants_json req
              then with_status 404 (json [("error", VStr "Project not found")])
              else redirect "/dashboard")
    /\ (wants_json req = false ->
        errorMessage (w_session (snd (guard w))) = Some "Project not found."))
/\ data (w_pool (snd (guard w))) = data (w_pool w).
Proof.
intros guard Hu Hnz Hid Hnd Hf. subst guard.
assert (Hz : Nat.eqb (su_uid u) 0 = false) by (apply Nat.eqb_neq; exact Hnz).
unfold AuthMiddleware.requireProjectOwnership, try_catch, bind,
  ProjectRoutes.session_user_of, query, execute, next_fault,
  AuthMiddleware.deny, select_project_owner in *.
repeat (cbv beta iota zeta; rewrite ?Hu, ?Hid, ?Hz).
cbn [orb]. cbv beta iota zeta.
split; [|split].
- intros p Hp Hkey. rewrite (owner_of_key _ p _ Hnd Hp Hkey).
  cbn [List.map].
  destruct (faults (w_pool w)) as [|[fault|] rest]; [|discriminate|];
    cbv beta iota zeta;
    destruct (Nat.eqb (p_uid p) (su_uid u)); cbn [negb];
    try (split; reflexivity);
    destruct (wants_json req); reflexivity.
- intros Hno. rewrite (filter_key_none _ _ Hno). cbn [List.map].
  destruct (faults (w_pool w)) as [|[fault|] rest]; [|discriminate|];
    cbv beta iota zeta; destruct (wants_json req); split;
    try reflexivity; discriminate.
- clear Hnd Hf.
  destruct (faults (w_pool w)) as [|[fault|] rest]; cbv beta iota zeta;
    try (destruct (wants_json req); reflexivity);
    (match goal with |- context [List.map p_uid ?l] =>
       destruct (List.map p_uid l) as [|owner others] end;
     [|destruct (negb _)]; unfold ret, modify_session;
     destruct (wants_json req); reflexivity).
Qed.

Lemma classic_token (field : string) (req : request) (w : world) :
token_matches field req w \/ ~ token_matches field req w.
Proof.
unfold token_matches.
destruct (csrfToken (w_session w)) as [t|];
  [|right; intros (t' & _ & Hx & _); discriminate].
destruct (Js.is_empty t) eqn:Ht;
  [right; intros (t' & Ht' & Hx & _); congruence|].
destruct (decide (AuthMiddleware.or_else (body req !! field) (x_csrf_token req)
                  = Some t)) as [E|E].
- left. exists t. auto.
- right. intros (t' & _ & Hx & Hy). congruence.
Qed.

(** The two token guards, side by side. *)
(** X11: the two CSRF guards.  [validateCSRFToken] lets every GET
  through; on other requests that carry no token field in the body the
  guard of middleware/auth.js and the one of middleware/security.js take
  the same decision; a valid token sent in the form field [_csrf] is
  accepted by the former and answered 403 by the latter, which does not
  read that field; and a token issued by [generateCSRFToken] and sent
  back in [_csrf] is accepted. *)
Theorem csrf_guards_compared (fresh : string) (req : request) (w : world) :
(method req = "GET" -> AuthMiddleware.validateCSRFToken req w = (Next, w))
/\ (String.eqb (method req) "GET" = false ->
    body req !! "_csrf" = None -> body req !! "csrfToken" = None ->
    (fst (AuthMiddleware.validateCSRFToken req w) = Next
     <-> fst (SecurityMiddleware.csrfProtection fresh req w) = Next))
/\ (String.eqb (method req) "GET" = false ->
    forall t, Js.is_empty t = false ->
      csrfToken (w_session w) = Some t ->
      body req !! "_csrf" = Some t ->
      body req !! "csrfToken" = None -> x_csrf_token req = None ->
      fst (AuthMiddleware.validateCSRFToken req w) = Next
      /\ exists r, fst (SecurityMiddleware.csrfProtection fresh req w) = Answer r
                   /\ status r = 403)
/\ (String.eqb (method req) "GET" = false ->
    Js.is_empty fresh = false ->
    let w1 := snd (AuthMiddleware.generateCSRFToken fresh w) in
    body req !! "_csrf" = csrfToken (w_session w1) ->
    AuthMiddleware.validateCSRFToken req w1 = (Next, w1)).
Proof.
split; [|split; [|split]].
- intros Hm. unfold AuthMiddleware.validateCSRFToken. rewrite Hm. reflexivity.
- intros Hm H1 H2.
  destruct (validateCSRFToken_guards req w Hm) as [Va Vr].
  destruct (csrfProtection_guards fresh req w Hm) as [Pa Pr].
  assert (Hsame : token_matches "_csrf" req w <-> token_matches "csrfToken" req w).
  { unfold token_matches. rewrite H1, H2. reflexivity. }
  split; intros Hn.
  + destruct (classic_token "csrfToken" req w) as [Ht|Ht];
      [rewrite (Pa Ht); reflexivity|].
    exfalso. destruct (Vr (fun Hx => Ht (proj1 Hsame Hx))) as (r & Hr & _).
    rewrite Hr in Hn. discriminate.
  + destruct (classic_token "_csrf" req w) as [Ht|Ht];
      [rewrite (Va Ht); reflexivity|].
    exfalso. destruct (Pr (fun Hx => Ht (proj2 Hsame Hx))) as (r & Hr & _).
    rewrite Hr in Hn. discriminate.
- intros Hm t Ht Hs Hb Hb' Hh.
  destruct (validateCSRFToken_guards req w Hm) as [Va _].
  destruct (csrfProtection_guards fresh req w Hm) as [_ Pr].
  split.
  + rewrite Va; [reflexivity|]. exists t. rewrite Hs, Hb.
    unfold AuthMiddleware.or_else. cbn. rewrite Ht. auto.
  + destruct Pr as (r & Hr & Hst).
    * intros (t' & Ht' & _ & Hreq). rewrite Hb', Hh in Hreq. discriminate.
    * exists r. rewrite Hr. auto.
- intros Hm Hfresh w1 Hb.
  destruct (validateCSRFToken_guards req w1 Hm) as [Va _].
  apply Va. subst w1. unfold token_matches, AuthMiddleware.generateCSRFToken in *.
  destruct (falsy (csrfToken (w_session w))) eqn:Hfalsy; cbn in *.
  + exists fresh. rewrite Hb. unfold AuthMiddleware.or_else. cbn.
    rewrite Hfresh. auto.
  + apply falsy_spec in Hfalsy as (t & Hs & Ht). exists t.
    rewrite Hb, Hs. unfold AuthMiddleware.or_else. cbn. rewrite Ht. auto.
Qed.

End GuardFacts.

Section InterleavingFacts.
Import Http RateLimit.
Variables (maxAttempts : nat) (windowMs : Z).

Lemma authRateLimit_state (req : request) (now : Z) (st : limiter) :
snd (authRateLimit maxAttempts windowMs req now st) = evict windowMs now st.
Proof.
unfold authRateLimit.
destruct (attempts (evict windowMs now st) !! ip req) as [l|]; [|reflexivity].
destruct (heap (evict windowMs now st) !! l) as [e|]; [|reflexivity].
destruct (Nat.leb maxAttempts (count e)); reflexivity.
Qed.

(** X13: failures recorded by requests in flight together can be lost.
  When two requests of one address both pass the limiter before either
  records its failure and the address had no entry, the entry then holds
  a count of 1, not 2; and a failure recorded through the handle of a
  request whose entry a later request has evicted leaves the address
  without an entry. *)
Theorem interleaved_failures_lost (addr : string) (st : limiter)
  (req1 req2 : request) (t1 t2 : Z) :
let st1 := snd (authRateLimit maxAttempts windowMs req1 t1 st) in
let st2 := snd (authRateLimit maxAttempts windowMs req2 t2 st1) in
ip req1 = addr ->
(ip req2 = addr ->
 attempts st !! addr = None ->
 exists h1 h2,
   fst (authRateLimit maxAttempts windowMs req1 t1 st) = Pass h1
   /\ fst (authRateLimit maxAttempts windowMs req2 t2 st1) = Pass h2
   /\ holds (recordFailedAttempt h2 (recordFailedAttempt h1 st2)) addr
        (S (next_loc st)) {| count := 1; firstAttempt := t2 |})
/\ (forall l e,
      holds st addr l e ->
      count e < maxAttempts ->
      (t1 - firstAttempt e <= windowMs)%Z ->
      (windowMs < t2 - firstAttempt e)%Z ->
      exists h1,
        fst (authRateLimit maxAttempts windowMs req1 t1 st) = Pass h1
        /\ attempts (recordFailedAttempt h1 st2) !! addr = None).
Proof.
intros st1 st2 H1.
assert (Hst1 : st1 = evict windowMs t1 st) by apply authRateLimit_state.
assert (Hst2 : st2 = evict windowMs t2 st1) by apply authRateLimit_state.
split.
- intros H2 Hnone.
  assert (E1 : attempts st1 !! addr = None).
  { rewrite Hst1. unfold evict. cbn [attempts]. apply map_lookup_filter_None. auto. }
  assert (E2 : attempts st2 !! addr = None).
  { rewrite Hst2. unfold evict. cbn [attempts]. apply map_lookup_filter_None. auto. }
  rewrite Hst1 in E1.
  unfold authRateLimit at 1. rewrite H1, E1.
  rewrite Hst2 in E2.
  unfold authRateLimit at 1. rewrite H2, E2.
  eexists _, _. split; [reflexivity|]. split; [reflexivity|].
  rewrite Hst2, Hst1.
  unfold recordFailedAttempt, holds.
  cbn [h_userAttempts h_ip h_now attempts heap next_loc evict].
  rewrite !lookup_insert_eq. auto.
- intros l e Hst Hlt Hin Hout.
  destruct (evict_keeps windowMs t1 st addr l e Hst Hin) as [Hl He].
  unfold authRateLimit at 1. rewrite H1, Hl, He.
  apply Nat.leb_gt in Hlt. rewrite Hlt.
  eexists. split; [reflexivity|].
  unfold recordFailedAttempt. cbn [h_userAttempts attempts].
  rewrite Hst2, Hst1.
  apply (evict_drops windowMs t2 _ addr l e); [split; assumption|exact Hout].
Qed.

(** X14: a request that passes the limiter and reports success clears
  the entry of its address, so that the next request of that address
  passes, whatever had been counted before. *)
Theorem clear_resets_address (a b : arrival) (st : limiter) :
ip (a_req b) = ip (a_req a) ->
a_calls a = [ClearFailed] ->
fst (serve maxAttempts windowMs a st) = None ->
attempts (snd (serve maxAttempts windowMs a st)) !! ip (a_req a) = None
/\ fst (serve maxAttempts windowMs b (snd (serve maxAttempts windowMs a st))) = None.
Proof.
intros Hip Hcalls Hpass.
assert (Hnone : attempts (snd (serve maxAttempts windowMs a st)) !! ip (a_req a) = None).
{ revert Hpass. unfold serve, authRateLimit. rewrite Hcalls.
  destruct (attempts (evict windowMs (a_now a) st) !! ip (a_req a)) as [l|];
    [destruct (heap (evict windowMs (a_now a) st) !! l) as [e|];
     [destruct (Nat.leb maxAttempts (count e)); [discriminate|]|]|];
    intros _; cbn [snd List.fold_left perform clearFailedAttempts attempts h_ip];
    apply lookup_delete_eq. }
split; [exact Hnone|].
unfold serve at 1, authRateLimit. rewrite Hip.
assert (E : attempts (evict windowMs (a_now b) (snd (serve maxAttempts windowMs a st)))
            !! ip (a_req a) = None).
{ unfold evict. cbn [attempts]. apply map_lookup_filter_None. auto. }
rewrite E. reflexivity.
Qed.

(** X15: a request refused by the limiter is told a number of minutes, in
  the field [timeLeft] of the 429 answer (API clients) or in the message
  of the login page (browsers), that is non-negative and is the
  remaining part of the window rounded up to whole minutes; a request of
  the same address that arrives later than that many minutes after the
  refusal passes. *)
Theorem blocked_hint_covers_window (a : arrival) (st : limiter) (l : loc) (e : entry) :
let left := timeLeft windowMs (a_now a) (firstAttempt e) in
let remaining := (windowMs - (a_now a - firstAttempt e))%Z in
holds st (ip (a_req a)) l e ->
maxAttempts <= count e ->
(a_now a - firstAttempt e <= windowMs)%Z ->
fst (serve maxAttempts windowMs a st)
= Some (if wants_json (a_req a) then
          with_status 429
            (json [ ("error", VStr "Too many login attempts");
                    ("timeLeft", VNum left) ])
        else
          render "login"
            [ ("title", VStr "Login");
              ("error",
               VStr ("Too many login attempts. Please try again in "
                     ++ show left ++ " minutes.")%string) ])
/\ (0 <= left)%Z
/\ (60000 * (left - 1) < remaining <= 60000 * left)%Z
/\ forall b, ip (a_req b) = ip (a_req a) ->
     (a_now a + 60000 * left < a_now b)%Z ->
     fst (serve maxAttempts windowMs b (snd (serve maxAttempts windowMs a st))) = None.
Proof.
intros left remaining Hst Hmax Hin.
destruct (serve_refuses maxAttempts windowMs a st l e Hst Hmax Hin) as [Hr Hk].
destruct (timeLeft_bounds windowMs (a_now a) (firstAttempt e) Hin) as [Hpos Hceil].
fold left remaining in Hpos, Hceil.
split; [exact Hr|]. split; [exact Hpos|]. split; [exact Hceil|].
intros b Hip Hlater.
apply (serve_after_rollover maxAttempts windowMs b _ l e).
- rewrite Hip. exact Hk.
- subst remaining. lia.
Qed.

End InterleavingFacts.

Section SanitizeFacts.
Import Validator.

Lemma strip_angle_clean (s : string) :
Js.all_chars (fun c => negb (Nat.eqb (Js.code c) 60 || Nat.eqb (Js.code c) 62))
  (Js.strip_angle s) = true.
Proof.
induction s as [|c r IH]; simpl; [reflexivity|].
destruct (Nat.eqb (Js.code c) 60 || Nat.eqb (Js.code c) 62) eqn:E; [exact IH|].
simpl. rewrite E, IH. reflexivity.
Qed.

Lemma strip_angle_length (s : string) :
String.length (Js.strip_angle s) <= String.length s.
Proof.
induction s as [|c r IH]; simpl; [lia|].
destruct (Nat.eqb (Js.code c) 60 || Nat.eqb (Js.code c) 62); simpl; lia.
Qed.

Lemma strip_angle_id (s : string) :
Js.all_chars (fun c => negb (Nat.eqb (Js.code c) 60 || Nat.eqb (Js.code c) 62)) s
= true ->
Js.strip_angle s = s.
Proof.
induction s as [|c r IH]; simpl; [reflexivity|].
destruct (Nat.eqb (Js.code c) 60 || Nat.eqb (Js.code c) 62); simpl; [discriminate|].
intros Hr. rewrite (IH Hr). reflexivity.
Qed.

End SanitizeFacts.

Section MiddlewareRegisterFacts.
Context `{Libraries}.
Import Exn Store Http Validator.

#[local] Arguments is_length : simpl never.
#[local] Arguments Js.trim : simpl never.
#[local] Arguments Js.strip_angle : simpl never.
#[local] Arguments Js.re_username : simpl never.

Lemma run_items_reads name opt b l :
Forall reading_item l -> forall v, reads_only (run_items name opt b l v).
Proof.
induction 1 as [|i l Hi Hl IH]; intros v w; simpl; [reflexivity|].
destruct (opt && falsy v); [apply IH|].
destruct i as [f|t m]; [apply IH|].
simpl in Hi. specialize (Hi v b w).
destruct (t v b w) as [[[]|thrown] w1]; cbn [snd] in Hi.
- rewrite (IH v w1). exact Hi.
- specialize (IH v w1).
  destruct (run_items name opt b l v w1) as [[v' errs] w2]. cbn [snd] in *.
  congruence.
Qed.

Lemma run_chains_reads l :
Forall reading_chain l -> forall b, reads_only (run_chains l b).
Proof.
induction 1 as [|c l Hc Hl IH]; intros b w; simpl; [reflexivity|].
assert (Hone : data (w_pool (snd (run_chain c b w))) = data (w_pool w)).
{ unfold run_chain.
  pose proof (run_items_reads (field c) (is_optional (steps c)) b _ Hc
                (b !! field c) w) as Hr.
  destruct (run_items _ _ _ _ _ _) as [[v' errs] w']. exact Hr. }
destruct (run_chain c b w) as [[b1 e1] w1]. cbn [snd] in Hone.
specialize (IH b1 w1).
destruct (run_chains l b1 w1) as [[b2 e2] w2]. cbn [snd] in *. congruence.
Qed.

Lemma standard_reads (p : string -> bool) v b : reads_only (standard p v b).
Proof. intros w. unfold standard. destruct (p (to_str v)); reflexivity. Qed.

Lemma middleware_register_reads :
Forall reading_chain ValidationMiddleware.registerValidation.
Proof.
unfold ValidationMiddleware.registerValidation, reading_chain.
repeat (first [apply List.Forall_nil | apply List.Forall_cons]); simpl;
  repeat (first [apply List.Forall_nil | apply List.Forall_cons]); simpl;
  try exact I; intros v b; try apply standard_reads.
- read_only.
- read_only.
- intros w. destruct (negb _); reflexivity.
- intros w. unfold ValidationMiddleware.passwords_match.
  destruct (decide _); reflexivity.
Qed.

(** X16: when the store answers, the chains [registerValidation] of
  middleware/validation.js report [Username is already taken] exactly
  when the submitted username, trimmed and stripped of [<] and [>],
  selects a stored account; running the chains does not write to the
  store. *)
Theorem middleware_reports_taken_username (b : fields) (w : world) (raw : string) :
let name := Js.strip_angle (Js.trim raw) in
let errors := snd (fst (run_chains ValidationMiddleware.registerValidation b w)) in
b !! "username" = Some raw ->
next_fault (w_pool w) = None ->
(In username_taken errors <-> select_users_by_username name (data (w_pool w)) <> [])
/\ data (w_pool (snd (run_chains ValidationMiddleware.registerValidation b w)))
   = data (w_pool w).
Proof.
intros name errors Hb Hf. split; [|apply run_chains_reads, middleware_register_reads].
subst errors. unfold ValidationMiddleware.registerValidation.
match goal with |- context [run_chains (?c :: ?l) b w] =>
  rewrite (run_chains_field [] c l b w username_taken eq_refl)
end; [|constructor|distinct_fields].
cbn [run_chains fst snd].
unfold run_chain. simpl. rewrite Hb. simpl.
unfold standard, bind, defined, ret, throw, query, execute, next_fault in *.
fold name.
do 2 (match goal with |- context [if ?c then _ else _] => destruct c end;
      cbv beta iota zeta);
  (destruct (faults (w_pool w)) as [|[fault|] rest]; [|discriminate|]);
  cbv beta iota zeta; cbn [w_pool data];
  match goal with |- context [AuthRoutes.is_nil ?l] => destruct l as [|u others] end;
  cbn; (split; [intros Hx|intros Hx]);
  repeat match goal with
  | Hx : _ \/ _ |- _ => destruct Hx as [Hx|Hx]
  | Hx : False |- _ => destruct Hx
  | Hx : _ = username_taken |- _ => discriminate Hx
  end;
  try congruence; try discriminate; auto 6.
Qed.

End MiddlewareRegisterFacts.


Lemma invalid_phase_rejected_witness :
  Http.data
    (Http.w_pool
       (snd (ProjectRoutes.post_add_project (H := Sample.libraries)
               (Sample.post "/add-project" ""
                  [ ("title", "Website"); ("short_description", "A new public website");
                    ("start_date", "2024-03-01"); ("phase", "finished") ])
               w_alice)))
  = Http.data (Http.w_pool w_alice).
Proof.
  destruct (invalid_phase_rejected (H := Sample.libraries)
              (Sample.post "/add-project" ""
                 [ ("title", "Website"); ("short_description", "A new public website");
                   ("start_date", "2024-03-01"); ("phase", "finished") ])
              w_alice) as (_ & Hbad).
  destruct Hbad as (Hadd & _); [vm_compute; reflexivity | exact Hadd].
Defined.

Lemma add_project_creates_witness :
  fst (ProjectRoutes.post_add_project (H := Sample.libraries) add_project_more w_alice)
  = Http.redirect "/dashboard".
Proof.
  destruct (add_project_creates (H := Sample.libraries) add_project_more w_alice
              {| Http.su_uid := 1; Http.su_username := "alice";
                 Http.su_email := "alice@example.com" |}
              "One more" "Yet another project" "2024-03-01" "2024-03-01" None
              Store.design)
    as (Hr & _);
    [vm_compute; reflexivity ..
    | exists Sample.alice; split; [left; reflexivity | reflexivity]
    | vm_compute; reflexivity
    | exact Hr].
Defined.

Lemma owner_deletes_project_witness :
  Store.rows
    (Store.projects
       (Http.data
          (Http.w_pool
             (snd (ProjectRoutes.post_delete_project (H := Sample.libraries)
                     delete_site w_alice)))))
  = [].
Proof.
  destruct (owner_deletes_project (H := Sample.libraries) delete_site w_alice
              {| Http.su_uid := 1; Http.su_username := "alice";
                 Http.su_email := "alice@example.com" |} Sample.site)
    as (_ & _ & Hrows & _);
    [ reflexivity
    | repeat constructor; simpl; tauto
    | left; reflexivity
    | vm_compute; reflexivity ..
    | rewrite Hrows; reflexivity ].
Defined.

Lemma owner_edits_project_witness :
  fst (ProjectRoutes.post_edit_project (H := Sample.libraries)
         (Sample.post "/edit-project/1" "1"
            [ ("title", "Web shop"); ("short_description", "The shop, now with search");
              ("start_date", "2024-02-01"); ("phase", "testing") ])
         w_alice)
  = Http.redirect "/dashboard".
Proof.
  destruct (owner_edits_project (H := Sample.libraries)
              (Sample.post "/edit-project/1" "1"
                 [ ("title", "Web shop");
                   ("short_description", "The shop, now with search");
                   ("start_date", "2024-02-01"); ("phase", "testing") ])
              w_alice
              {| Http.su_uid := 1; Http.su_username := "alice";
                 Http.su_email := "alice@example.com" |} Sample.site
              "Web shop" "The shop, now with search" "2024-02-01" "2024-02-01" None
              Store.testing)
    as (Hr & _);
    [ reflexivity
    | repeat constructor; simpl; tauto
    | left; reflexivity
    | vm_compute; reflexivity ..
    | exact Hr ].
Defined.

Lemma ownership_guard_outcomes_witness :
  fst (AuthMiddleware.requireProjectOwnership (H := Sample.libraries) delete_site w_alice)
  = Http.Next.
Proof.
  destruct (ownership_guard_outcomes (H := Sample.libraries) delete_site w_alice
              {| Http.su_uid := 1; Http.su_username := "alice";
                 Http.su_email := "alice@example.com" |})
    as (Hown & _);
    [ reflexivity
    | discriminate
    | reflexivity
    | repeat constructor; simpl; tauto
    | reflexivity
    | ].
  exact (proj1 (Hown Sample.site (or_introl eq_refl) eq_refl)).
Defined.

Lemma csrf_guards_compared_witness :
  Http.csrfToken (Http.w_session w_alice) = Some "7f3a"
  /\ Http.body delete_site_with_token !! "_csrf" = Some "7f3a"
  /\ fst (AuthMiddleware.validateCSRFToken delete_site_with_token w_alice) = Http.Next
  /\ (exists r,
        fst (SecurityMiddleware.csrfProtection "c0de" delete_site_with_token w_alice)
        = Http.Answer r
        /\ Http.status r = 403)
  /\ AuthMiddleware.validateCSRFToken get_site w_alice = (Http.Next, w_alice).
Proof.
  destruct (csrf_guards_compared "c0de" delete_site_with_token w_alice)
    as (_ & _ & Hfield & _).
  destruct (Hfield eq_refl "7f3a") as [Hauth Hsecurity]; try reflexivity.
  destruct (csrf_guards_compared "c0de" get_site w_alice) as (Hget & _).
  split; [reflexivity|]. split; [reflexivity|]. split; [exact Hauth|].
  split; [exact Hsecurity|]. apply Hget. reflexivity.
Defined.

Lemma interleaved_failures_lost_witness :
  exists h1 h2,
    fst (RateLimit.authRateLimit 5 900000 login_attempt 0 RateLimit.fresh_limiter)
    = RateLimit.Pass h1
    /\ fst (RateLimit.authRateLimit 5 900000 login_attempt 1
              (snd (RateLimit.authRateLimit 5 900000 login_attempt 0
                      RateLimit.fresh_limiter)))
       = RateLimit.Pass h2
    /\ holds
         (RateLimit.recordFailedAttempt h2
            (RateLimit.recordFailedAttempt h1
               (snd (RateLimit.authRateLimit 5 900000 login_attempt 1
                       (snd (RateLimit.authRateLimit 5 900000 login_attempt 0
                               RateLimit.fresh_limiter))))))
         "203.0.113.7" (S (RateLimit.next_loc RateLimit.fresh_limiter))
         {| RateLimit.count := 1; RateLimit.firstAttempt := 1 |}.
Proof.
  destruct (interleaved_failures_lost 5 900000 "203.0.113.7" RateLimit.fresh_limiter
              login_attempt login_attempt 0 1 eq_refl) as (Hboth & _).
  apply Hboth; reflexivity.
Defined.

Lemma clear_resets_address_witness :
  fst (RateLimit.serve 5 900000 (failure_at 1)
         (snd (RateLimit.serve 5 900000
                 {| RateLimit.a_req := login_attempt; RateLimit.a_now := 0;
                    RateLimit.a_calls := [RateLimit.ClearFailed] |}
                 (snd (RateLimit.run 5 900000 [failure_at 0] RateLimit.fresh_limiter)))))
  = None.
Proof.
  destruct (clear_resets_address 5 900000
              {| RateLimit.a_req := login_attempt; RateLimit.a_now := 0;
                 RateLimit.a_calls := [RateLimit.ClearFailed] |}
              (failure_at 1)
              (snd (RateLimit.run 5 900000 [failure_at 0] RateLimit.fresh_limiter)))
    as (_ & Hnext); [vm_compute; reflexivity .. | exact Hnext].
Defined.

Lemma blocked_hint_covers_window_witness :
  fst (RateLimit.serve 5 900000 sixth_attempt
         (snd (RateLimit.run 5 900000 five_failures RateLimit.fresh_limiter)))
  = Some (Http.render "login"
            [ ("title", Http.VStr "Login");
              ("error",
               Http.VStr "Too many login attempts. Please try again in 10 minutes.") ]).
Proof.
  destruct (blocked_hint_covers_window 5 900000 sixth_attempt
              (snd (RateLimit.run 5 900000 five_failures RateLimit.fresh_limiter))
              0 {| RateLimit.count := 5; RateLimit.firstAttempt := 0 |})
    as (Hr & _);
    [ split; vm_compute; reflexivity
    | apply le_n
    | vm_compute; discriminate
    | exact Hr ].
Defined.

Lemma middleware_reports_taken_username_witness :
  In username_taken
    (snd (fst (Validator.run_chains (H := Sample.libraries)
                 (ValidationMiddleware.registerValidation (H := Sample.libraries))
                 (Sample.form
                    [ ("username", " <alice> "); ("email", "alice2@example.com");
                      ("password", "Secret1!"); ("confirmPassword", "Secret1!") ])
                 w_anonymous))).
Proof.
  destruct (middleware_reports_taken_username (H := Sample.libraries)
              (Sample.form
                 [ ("username", " <alice> "); ("email", "alice2@example.com");
                   ("password", "Secret1!"); ("confirmPassword", "Secret1!") ])
              w_anonymous " <alice> ") as (Htaken & _);
    [vm_compute; reflexivity .. |].
  apply Htaken. vm_compute. discriminate.
Defined.

(** * Pages, listings and the screens of the input *)

Section StatsFacts.
Context `{Libraries}.
Import Exn Store Http Pages.

Lemma phases_cover (l : list project_row) :
in_phase design l + in_phase development l + in_phase testing l
+ in_phase deployment l + in_phase complete l = List.length l.
Proof.
unfold in_phase. induction l as [|p l IH]; [reflexivity|].
cbn [List.filter List.length]. destruct (p_phase p); cbn; lia.
Qed.

Lemma stats_eq (a b : stats) :
n_design a = n_design b -> n_development a = n_development b ->
n_testing a = n_testing b -> n_deployment a = n_deployment b ->
n_complete a = n_complete b -> n_total a = n_total b -> a = b.
Proof. destruct a, b. cbn. intros. subst. reflexivity. Qed.

Lemma tally_counts (l : list project_row) : tally (group_by_phase l) = counted l.
Proof.
pose proof (phases_cover l) as Hsum.
unfold tally, group_by_phase, counted. cbn [all_phases List.map].
fold (in_phase design l) (in_phase development l) (in_phase testing l)
     (in_phase deployment l) (in_phase complete l).
destruct (in_phase design l) as [|c1], (in_phase development l) as [|c2],
  (in_phase testing l) as [|c3], (in_phase deployment l) as [|c4],
  (in_phase complete l) as [|c5];
  cbn; apply stats_eq; cbn; lia.
Qed.

Lemma dashboard_counts (l : list project_row) (n : nat) :
List.fold_left (fun s g => set_stat (fst g) (snd g) s) (group_by_phase l) (zero_stats n)
= {| n_design := in_phase design l; n_development := in_phase development l;
     n_testing := in_phase testing l; n_deployment := in_phase deployment l;
     n_complete := in_phase complete l; n_total := n |}.
Proof.
unfold group_by_phase. cbn [all_phases List.map].
fold (in_phase design l) (in_phase development l) (in_phase testing l)
     (in_phase deployment l) (in_phase complete l).
destruct (in_phase design l) as [|c1], (in_phase development l) as [|c2],
  (in_phase testing l) as [|c3], (in_phase deployment l) as [|c4],
  (in_phase complete l) as [|c5];
  cbn; reflexivity.
Qed.

(** X17: when the store answers, the public [GET /api/stats] reports for
  each phase the number of projects in it and as total the number of
  all projects, and the owner's [GET /api/stats] reports the same of the
  session user's projects; in such a report the five phase counts add up
  to the total. *)
Theorem stats_add_up (req : request) (w : world) :
faults (w_pool w) = [] ->
fst (get_public_stats req w) = data_ (Stats (counted (rows (projects (data (w_pool w))))))
/\ (forall u, user (w_session w) = Some u ->
      let mine := List.filter (fun p => Nat.eqb (p_uid p) (su_uid u))
                    (rows (projects (data (w_pool w)))) in
      fst (get_user_stats req w) = data_ (Stats (counted mine))
      /\ n_total (counted mine) = count_projects_of (su_uid u) (data (w_pool w)))
/\ (forall l, n_design (counted l) + n_development (counted l) + n_testing (counted l)
              + n_deployment (counted l) + n_complete (counted l)
              = n_total (counted l)).
Proof.
intros Hf. split; [|split].
- unfold get_public_stats, try_catch, bind, ret, query, execute.
  rewrite Hf. cbn [fst]. unfold select_stats. rewrite tally_counts. reflexivity.
- intros u Hu mine. split; [|reflexivity].
  unfold get_user_stats, guarded, AuthRoutes.requireAuth, AuthRoutes.logged_in,
    try_catch, bind, ret, query, execute, ProjectRoutes.session_user_of.
  rewrite Hu. cbv beta iota zeta. rewrite Hu. cbv beta iota zeta. rewrite Hf.
  cbn [fst]. unfold select_stats_of. rewrite tally_counts. reflexivity.
- intros l. apply phases_cover.
Qed.

Lemma dashboard_answers (req : request) (w : world) (u : session_user) :
user (w_session w) = Some u ->
faults (w_pool w) = [] ->
exists locals,
  get_dashboard req w
  = (view "dashboard" locals,
     {| w_session := clear_flash (w_session w);
        w_pool := {| data := data (w_pool w); clock := clock (w_pool w);
                     faults := [] |} |})
  /\ In ("successMessage", Plain (text_or_null (successMessage (w_session w)))) locals
  /\ In ("errorMessage", Plain (text_or_null (errorMessage (w_session w)))) locals.
Proof.
intros Hu Hf.
unfold get_dashboard, guarded, AuthRoutes.requireAuth, AuthRoutes.logged_in,
  try_catch, bind, ret, query, execute, ProjectRoutes.session_user_of,
  get_session, modify_session, with_session.
repeat (cbv beta iota zeta; rewrite ?Hu, ?Hf;
        cbn [fst snd w_session w_pool faults data clock]).
eexists. split; [reflexivity|]. cbn. auto 10.
Qed.

(** X18: flash messages are shown once.  For a logged-in user, when the
  store answers, [GET /dashboard] passes the two messages of the session
  to the view and removes both from the session, so that the next
  [GET /dashboard] shows none; when the first statement fails the answer
  has status 500 and the messages stay in the session.  In no case is
  the data written. *)
Theorem dashboard_flash_once (req : request) (w : world) (u : session_user) :
let w' := snd (get_dashboard req w) in
user (w_session w) = Some u ->
(faults (w_pool w) = [] ->
 (exists locals,
    fst (get_dashboard req w) = view "dashboard" locals
    /\ In ("successMessage", Plain (text_or_null (successMessage (w_session w)))) locals
    /\ In ("errorMessage", Plain (text_or_null (errorMessage (w_session w)))) locals)
 /\ w_session w' = clear_flash (w_session w)
 /\ exists locals',
      fst (get_dashboard req w') = view "dashboard" locals'
      /\ In ("successMessage", Plain VNull) locals'
      /\ In ("errorMessage", Plain VNull) locals')
/\ (forall e, next_fault (w_pool w) = Some e ->
      pg_status (fst (get_dashboard req w)) = 500
      /\ w_session w' = w_session w)
/\ data (w_pool w') = data (w_pool w).
Proof.
intros w' Hu. subst w'. split; [|split].
- intros Hf.
  destruct (dashboard_answers req w u Hu Hf) as (locals & E & Hs & He).
  rewrite E. cbn [fst snd].
  split; [eauto|]. split; [reflexivity|].
  match goal with |- context [get_dashboard req ?w1] =>
    destruct (dashboard_answers req w1 u Hu eq_refl) as (locals' & E' & Hs' & He')
  end.
  rewrite E'. cbn [fst]. exists locals'. auto.
- intros e Hf.
  unfold get_dashboard, guarded, AuthRoutes.requireAuth, AuthRoutes.logged_in,
    try_catch, bind, ret, query, execute, ProjectRoutes.session_user_of,
    next_fault in *.
  repeat (cbv beta iota zeta; rewrite ?Hu).
  cbv beta iota zeta.
  destruct (faults (w_pool w)) as [|[fault|] rest]; try discriminate.
  split; reflexivity.
- unfold get_dashboard, guarded, AuthRoutes.requireAuth, AuthRoutes.logged_in,
    try_catch, bind, ret, query, execute, ProjectRoutes.session_user_of,
    get_session, modify_session.
  repeat (cbv beta iota zeta; rewrite ?Hu).
  cbv beta iota zeta.
  destruct (faults (w_pool w)) as [|[fault|] rest]; cbv beta iota zeta;
    cbn [fst snd w_session w_pool faults data with_session]; try reflexivity;
    destruct rest as [|[fault'|] rest']; reflexivity.
Qed.

End StatsFacts.

Section PagingFacts.



End PagingFacts.

Section ListingFacts.
Context `{Libraries} `{Builtins}.
Import Exn Store Http Pages Listings.



Lemma filter_length_le {A} (f g : A -> bool) (l : list A) :
(forall x, f x = true -> g x = true) ->
List.length (List.filter f l) <= List.length (List.filter g l).
Proof.
intros Hfg. induction l as [|x l IH]; [reflexivity|].
cbn [List.filter]. destruct (f x) eqn:E.
- rewrite (Hfg x E). cbn. lia.
- destruct (g x); cbn; lia.
Qed.

(** What [GET /search] answers when the store carries the two statements
  out and the page number is positive. *)
Lemma search_handler_answers (query : gmap string string) (errors : list verror)
  (req : request) (w : world) :
faults (w_pool w) = [] ->
(1 <= page_number (parseInt (query !! "page")))%Z ->
exists locals,
  fst (search_handler query errors req w) = view "search-results" locals
  /\ In ("totalCount",
         number (Z.of_nat
                   (List.length
                      (search_rows
                         (conditions (query !! "query") (query !! "date")
                            (query !! "phase"))
                         (data (w_pool w)))))) locals
  /\ In ("errors", Plain (VErrors errors)) locals.
Proof.
intros Hf Hpage.
unfold search_handler, try_catch, bind, ret, Http.query, execute.
cbv beta iota zeta. rewrite Hf. unfold paged, limit.
replace (Z.ltb 12 0 || Z.ltb ((page_number (parseInt (query !! "page")) - 1) * 12) 0)
  with false
  by (symmetry; apply orb_false_intro; [reflexivity|apply Z.ltb_ge; lia]).
cbn [fst snd w_pool data faults].
eexists. split; [reflexivity|]. cbn. auto 20.
Qed.

(** X20: in [GET /search] the conditions are joined by OR, so a phase
  filter widens a search: adding a phase to a query that has a text or
  a date condition never lowers [totalCount], and every project of that
  phase is then counted, whether or not it matches the text or the
  date. *)
Theorem search_phase_widens (query : gmap string string) (p : string)
  (errors : list verror) (req : request) (w : world) :
let wider := <["phase" := p]> query in
query !! "phase" = None ->
Js.is_empty p = false ->
conditions (query !! "query") (query !! "date") None <> [] ->
faults (w_pool w) = [] ->
(1 <= page_number (parseInt (query !! "page")))%Z ->
exists c c' locals locals',
  fst (search_handler query errors req w) = view "search-results" locals
  /\ In ("totalCount", number (Z.of_nat c)) locals
  /\ fst (search_handler wider errors req w) = view "search-results" locals'
  /\ In ("totalCount", number (Z.of_nat c')) locals'
  /\ c <= c'
  /\ List.length (List.filter (fun r => in_phase_text p (fst r))
                    (joined (data (w_pool w)))) <= c'.
Proof.
intros wider Hnone Hp Hconds Hf Hpage.
assert (Hq : wider !! "query" = query !! "query")
  by (apply lookup_insert_ne; discriminate).
assert (Hd : wider !! "date" = query !! "date")
  by (apply lookup_insert_ne; discriminate).
assert (Hg : wider !! "page" = query !! "page")
  by (apply lookup_insert_ne; discriminate).
assert (Hph : wider !! "phase" = Some p) by apply lookup_insert_eq.
destruct (search_handler_answers query errors req w Hf Hpage)
  as (locals & E & Hc & _).
destruct (search_handler_answers wider errors req w Hf) as (locals' & E' & Hc' & _).
{ rewrite Hg. exact Hpage. }
rewrite Hq, Hd, Hph in Hc'. rewrite Hnone in Hc.
eexists _, _, locals, locals'.
split; [exact E|]. split; [exact Hc|]. split; [exact E'|]. split; [exact Hc'|].
set (narrow := conditions (query !! "query") (query !! "date") None) in *.
assert (Hwide : conditions (query !! "query") (query !! "date") (Some p)
                = narrow ++ [fun r => in_phase_text p (fst r)]).
{ subst narrow. unfold conditions. cbn [Validator.falsy Validator.to_str].
  rewrite Hp. cbn [negb]. rewrite !app_nil_r, app_assoc. reflexivity. }
rewrite Hwide.
assert (Hshape : forall l, search_rows (narrow ++ [fun r => in_phase_text p (fst r)]) l
                 = List.filter
                     (fun r => List.existsb (fun c => c r)
                                 (narrow ++ [fun r => in_phase_text p (fst r)]))
                     (joined l)).
{ intros l. unfold search_rows.
  destruct (narrow ++ _) eqn:En; [|reflexivity].
  apply app_eq_nil in En as [_ En]. discriminate. }
rewrite Hshape. split.
- unfold search_rows. destruct narrow as [|c0 rest] eqn:En; [congruence|].
  apply filter_length_le. intros r Hr.
  rewrite List.existsb_app, Hr. reflexivity.
- apply filter_length_le. intros r Hr.
  rewrite List.existsb_app. cbn [List.existsb]. rewrite Hr.
  rewrite !orb_true_r. reflexivity.
Qed.

End ListingFacts.

Section TimeoutFacts.
Import Http SessionGuards.

Lemma last_cons {A} (x d : A) (l : list A) :
  List.last (x :: l) d = List.last l x.
Proof.
  revert x d. induction l as [|y l IH]; intros x d; [reflexivity|].
  change (List.last (x :: y :: l) d) with (List.last (y :: l) d).
  rewrite !IH. reflexivity.
Qed.

Lemma visits_paced (req : request) (hits : list (Z * Z)) (s : timed) :
  AuthRoutes.logged_in (t_session s) = true ->
  paced (t_lastActivity s) hits ->
  fst (visits req hits s) = List.map (fun _ => Next) hits
  /\ t_session (snd (visits req hits s)) = t_session s
  /\ t_lastActivity (snd (visits req hits s))
     = List.last (List.map (fun h => Some (snd h)) hits) (t_lastActivity s).
Proof.
  revert s. induction hits as [|[now later] rest IH]; intros s Hl Hp.
  - repeat split.
  - destruct Hp as [Hgap Hp].
    cbn [visits].
    assert (Hc : checkSessionTimeout req now later s
                 = (Next, {| t_session := t_session s; t_lastActivity := Some later |})).
    { unfold checkSessionTimeout. rewrite Hl.
      destruct (t_lastActivity s) as [l|]; cbn [truthy_time andb].
      - apply Z.ltb_ge in Hgap. rewrite Hgap, andb_false_r. reflexivity.
      - reflexivity. }
    rewrite Hc.
    specialize (IH {| t_session := t_session s; t_lastActivity := Some later |} Hl Hp).
    destruct (visits req rest _) as [vs s2]. cbn [fst snd t_session t_lastActivity] in *.
    destruct IH as (-> & -> & ->). repeat split.
    cbn [List.map snd]. symmetry. apply last_cons.
Qed.

(** X21: the limit of 24 hours of [checkSessionTimeout] is on the time
    between two requests, not on the age of the session: a logged-in
    client whose requests follow each other within 24 hours is let
    through every time, with the session unchanged and the time of the
    last request recorded; a request that comes more than 24 hours
    after the recorded time is answered 401 (API clients) or a redirect
    to [/login?message=session-expired], and the session is gone. *)
Theorem session_limit_slides (req : request) (s : timed) :
  AuthRoutes.logged_in (t_session s) = true ->
  (forall hits, paced (t_lastActivity s) hits ->
     fst (visits req hits s) = List.map (fun _ => Next) hits
     /\ t_session (snd (visits req hits s)) = t_session s
     /\ t_lastActivity (snd (visits req hits s))
        = List.last (List.map (fun h => Some (snd h)) hits) (t_lastActivity s))
  /\ (forall now later last,
        t_lastActivity s = Some last -> last <> 0%Z ->
        (sessionTimeout < now - last)%Z ->
        exists r, checkSessionTimeout req now later s = (Answer r, fresh)
          /\ r = (if wants_json req
                  then with_status 401
                         (json [ ("error", VStr "Session expired");
                                 ("redirectTo", VStr "/login") ])
                  else redirect "/login?message=session-expired")
          /\ AuthRoutes.logged_in (t_session fresh) = false).
Proof.
  intros Hl. split.
  - intros hits Hp. apply visits_paced; assumption.
  - intros now later last Hlast Hnz Hgap.
    unfold checkSessionTimeout. rewrite Hl, Hlast. cbn [truthy_time andb].
    apply Z.eqb_neq in Hnz. rewrite Hnz. apply Z.ltb_lt in Hgap. rewrite Hgap.
    cbn [negb andb]. destruct (wants_json req); eexists; repeat split.
Qed.

End TimeoutFacts.

Section RedirectFacts.
Import Http ValidationGuards.
Local Open Scope string_scope.

Lemma before_free (c : ascii) (s : string) : free_of c (before c s).
Proof.
  unfold free_of. induction s as [|a r IH]; cbn [before Js.some_char]; [reflexivity|].
  destruct (Ascii.eqb a c) eqn:E; cbn [before Js.some_char]; [reflexivity|].
  rewrite Ascii.eqb_sym, E. exact IH.
Qed.

Lemma before_id (c : ascii) (s : string) : free_of c s -> before c s = s.
Proof.
  unfold free_of. induction s as [|a r IH]; cbn [before Js.some_char]; [reflexivity|].
  rewrite (Ascii.eqb_sym c a). destruct (Ascii.eqb a c); cbn [orb]; [discriminate|].
  intros Hr. rewrite (IH Hr). reflexivity.
Qed.

Lemma before_app (c : ascii) (s t : string) :
  before c (s ++ String c t) = before c s.
Proof.
  induction s as [|a r IH].
  - change (before c (String c t) = EmptyString). cbn [before].
    rewrite Ascii.eqb_refl. reflexivity.
  - change (before c (String a (r ++ String c t)) = before c (String a r)).
    cbn [before]. destruct (Ascii.eqb a c); [reflexivity|]. rewrite IH. reflexivity.
Qed.

Lemma before_free_other (c d : ascii) (s : string) :
  free_of d s -> free_of d (before c s).
Proof.
  unfold free_of. induction s as [|a r IH]; cbn [before Js.some_char]; [reflexivity|].
  destruct (Ascii.eqb a c); cbn [before Js.some_char]; [reflexivity|].
  destruct (Ascii.eqb d a); cbn [orb]; [discriminate|]. exact IH.
Qed.

Lemma prefix_app (needle t : string) :
  String.prefix needle (needle ++ t)%string = true.
Proof.
  induction needle as [|c n IH]; [destruct t; reflexivity|].
  change (String.prefix (String c n) (String c (n ++ t)%string) = true).
  cbn [String.prefix]. destruct (ascii_dec c c); [exact IH|congruence].
Qed.

Lemma includes_head (needle hay : string) :
  String.prefix needle hay = true -> Js.includes needle hay = true.
Proof. intros Hp. destruct hay; cbn [Js.includes]; rewrite Hp; reflexivity. Qed.

Lemma includes_app (needle s t : string) :
  Js.includes needle (s ++ needle ++ t)%string = true.
Proof.
  induction s as [|a r IH].
  - change (Js.includes needle (needle ++ t)%string = true).
    apply includes_head, prefix_app.
  - change (Js.includes needle (String a (r ++ needle ++ t)%string) = true).
    cbn [Js.includes]. rewrite IH.
    destruct (String.prefix _ _); reflexivity.
Qed.

Lemma includes_free (c : ascii) (rest s : string) :
  free_of c s -> Js.includes (String c rest) s = false.
Proof.
  unfold free_of. induction s as [|a r IH]; cbn [Js.includes Js.some_char String.prefix];
    [reflexivity|].
  destruct (ascii_dec c a) as [->|Hne].
  - rewrite Ascii.eqb_refl. discriminate.
  - apply Ascii.eqb_neq in Hne. rewrite Hne. cbn [orb]. exact IH.
Qed.

Lemma bare_free (u : string) : free_of "?" (bare u) /\ free_of "#" (bare u).
Proof.
  split.
  - apply before_free_other, before_free.
  - apply before_free.
Qed.

Lemma target_of_target (fallback : string) (v : string) :
  redirect_target fallback (Some (v ++ "?error=validation"))
  = (bare v ++ "?error=validation")%string.
Proof.
  unfold redirect_target.
  assert (Hf : Validator.falsy (Some (v ++ "?error=validation")) = false).
  { unfold Validator.falsy. destruct v; reflexivity. }
  rewrite Hf. cbn [Validator.to_str].
  change (v ++ "?error=validation")%string
    with (v ++ "?error=" ++ "validation")%string at 1.
  rewrite includes_app. cbn [orb].
  change (v ++ "?error=validation")%string
    with (v ++ String "?" "error=validation")%string.
  rewrite before_app. reflexivity.
Qed.

Lemma target_shape (fallback : string) (referer : option string) :
  exists v, redirect_target fallback referer = (v ++ "?error=validation")%string.
Proof. unfold redirect_target. eexists. reflexivity. Qed.

Lemma bare_id (u : string) : free_of "?" u -> free_of "#" u -> bare u = u.
Proof.
  intros Hq Hh. unfold bare. rewrite (before_id "?" u Hq). apply before_id, Hh.
Qed.

(** X22: [handleValidationErrors] calls [next()] without errors, answers
    API clients 400 with the errors and the session untouched, and sends
    browsers back to the referring page with the errors and the form
    kept in the session.  The address it redirects to settles: followed
    once more it is the referring address without query and fragment
    plus [?error=validation], and then it stays the same; for a
    referring address without [?] and [#] it is that address plus
    [?error=validation] from the start. *)
Theorem validation_redirect_settles (req : request) (referer : option string)
    (errors : list verror) (s : form_session) :
  let target := redirect_target "/" referer in
  (errors = [] -> handleValidationErrors req referer errors s = (Next, s))
  /\ (errors <> [] -> wants_json req = true ->
      handleValidationErrors req referer errors s
      = (Answer (with_status 400
                   (json [ ("success", VBool false); ("errors", VErrors errors) ])), s))
  /\ (errors <> [] -> wants_json req = false ->
      handleValidationErrors req referer errors s
      = (Answer (redirect target),
         {| f_session := f_session s;
            f_validationErrors := Some errors;
            f_formData := Some (body req) |}))
  /\ (let again := redirect_target "/" (Some target) in
      redirect_target "/" (Some again) = again
      /\ exists page, again = page ++ "?error=validation"
           /\ free_of "?" page /\ free_of "#" page)
  /\ (forall u, referer = Some u -> u <> EmptyString ->
      free_of "?" u -> free_of "#" u ->
      target = u ++ "?error=validation"
      /\ redirect_target "/" (Some target) = target).
Proof.
  intros target. unfold handleValidationErrors.
  split; [intros ->; reflexivity|].
  split; [intros He Hj; destruct errors; [congruence|]; cbn [AuthRoutes.is_nil];
          rewrite Hj; reflexivity|].
  split; [intros He Hj; destruct errors; [congruence|]; cbn [AuthRoutes.is_nil];
          rewrite Hj; reflexivity|].
  split.
  - destruct (target_shape "/" referer) as [v Hv]. subst target. rewrite Hv.
    cbv zeta. rewrite !target_of_target.
    destruct (bare_free v) as [Hq Hh].
    split; [rewrite (bare_id _ Hq Hh); reflexivity|].
    exists (bare v). repeat split; assumption.
  - intros u -> Hne Hq Hh. subst target.
    assert (Ht : redirect_target "/" (Some u) = u ++ "?error=validation").
    { unfold redirect_target.
      assert (Hf : Validator.falsy (Some u) = false).
      { unfold Validator.falsy. destruct u; [congruence|reflexivity]. }
      rewrite Hf. cbn [Validator.to_str].
      rewrite (includes_free "?" "error=" u Hq), (includes_free "#" "" u Hh).
      reflexivity. }
    split; [exact Ht|]. rewrite Ht, target_of_target, (bare_id _ Hq Hh).
    reflexivity.
Qed.

End RedirectFacts.

Section SanitizeRequestFacts.
Import Http ValidationGuards.

Lemma strip_angle_free (s : string) : angle_free (Js.strip_angle s) = true.
Proof. apply strip_angle_clean. Qed.

Lemma trim_start_shorter (s : string) :
  String.length (Js.trim_start s) <= String.length s.
Proof.
  induction s as [|c r IH]; simpl; [lia|].
  destruct (Js.is_space c); simpl; lia.
Qed.

Lemma trim_end_shorter (s : string) :
  String.length (Js.trim_end s) <= String.length s.
Proof.
  induction s as [|c r IH]; simpl; [lia|].
  destruct (Js.is_empty (Js.trim_end r) && Js.is_space c); simpl; lia.
Qed.

Lemma sanitize_text_shorter (s : string) :
  String.length (sanitize_text s) <= String.length s.
Proof.
  unfold sanitize_text, Js.trim.
  pose proof (strip_angle_length (Js.trim_end (Js.trim_start s))).
  pose proof (trim_end_shorter (Js.trim_start s)).
  pose proof (trim_start_shorter s). lia.
Qed.

(** X23: [sanitizeRequest] replaces every query parameter that is a
    string, and every body field that is a string other than [password]
    and [confirmPassword], by its trimmed text without [<] and [>], never
    longer than it was; it keeps the two password fields and every value
    that is not a string exactly as sent, and adds no key; afterwards no
    string among the query parameters and the other body fields contains
    [<] or [>]. *)
Theorem sanitize_request_fields (query body : gmap string posted) :
  let query' := fst (sanitizeRequest query body) in
  let body' := snd (sanitizeRequest query body) in
  (forall key s, query !! key = Some (IsString s) ->
      query' !! key = Some (IsString (Js.strip_angle (Js.trim s))))
  /\ (forall key s, key <> "password" -> key <> "confirmPassword" ->
        body !! key = Some (IsString s) ->
        body' !! key = Some (IsString (Js.strip_angle (Js.trim s))))
  /\ (forall key, key = "password" \/ key = "confirmPassword" ->
        body' !! key = body !! key)
  /\ (forall key shown,
        (query !! key = Some (NotString shown) ->
         query' !! key = Some (NotString shown))
        /\ (body !! key = Some (NotString shown) ->
            body' !! key = Some (NotString shown)))
  /\ (forall key,
        (query !! key = None -> query' !! key = None)
        /\ (body !! key = None -> body' !! key = None))
  /\ (forall key s, query' !! key = Some (IsString s) -> angle_free s = true)
  /\ (forall key s, key <> "password" -> key <> "confirmPassword" ->
        body' !! key = Some (IsString s) -> angle_free s = true)
  /\ (forall raw, ValidationMiddleware.sanitizeInput (Some raw)
                  = Some (Js.strip_angle (Js.trim raw))
                  /\ String.length (Js.strip_angle (Js.trim raw))
                     <= String.length raw).
Proof.
  cbv zeta. unfold sanitizeRequest. cbn [fst snd].
  split; [|split; [|split; [|split; [|split; [|split; [|split]]]]]].
  - intros key s Hq. rewrite map_lookup_imap, Hq. reflexivity.
  - intros key s H1 H2 Hb. rewrite map_lookup_imap, Hb. cbn.
    apply String.eqb_neq in H1, H2. rewrite H1, H2. reflexivity.
  - intros key Hk. rewrite map_lookup_imap.
    destruct (body !! key) as [[s|shown]|]; [|reflexivity|reflexivity]. cbn.
    destruct Hk as [-> | ->]; reflexivity.
  - intros key shown. split; intros Hx; rewrite map_lookup_imap, Hx; reflexivity.
  - intros key. split; intros Hx; rewrite map_lookup_imap, Hx; reflexivity.
  - intros key s. rewrite map_lookup_imap.
    destruct (query !! key) as [[s'|shown]|]; cbn; try discriminate.
    intros [= <-]. apply strip_angle_free.
  - intros key s H1 H2. rewrite map_lookup_imap.
    destruct (body !! key) as [[s'|shown]|]; cbn; try discriminate.
    apply String.eqb_neq in H1, H2. rewrite H1, H2. cbn.
    intros [= <-]. apply strip_angle_free.
  - intros raw. split; [reflexivity|]. apply sanitize_text_shorter.
Qed.

End SanitizeRequestFacts.

Section ScreenFacts.
Import Http SecurityGuards.
Local Open Scope string_scope.

Lemma input_rect' (P : input -> Prop)
    (HT : forall s, P (Text s))
    (HN : forall l, List.Forall (fun kv => P (snd kv)) l -> P (Nested l))
    (HO : P Other) :
  forall v, P v.
Proof.
  exact (fix go (v : input) : P v :=
           match v with
           | Text s => HT s
           | Nested l =>
               HN l ((fix all (l : list (string * input))
                        : List.Forall (fun kv => P (snd kv)) l :=
                        match l with
                        | [] => List.Forall_nil _
                        | (k, x) :: rest =>
                            @List.Forall_cons _ (fun kv => P (snd kv)) (k, x) rest
                              (go x) (all rest)
                        end) l)
           | Other => HO
           end).
Qed.

Lemma checkValue_texts (v : input) :
  checkValue v = List.existsb checkForSQLInjection (texts v).
Proof.
  induction v as [s|l IH|] using input_rect'.
  - cbn. rewrite orb_false_r. reflexivity.
  - induction IH as [|[k x] rest Hx _ IHrest]; [reflexivity|].
    cbn [snd] in Hx.
    change (checkValue (Nested ((k, x) :: rest)))
      with (checkValue x || checkValue (Nested rest)).
    change (texts (Nested ((k, x) :: rest)))
      with (texts x ++ texts (Nested rest))%list.
    rewrite List.existsb_app, Hx, IHrest. reflexivity.
  - reflexivity.
Qed.

Lemma suspicious_texts (part : option (list (string * input))) :
  suspicious part = List.existsb checkForSQLInjection (texts_of part).
Proof. destruct part; [apply checkValue_texts|reflexivity]. Qed.

Lemma after_word_app (word mid post : string) :
  after_word word mid = Some EmptyString ->
  after_word word (mid ++ post) = Some post.
Proof.
  revert mid. induction word as [|a word IH]; intros mid.
  - cbn. destruct mid; [|intros [=]]. intros _. destruct post; reflexivity.
  - destruct mid as [|b mid]; [intros [=]|].
    change (String b mid ++ post) with (String b (mid ++ post)).
    cbn [after_word]. destruct (Ascii.eqb _ _); [apply IH|intros [=]].
Qed.

Lemma has_statement_here (pre mid post word : string) (inside : bool) :
  List.In word statements ->
  after_word word mid = Some EmptyString ->
  (if Js.is_empty pre then inside else ends_in_word_char pre) = false ->
  starts_with_word_char post = false ->
  has_statement inside (pre ++ mid ++ post) = true.
Proof.
  intros Hw Hm Hpre Hpost. revert inside Hpre.
  induction pre as [|c r IH]; intros inside Hpre.
  - cbn [Js.is_empty] in Hpre. subst inside.
    change (EmptyString ++ mid ++ post) with (mid ++ post).
    assert (He : List.existsb
              (fun word => match after_word word (mid ++ post) with
                           | Some rest => negb (starts_with_word_char rest)
                           | None => false
                           end) statements = true).
    { apply List.existsb_exists. exists word. split; [exact Hw|].
      rewrite (after_word_app _ _ _ Hm), Hpost. reflexivity. }
    destruct (mid ++ post); cbn [has_statement negb andb]; rewrite He; reflexivity.
  - change (String c r ++ mid ++ post) with (String c (r ++ mid ++ post)).
    cbn [has_statement]. rewrite (IH (Js.is_word c)); [apply orb_true_r|].
    cbn [Js.is_empty] in Hpre. destruct r; [exact Hpre|exact Hpre].
Qed.

(** X24: [sqlInjectionProtection] calls [next()] exactly when no text of
    the body, the query or the route parameters, at any depth of
    nesting, matches one of the three patterns, and answers 400 with
    the error page otherwise.  It refuses every text that contains a
    single quote, a double quote or a semicolon, and every text that
    contains one of the eight statement words, in any mix of cases,
    between characters that are not word characters. *)
Theorem sql_screen (body query params : option (list (string * input)))
    (s : session) :
  let seen := (texts_of body ++ texts_of query ++ texts_of params)%list in
  (sqlInjectionProtection body query params s = Next
   <-> forall t, List.In t seen -> checkForSQLInjection t = false)
  /\ (sqlInjectionProtection body query params s <> Next ->
      sqlInjectionProtection body query params s
      = Answer (with_status 400
                  (render "error"
                     [ ("title", VStr "Security Error");
                       ("message",
                        VStr "Invalid input detected. Please check your data and try again.");
                       ("user", or_null VUser (user s)) ])))
  /\ (forall t, has_quote t = true -> checkForSQLInjection t = true)
  /\ (forall pre mid post word,
        List.In word statements ->
        after_word word mid = Some EmptyString ->
        ends_in_word_char pre = false ->
        starts_with_word_char post = false ->
        checkForSQLInjection (pre ++ mid ++ post) = true).
Proof.
  cbv zeta. unfold sqlInjectionProtection.
  rewrite !suspicious_texts, <- !List.existsb_app, <- List.app_assoc.
  split; [|split; [|split]].
  - destruct (List.existsb _ _) eqn:E.
    + split; [discriminate|]. intros Hall.
      apply List.existsb_exists in E as (t & Hin & Ht).
      rewrite (Hall t Hin) in Ht. discriminate.
    + split; [|reflexivity]. intros _ t Hin.
      destruct (checkForSQLInjection t) eqn:Ht; [|reflexivity].
      assert (List.existsb checkForSQLInjection
                (texts_of body ++ texts_of query ++ texts_of params)%list = true)
        by (apply List.existsb_exists; exists t; split; assumption).
      congruence.
  - destruct (List.existsb _ _); [reflexivity|congruence].
  - intros t Ht. unfold checkForSQLInjection. rewrite Ht. apply orb_true_r.
  - intros pre mid post word Hw Hm Hpre Hpost. unfold checkForSQLInjection.
    rewrite (has_statement_here pre mid post word false Hw Hm); [reflexivity| |exact Hpost].
    destruct pre; [reflexivity|exact Hpre].
Qed.

End ScreenFacts.


Lemma stats_add_up_witness :
  fst (Pages.get_public_stats (Sample.get "/api/stats" "") w_anonymous)
  = Pages.data_
      (Pages.Stats (counted (Store.rows (Store.projects (Http.data (Http.w_pool w_anonymous)))))).
Proof.
  destruct (stats_add_up (Sample.get "/api/stats" "") w_anonymous) as (Hpublic & _);
    [reflexivity | exact Hpublic].
Defined.

Lemma dashboard_flash_once_witness :
  let first := Pages.get_dashboard (H := Sample.libraries) (Sample.get "/dashboard" "")
                 w_alice_flash in
  let second := Pages.get_dashboard (H := Sample.libraries) (Sample.get "/dashboard" "")
                  (snd first) in
  (exists locals,
     fst first = Pages.view "dashboard" locals
     /\ In ("successMessage", Pages.Plain (Http.VStr "Project added successfully!")) locals
     /\ In ("errorMessage", Pages.Plain (Http.VStr "Project not found")) locals)
  /\ Http.successMessage (Http.w_session (snd first)) = None
  /\ Http.errorMessage (Http.w_session (snd first)) = None
  /\ (exists locals',
        fst second = Pages.view "dashboard" locals'
        /\ In ("successMessage", Pages.Plain Http.VNull) locals'
        /\ In ("errorMessage", Pages.Plain Http.VNull) locals').
Proof.
  intros first second.
  destruct (dashboard_flash_once (H := Sample.libraries) (Sample.get "/dashboard" "")
              w_alice_flash
              {| Http.su_uid := 1; Http.su_username := "alice";
                 Http.su_email := "alice@example.com" |})
    as (Hshown & _); [reflexivity|].
  destruct Hshown as (Hfirst & Hcleared & Hsecond); [reflexivity|].
  split; [exact Hfirst|]. subst first.
  split; [rewrite Hcleared; reflexivity|].
  split; [rewrite Hcleared; reflexivity|]. exact Hsecond.
Defined.




Lemma search_phase_widens_witness :
  exists c c' locals locals',
    fst (Listings.search_handler (H := Sample.libraries)
           (H0 := SampleBuiltins.builtins) (Sample.form [("query", "shop")]) []
           (Sample.get "/search" "") w_anonymous)
    = Pages.view "search-results" locals
    /\ In ("totalCount", Listings.number (Z.of_nat c)) locals
    /\ fst (Listings.search_handler (H := Sample.libraries)
              (H0 := SampleBuiltins.builtins)
              (<["phase" := "design"]> (Sample.form [("query", "shop")])) []
              (Sample.get "/search" "") w_anonymous)
       = Pages.view "search-results" locals'
    /\ In ("totalCount", Listings.number (Z.of_nat c')) locals'
    /\ c <= c'
    /\ List.length
         (List.filter
            (fun r => Listings.in_phase_text (H := Sample.libraries) "design" (fst r))
            (Listings.joined (Http.data (Http.w_pool w_anonymous))))
       <= c'.
Proof.
  apply (search_phase_widens (H := Sample.libraries) (H0 := SampleBuiltins.builtins)
           (Sample.form [("query", "shop")]) "design" [] (Sample.get "/search" "")
           w_anonymous);
    [ reflexivity
    | reflexivity
    | vm_compute; discriminate
    | reflexivity
    | vm_compute; discriminate ].
Defined.

Lemma session_limit_slides_witness :
  fst (SessionGuards.visits (Sample.get "/dashboard" "")
         [ (2000, 2001); (80000000, 80000002) ]%Z
         {| SessionGuards.t_session := Sample.session_of Sample.alice None;
            SessionGuards.t_lastActivity := Some 1000%Z |})
  = [Http.Next; Http.Next].
Proof.
  destruct (session_limit_slides (Sample.get "/dashboard" "")
              {| SessionGuards.t_session := Sample.session_of Sample.alice None;
                 SessionGuards.t_lastActivity := Some 1000%Z |} eq_refl)
    as (Hslides & _).
  destruct (Hslides [ (2000, 2001); (80000000, 80000002) ]%Z) as (Hnext & _);
    [ repeat split; vm_compute; discriminate | exact Hnext ].
Defined.

Lemma validation_redirect_settles_witness :
  fst (ValidationGuards.handleValidationErrors register_ab
         (Some "/register?error=validation#form") [uniqueness_error]
         {| ValidationGuards.f_session := Sample.anonymous;
            ValidationGuards.f_validationErrors := None;
            ValidationGuards.f_formData := None |})
  = Http.Answer (Http.redirect "/register?error=validation").
Proof.
  destruct (validation_redirect_settles register_ab
              (Some "/register?error=validation#form") [uniqueness_error]
              {| ValidationGuards.f_session := Sample.anonymous;
                 ValidationGuards.f_validationErrors := None;
                 ValidationGuards.f_formData := None |})
    as (_ & _ & Hbrowser & _).
  rewrite Hbrowser; [reflexivity | discriminate | reflexivity].
Defined.

Lemma sanitize_request_fields_witness :
  let query : gmap string Http.posted :=
    list_to_map [ ("q", Http.IsString " <b>shop</b> ");
                  ("tags", Http.NotString "<a>,<b>") ] in
  let body : gmap string Http.posted :=
    list_to_map [ ("username", Http.IsString " <carol> ");
                  ("password", Http.IsString " <s3cret> ");
                  ("title", Http.NotString "<x>") ] in
  let body' := snd (ValidationGuards.sanitizeRequest query body) in
  fst (ValidationGuards.sanitizeRequest query body) !! "q"
  = Some (Http.IsString "bshop/b")
  /\ body' !! "username" = Some (Http.IsString "carol")
  /\ body' !! "password" = Some (Http.IsString " <s3cret> ")
  /\ body' !! "title" = Some (Http.NotString "<x>")
  /\ body' !! "email" = None.
Proof.
  intros query body body'.
  destruct (sanitize_request_fields query body)
    as (Hquery & Hbody & Hkept & Hother & Hnone & _).
  split; [exact (Hquery "q" " <b>shop</b> " eq_refl)|].
  split; [apply (Hbody "username" " <carol> "); [discriminate|discriminate|reflexivity]|].
  split; [exact (Hkept "password" (or_introl eq_refl))|].
  split; [exact (proj2 (Hother "title" "<x>") eq_refl)|].
  exact (proj2 (Hnone "email") eq_refl).
Defined.

Lemma sql_screen_witness :
  SecurityGuards.checkForSQLInjection ("1 " ++ "drOp" ++ " table users")%string = true.
Proof.
  destruct (sql_screen None None None Sample.anonymous) as (_ & _ & _ & Hword).
  apply (Hword "1 " "drOp" " table users" "DROP");
    [ vm_compute; tauto | reflexivity | reflexivity | reflexivity ].
Defined.

Section TitleFacts.
Context `{Libraries}.
Import Store Http ValidationGuards.

Lemma same_title_none (uid : nat) (title id : string) (d : database) :
  select_same_title uid title id d = []
  <-> forall q, In q (rows (projects d)) ->
        ~ (p_uid q = uid /\ collate_eq (p_title q) title = true
           /\ (Js.is_empty id = true \/ sql_key id <> Some (p_pid q))).
Proof.
  unfold select_same_title. induction (rows (projects d)) as [|q l IH].
  - split; [intros _ q []|reflexivity].
  - cbn [List.filter].
    assert (Hq : Nat.eqb (p_uid q) uid && collate_eq (p_title q) title
                 && (Js.is_empty id || negb (key_matches (sql_key id) (p_pid q)))
                 = true
                 <-> (p_uid q = uid /\ collate_eq (p_title q) title = true
                      /\ (Js.is_empty id = true \/ sql_key id <> Some (p_pid q)))).
    { rewrite !andb_true_iff, orb_true_iff, negb_true_iff, Nat.eqb_eq.
      unfold key_matches. destruct (sql_key id) as [k|].
      - destruct (Nat.eqb_spec k (p_pid q)) as [->|Hne].
        + split; [intros [[? ?] [?|?]]; [tauto|discriminate]|].
          intros (? & ? & [?|Hk]); [tauto|congruence].
        + split; [intros [[? ?] _]|intros (? & ? & _); tauto].
          repeat split; try assumption. right. congruence.
      - split; [intros [[? ?] _]|intros (? & ? & _); tauto].
        repeat split; try assumption. right. discriminate. }
    destruct (Nat.eqb (p_uid q) uid && collate_eq (p_title q) title
              && (Js.is_empty id || negb (key_matches (sql_key id) (p_pid q)))) eqn:E.
    + cbn [List.map]. split; [discriminate|].
      intros Hall. exfalso. apply (Hall q (or_introl eq_refl)). apply Hq. reflexivity.
    + rewrite IH. split.
      * intros Hall q' [<-|Hin]; [|apply Hall, Hin].
        intros Hc. apply Hq in Hc. discriminate.
      * intros Hall q' Hin. apply Hall. right. exact Hin.
Qed.

Lemma unique_title_answers (req : request) (referer : option string)
    (s : form_session) (p : pool) (u : session_user) (title : string) :
  user (f_session s) = Some u ->
  body req !! "title" = Some title ->
  Js.is_empty title = false ->
  next_fault p = None ->
  uniqueProjectTitle req referer s p
  = let p' := {| data := data p; clock := clock p; faults := List.tl (faults p) |} in
    if AuthRoutes.is_nil (select_same_title (su_uid u) title (params_id req) (data p))
    then (Next, s, p')
    else if wants_json req then
      (Answer (with_status 400
                 (json [ ("error", VStr "You already have a project with this title") ])),
       s, p')
    else
      (Answer (redirect ((if Validator.falsy referer then "/dashboard"
                          else Validator.to_str referer) ++ "?error=validation")%string),
       {| f_session := f_session s;
          f_validationErrors := Some [title_clash];
          f_formData := Some (body req) |}, p').
Proof.
  intros Hu Ht Hne Hf.
  assert (Hfalsy : Validator.falsy (Some title) = false).
  { unfold Validator.falsy. destruct title; [discriminate|reflexivity]. }
  unfold uniqueProjectTitle. rewrite Hu.
  first [rewrite !Ht | repeat rewrite_conv Ht]. rewrite Hfalsy.
  cbn [Validator.to_str]. unfold query, execute, next_fault in *.
  cbn [w_pool w_session].
  destruct (faults p) as [|[e|] rest]; [|discriminate|]; reflexivity.
Qed.

(** X25: for a logged-in user who submits a title, when the store
    answers, [uniqueProjectTitle] calls [next()] exactly when no project
    of the user other than the one the route designates has that title
    under the collation of the column; so an edit that keeps the title
    of the project passes, and a second project with the title of
    another is refused, browsers finding the error and the form in the
    session.  When the statement fails the guard calls [next()]; it
    never writes to the store. *)
Theorem unique_title_guard (req : request) (referer : option string)
    (s : form_session) (p : pool) (u : session_user) (title : string) :
  let out := uniqueProjectTitle req referer s p in
  let clash q :=
    p_uid q = su_uid u /\ collate_eq (p_title q) title = true
    /\ (Js.is_empty (params_id req) = true
        \/ sql_key (params_id req) <> Some (p_pid q)) in
  user (f_session s) = Some u ->
  body req !! "title" = Some title ->
  Js.is_empty title = false ->
  (next_fault p = None ->
     (fst (fst out) = Next
      <-> forall q, In q (rows (projects (data p))) -> ~ clash q)
     /\ (forall own,
           sql_key (params_id req) = Some (p_pid own) ->
           Js.is_empty (params_id req) = false ->
           (forall q, In q (rows (projects (data p))) ->
              p_uid q = su_uid u -> collate_eq (p_title q) title = true ->
              p_pid q = p_pid own) ->
           fst (fst out) = Next)
     /\ (fst (fst out) = Next -> snd (fst out) = s)
     /\ (fst (fst out) <> Next -> wants_json req = false ->
         snd (fst out)
         = {| f_session := f_session s;
              f_validationErrors := Some [title_clash];
              f_formData := Some (body req) |}))
  /\ (forall e, next_fault p = Some e -> fst out = (Next, s))
  /\ data (snd out) = data p.
Proof.
  intros out clash Hu Ht Hne.
  pose proof (unique_title_answers req referer s p u title Hu Ht Hne) as Hans.
  pose proof (same_title_none (su_uid u) title (params_id req) (data p)) as Hn.
  fold out in Hans. split; [|split].
  - intros Hf. rewrite (Hans Hf). clear Hans. cbv zeta.
    destruct (select_same_title (su_uid u) title (params_id req) (data p))
      as [|pid l]; cbn [AuthRoutes.is_nil fst snd].
    + split; [split; [intros _; apply Hn; reflexivity|reflexivity]|].
      split; [reflexivity|]. split; [reflexivity|].
      intros Hx. exfalso. apply Hx. reflexivity.
    + assert (Hsome : ~ (forall q, In q (rows (projects (data p))) -> ~ clash q)).
      { intros Hall. apply Hn in Hall. discriminate. }
      split; [|split; [|split]].
      * destruct (wants_json req); (split; [discriminate|intros Hall; tauto]).
      * intros own Hk Hid Hothers. exfalso. apply Hsome.
        intros q Hin (Hq1 & Hq2 & [Hq3|Hq3]); [congruence|].
        apply Hq3. rewrite Hk. f_equal. symmetry. apply Hothers; assumption.
      * destruct (wants_json req); discriminate.
      * intros _ ->. reflexivity.
  - intros e He. clear Hans. subst out. unfold uniqueProjectTitle. rewrite Hu.
    assert (Hfalsy : Validator.falsy (Some title) = false).
    { unfold Validator.falsy. destruct title; [discriminate|reflexivity]. }
    first [rewrite !Ht | repeat rewrite_conv Ht]. rewrite Hfalsy.
    unfold query, execute, next_fault in *. cbn [w_pool w_session].
    destruct (faults p) as [|[e'|] rest]; [discriminate| |discriminate]. reflexivity.
  - destruct (next_fault p) as [e|] eqn:Hf.
    + clear Hans. subst out. unfold uniqueProjectTitle. rewrite Hu.
      destruct (Validator.falsy _); [reflexivity|].
      unfold query, execute, next_fault in *. cbn [w_pool w_session].
      destruct (faults p) as [|[e'|] rest]; [discriminate| |discriminate]. reflexivity.
    + rewrite (Hans eq_refl). cbv zeta.
      destruct (AuthRoutes.is_nil _); [|destruct (wants_json req)]; reflexivity.
Qed.

End TitleFacts.

Lemma unique_title_guard_witness :
  fst (fst (ValidationGuards.uniqueProjectTitle (H := Sample.libraries)
              (Sample.post "/edit-project/1" "1" [("title", "E-commerce Site")])
              (Some "/edit-project/1")
              {| ValidationGuards.f_session := Sample.session_of Sample.alice None;
                 ValidationGuards.f_validationErrors := None;
                 ValidationGuards.f_formData := None |}
              (Sample.reliable Sample.store)))
  = Http.Next.
Proof.
  destruct (unique_title_guard (H := Sample.libraries)
              (Sample.post "/edit-project/1" "1" [("title", "E-commerce Site")])
              (Some "/edit-project/1")
              {| ValidationGuards.f_session := Sample.session_of Sample.alice None;
                 ValidationGuards.f_validationErrors := None;
                 ValidationGuards.f_formData := None |}
              (Sample.reliable Sample.store)
              {| Http.su_uid := 1; Http.su_username := "alice";
                 Http.su_email := "alice@example.com" |}
              "E-commerce Site") as (Hanswers & _);
    [reflexivity .. |].
  destruct Hanswers as (_ & Hown & _); [reflexivity|].
  apply (Hown Sample.site); [reflexivity | reflexivity |].
  intros q [<-|[]] _ _. reflexivity.
Defined.
